(** * Price-optimisation agent: a shallow embedding of droidrun_mobile_agent.py

  The development follows the Python module section by section: the value
  model, the price parsers, the screen inspectors, the vision-oracle
  response decoding, the scroll search and the optimisation loop.  Device
  and oracle calls are fallible operations on an abstract world; Python
  exceptions are the [Raise] outcome of the program monad. *)

From Stdlib Require Import Ascii QArith Lqa Sorted.
From stdpp Require Import base option list strings gmap sets.

Local Open Scope Z_scope.
Set Warnings "-register-all".

(** ** Text helpers: the fragments of [str] the module relies on

  A Python [str] is modelled by its UTF-8 bytes.  Substring tests and
  replacements of well-formed UTF-8 needles act on the bytes exactly as they
  act on the code points. *)

Module Text.

Fixpoint prefix (p s : string) : bool :=
  match p, s with
  | EmptyString, _ => true
  | String a p', String b s' => if decide (a = b) then prefix p' s' else false
  | String _ _, EmptyString => false
  end.

(** [needle in s] *)
Fixpoint contains (needle s : string) : bool :=
  prefix needle s ||
  match s with
  | EmptyString => false
  | String _ s' => contains needle s'
  end.

(** [s.replace(old, new)] for a non-empty [old]: occurrences are replaced
    from the left and do not overlap.  [skip] counts the bytes of a matched
    occurrence that remain to be dropped. *)
Fixpoint replace_from (skip : nat) (old new s : string) : string :=
  match s with
  | EmptyString => EmptyString
  | String c s' =>
      match skip with
      | S k => replace_from k old new s'
      | O =>
          if prefix old s
          then new +:+ replace_from (String.length old - 1) old new s'
          else String c (replace_from 0 old new s')
      end
  end.

Definition replace (old new s : string) : string := replace_from 0 old new s.

Definition is_space (c : ascii) : bool :=
  let n := nat_of_ascii c in
  (Nat.leb 9 n && Nat.leb n 13) || (Nat.leb 28 n && Nat.leb n 32).

Fixpoint lstrip (s : string) : string :=
  match s with
  | String c s' => if is_space c then lstrip s' else s
  | EmptyString => EmptyString
  end.

Fixpoint rstrip (s : string) : string :=
  match s with
  | EmptyString => EmptyString
  | String c s' =>
      match rstrip s' with
      | EmptyString => if is_space c then EmptyString else String c EmptyString
      | r => String c r
      end
  end.

(** [s.strip()], on the ASCII white space *)
Definition strip (s : string) : string := rstrip (lstrip s).

Definition is_digit (c : ascii) : bool :=
  let n := nat_of_ascii c in Nat.leb 48 n && Nat.leb n 57.

Definition is_dot (c : ascii) : bool := bool_decide (c = "."%char).

Definition digit_val (c : ascii) : Z := Z.of_nat (nat_of_ascii c) - 48.

(** the longest prefix whose characters satisfy [p], and the rest *)
Fixpoint span (p : ascii -> bool) (s : string) : string * string :=
  match s with
  | String c s' =>
      if p c then let '(a, b) := span p s' in (String c a, b)
      else (EmptyString, s)
  | EmptyString => (EmptyString, EmptyString)
  end.

Fixpoint forallb (p : ascii -> bool) (s : string) : bool :=
  match s with
  | String c s' => p c && forallb p s'
  | EmptyString => true
  end.

(** value of a string of decimal digits, most significant first *)
Fixpoint digits_from (acc : Z) (s : string) : Z :=
  match s with
  | String c s' => digits_from (10 * acc + digit_val c) s'
  | EmptyString => acc
  end.

End Text.

(** ** Price extraction (lines 430-452)

  A Python float is modelled by the rational it denotes: both parsers hand
  a string of ASCII digits and dots to [float], which is a function of the
  decimal value read here.  The rational is the float itself while the
  string has at most 15 significant digits; on a longer string [float]
  rounds to the nearest double, and from 310 digits on it gives [inf]:
  statements that name the value read are made of the shorter strings.
  Non-ASCII decimal digits, which Python's [\d] also accepts, are outside
  the model. *)

Module Price.

Inductive xfloat : Type :=
| Finite (q : Q)
| PosInf.

Fixpoint pow10 (n : nat) : positive :=
  match n with
  | O => 1%positive
  | S k => (10 * pow10 k)%positive
  end.

(** [float(s)] on a string of digits and dots: an integer part, optionally
    a dot and a fraction part, at least one digit in all; [None] stands for
    [ValueError]. *)
Definition float_of_decimal (s : string) : option Q :=
  let '(ip, rest) := Text.span Text.is_digit s in
  match rest with
  | EmptyString =>
      if decide (ip = "") then None else Some (Text.digits_from 0 ip # 1)
  | String c fp =>
      if Text.is_dot c && Text.forallb Text.is_digit fp
         && negb (bool_decide (ip = "") && bool_decide (fp = ""))
      then Some (Text.digits_from 0 (ip +:+ fp) # pow10 (String.length fp))
      else None
  end.

(** the four [replace] calls shared by both parsers, in source order;
    the last one finds nothing, every [Rs] being gone by then *)
Definition clean (text : string) : string :=
  Text.replace "Rs." ""
    (Text.replace "," ""
       (Text.replace "Rs" ""
          (Text.replace "₹" "" text))).

(** what [\d+(?:\.\d{1,2})?] matches at a position holding a digit *)
Definition match_price (s : string) : string :=
  let '(d, rest) := Text.span Text.is_digit s in
  match rest with
  | String c (String c1 r1) =>
      if Text.is_dot c && Text.is_digit c1 then
        match r1 with
        | String c2 _ =>
            if Text.is_digit c2
            then d +:+ String c (String c1 (String c2 EmptyString))
            else d +:+ String c (String c1 EmptyString)
        | EmptyString => d +:+ String c (String c1 EmptyString)
        end
      else d
  | _ => d
  end.

(** [re.search(r'(\d+(?:\.\d{1,2})?)', s)]: the leftmost match *)
Fixpoint search_price (s : string) : option string :=
  match s with
  | EmptyString => None
  | String c s' =>
      if Text.is_digit c then Some (match_price s) else search_price s'
  end.

Definition digit_or_dot (c : ascii) : bool := Text.is_digit c || Text.is_dot c.

(** [re.search(r'[\d.]+', s)]: the leftmost, longest run *)
Fixpoint search_digits_dots (s : string) : option string :=
  match s with
  | EmptyString => None
  | String c s' =>
      if digit_or_dot c then Some (fst (Text.span digit_or_dot s))
      else search_digits_dots s'
  end.

(** a run of digits and dots that reads as a price: digits, optionally a dot
    and at most two more digits *)
Definition price_shaped (r : string) : bool :=
  let '(d, rest) := Text.span Text.is_digit r in
  negb (bool_decide (d = "")) &&
  match rest with
  | EmptyString => true
  | String c f =>
      Text.is_dot c && Text.forallb Text.is_digit f && Nat.leb (String.length f) 2
  end.

Definition extract_price_from_text (text : string) : option Q :=
  if decide (text = "") then None
  else
    let text := Text.strip (clean text) in
    match search_price text with
    | Some m => float_of_decimal m
    | None => None
    end.

Definition extract_price_value (price_str : string) : xfloat :=
  if decide (price_str = "") then PosInf
  else if decide (price_str = "N/A") then PosInf
  else
    let price_str := clean price_str in
    match search_digits_dots price_str with
    | Some m =>
        match float_of_decimal m with
        | Some v => Finite v
        | None => PosInf
        end
    | None => PosInf
    end.

End Price.

(** ** Python values and outcomes

    Prices travel through the module as whatever [json.loads] or [float]
    produced, so the model keeps them dynamically typed.  [VFloat] holds the
    finite floats: the literals [NaN], [Infinity] and [-Infinity], which
    [json.loads] also accepts, have no value here, and a run whose oracle
    replies with one of them is outside the model.  [Raise] is a Python
    exception; only [JSONDecodeError] is ever caught by name. *)

Inductive exn : Type :=
| JSONDecodeError
| OtherError.

Inductive res (A : Type) : Type :=
| Ok (a : A)
| Raise (e : exn).

Arguments Ok {A} a.
Arguments Raise {A} e.

Module Py.

Inductive value : Type :=
| VNone
| VBool (b : bool)
| VInt (z : Z)
| VFloat (q : Q)
| VStr (s : string)
| VList (l : list value)
| VDict (kv : list (string * value)).

(** the number a value denotes in arithmetic and ordering; [bool] is a
    subtype of [int] *)
Definition num_of (v : value) : option Q :=
  match v with
  | VBool b => Some (if b then 1 else 0)%Q
  | VInt z => Some (z # 1)
  | VFloat q => Some q
  | _ => None
  end.

Definition Qlt_bool (x y : Q) : bool := negb (Qle_bool y x).

(** [bool(v)] *)
Definition truthy (v : value) : bool :=
  match v with
  | VNone => false
  | VBool b => b
  | VInt z => negb (Z.eqb z 0)
  | VFloat q => negb (Qeq_bool q 0)
  | VStr s => negb (bool_decide (s = ""))
  | VList l => negb (bool_decide (length l = 0%nat))
  | VDict kv => negb (bool_decide (length kv = 0%nat))
  end.

(** [a - b]: defined on numbers only among the values above *)
Definition sub (a b : value) : res Q :=
  match num_of a, num_of b with
  | Some x, Some y => Ok (x - y)%Q
  | _, _ => Raise OtherError
  end.

(** [a / b] for a number [a]: [ZeroDivisionError] on a zero divisor *)
Definition div (a : Q) (b : value) : res Q :=
  match num_of b with
  | Some y => if Qeq_bool y 0 then Raise OtherError else Ok (a / y)%Q
  | None => Raise OtherError
  end.

Fixpoint assoc (k : string) (kv : list (string * value)) : option value :=
  match kv with
  | [] => None
  | (k', v) :: rest => if decide (k = k') then Some v else assoc k rest
  end.

(** [v[k]] for a string key: [KeyError] or [TypeError] otherwise *)
Definition subscript (v : value) (k : string) : res value :=
  match v with
  | VDict kv =>
      match assoc k kv with
      | Some x => Ok x
      | None => Raise OtherError
      end
  | _ => Raise OtherError
  end.

(** [v.get(k, default)]: [AttributeError] when [v] is not a dict *)
Definition get (v : value) (k : string) (default : value) : res value :=
  match v with
  | VDict kv =>
      match assoc k kv with
      | Some x => Ok x
      | None => Ok default
      end
  | _ => Raise OtherError
  end.

(** [v[:60]] succeeds on strings and lists only *)
Definition sliceable (v : value) : bool :=
  match v with
  | VStr _ | VList _ => true
  | _ => false
  end.

(** [a != b] for a float [a] read from the page *)
Definition float_ne (a : Q) (b : value) : bool :=
  match num_of b with
  | Some y => negb (Qeq_bool a y)
  | None => true
  end.

End Py.

(** What the embedding takes from the Python runtime and its libraries,
    none of it code of this module: the JSON decoder, the ordering and the
    sort of values that are not numbers, the string hash, and [str()] of a
    value inside an f-string. *)
Record Env : Type := {
  json_loads : string -> option Py.value;
  lt_other : Py.value -> Py.value -> res bool;
  sort_other : list Py.value -> res (list Py.value);
  py_hash : string -> Z;
  format_value : Py.value -> string
}.

(** [a < b]: numeric between numbers, [TypeError] between a number and
    anything else, the runtime's business between two non-numbers *)
Definition py_lt (env : Env) (a b : Py.value) : res bool :=
  match Py.num_of a, Py.num_of b with
  | Some x, Some y => Ok (Py.Qlt_bool x y)
  | None, None => lt_other env a b
  | _, _ => Raise OtherError
  end.

(** ** The device, the oracle and the program monad *)

Inductive selector : Type :=
| TextContains (s : string)
| ResourceId (s : string)
| ClassName (s : string).

Inductive adb_command : Type :=
| AdbTap (x y : Py.value)
| AdbKeyevent (code : string).

(** the two oracle requests the loop issues; the prompt text is a function
    of these fields and of [ORIGINAL_PRODUCT_NAME] *)
Inductive request : Type :=
| FindCheaper (product_name : option string) (current_price : Py.value)
| FindAvailable (current_title : option string) (current_price : Py.value).

(** Every primitive may raise and may change the world it runs in.
    [dev_get_text sel None] is [device(sel).get_text()], [Some i] is
    [device(sel)[i].get_text()], an absent text reads as the empty string;
    [dev_screenshot] is the body of [capture_screenshot], [Ok false] when the
    saved file does not exist; [dev_vision] is [Image.open],
    [generate_content] and [response.text] together; [dev_info] is the pair
    of [displayWidth] and [displayHeight] after their defaults;
    [dev_adb] is [execute_adb_command], which swallows its own errors. *)
Record Device (W : Type) : Type := {
  dev_exists : selector -> W -> res bool * W;
  dev_count : selector -> W -> res nat * W;
  dev_get_text : selector -> option nat -> W -> res string * W;
  dev_info : W -> res (Z * Z) * W;
  dev_screenshot : W -> res bool * W;
  dev_vision : request -> W -> res string * W;
  dev_click : Py.value -> Py.value -> W -> res unit * W;
  dev_swipe : Z -> Z -> Z -> Z -> W -> res unit * W;
  dev_dump_hierarchy : W -> res string * W;
  dev_adb : adb_command -> W -> W
}.

Arguments dev_exists {W} _ _ _.
Arguments dev_count {W} _ _ _.
Arguments dev_get_text {W} _ _ _ _.
Arguments dev_info {W} _ _.
Arguments dev_screenshot {W} _ _.
Arguments dev_vision {W} _ _ _.
Arguments dev_click {W} _ _ _ _.
Arguments dev_swipe {W} _ _ _ _ _ _.
Arguments dev_dump_hierarchy {W} _ _.
Arguments dev_adb {W} _ _ _.

(** the calls made on the device, in order, with what they returned *)
Inductive event : Type :=
| EvExists (sel : selector) (r : res bool)
| EvCount (sel : selector) (r : res nat)
| EvGetText (sel : selector) (i : option nat) (r : res string)
| EvInfo (r : res (Z * Z))
| EvScreenshot (r : res bool)
| EvVision (req : request) (r : res string)
| EvClick (x y : Py.value) (r : res unit)
| EvSwipe (x1 y1 x2 y2 : Z) (r : res unit)
| EvDump (r : res string)
| EvAdb (cmd : adb_command).

(** The module's globals (lines 99-101) together with the world and the
    log of device calls. *)
Record state (W : Type) : Type := State {
  world : W;
  GLOBAL_LOWEST_PRICE : Py.value;
  PRICE_CHECK_HISTORY : list Py.value;
  VISITED_PRODUCTS : gset string;
  trace : list event
}.

Arguments State {W} _ _ _ _ _.
Arguments world {W} _.
Arguments GLOBAL_LOWEST_PRICE {W} _.
Arguments PRICE_CHECK_HISTORY {W} _.
Arguments VISITED_PRODUCTS {W} _.
Arguments trace {W} _.

Definition initial_state {W : Type} (w : W) : state W :=
  State w Py.VNone [] ∅ [].

Definition M (W A : Type) : Type := state W -> res A * state W.

Definition ret {W A : Type} (a : A) : M W A := fun s => (Ok a, s).

Definition throw {W A : Type} (e : exn) : M W A := fun s => (Raise e, s).

Definition bind {W A B : Type} (m : M W A) (f : A -> M W B) : M W B :=
  fun s =>
    match m s with
    | (Ok a, s') => f a s'
    | (Raise e, s') => (Raise e, s')
    end.

(** [try: m except Exception: h] *)
Definition catch {W A : Type} (m : M W A) (h : M W A) : M W A :=
  fun s =>
    match m s with
    | (Ok a, s') => (Ok a, s')
    | (Raise _, s') => h s'
    end.

(** [try: m except json.JSONDecodeError: h] *)
Definition catch_json {W A : Type} (m : M W A) (h : M W A) : M W A :=
  fun s =>
    match m s with
    | (Raise JSONDecodeError, s') => h s'
    | r => r
    end.

Definition lift {W A : Type} (r : res A) : M W A := fun s => (r, s).

Definition res_bind {A B : Type} (r : res A) (f : A -> res B) : res B :=
  match r with
  | Ok a => f a
  | Raise e => Raise e
  end.

#[global] Instance M_ret (W : Type) : MRet (M W) := fun A => @ret W A.
#[global] Instance M_bind (W : Type) : MBind (M W) := fun A B f m => @bind W A B m f.
#[global] Instance res_ret : MRet res := fun A => @Ok A.
#[global] Instance res_mbind : MBind res := fun A B f r => @res_bind A B r f.

(** one device call: run it on the world and log it *)
Definition call {W A : Type} (op : W -> res A * W) (ev : res A -> event) : M W A :=
  fun s =>
    let '(r, w) := op (world s) in
    (r, State w (GLOBAL_LOWEST_PRICE s) (PRICE_CHECK_HISTORY s)
          (VISITED_PRODUCTS s) (trace s ++ [ev r])).

Definition read_global {W : Type} : M W Py.value :=
  fun s => (Ok (GLOBAL_LOWEST_PRICE s), s).

Definition write_global {W : Type} (v : Py.value) : M W unit :=
  fun s => (Ok tt, State (world s) v (PRICE_CHECK_HISTORY s)
                     (VISITED_PRODUCTS s) (trace s)).

Definition append_history {W : Type} (v : Py.value) : M W unit :=
  fun s => (Ok tt, State (world s) (GLOBAL_LOWEST_PRICE s)
                     (PRICE_CHECK_HISTORY s ++ [v]) (VISITED_PRODUCTS s) (trace s)).

Definition visited {W : Type} (fp : string) : M W bool :=
  fun s => (Ok (bool_decide (fp ∈ VISITED_PRODUCTS s)), s).

Definition add_visited {W : Type} (fp : string) : M W unit :=
  fun s => (Ok tt, State (world s) (GLOBAL_LOWEST_PRICE s) (PRICE_CHECK_HISTORY s)
                     ({[ fp ]} ∪ VISITED_PRODUCTS s) (trace s)).

(** how a loop body hands control back: fall through to the next step,
    [break], or [return a] *)
Inductive ctl (A : Type) : Type :=
| Next
| Break
| Return (a : A).

Arguments Next {A}.
Arguments Break {A}.
Arguments Return {A} a.

(** ** Decoding of oracle responses *)

Module Oracle.

(** the suffix of [s] that starts at the first [c] *)
Fixpoint from_first (c : ascii) (s : string) : option string :=
  match s with
  | EmptyString => None
  | String a s' => if decide (a = c) then Some s else from_first c s'
  end.

(** the prefix of [s] that ends at the last [c] *)
Fixpoint upto_last (c : ascii) (s : string) : option string :=
  match s with
  | EmptyString => None
  | String a s' =>
      match upto_last c s' with
      | Some r => Some (String a r)
      | None => if decide (a = c) then Some (String a EmptyString) else None
      end
  end.

(** [re.search(r'\[.*\]', s, re.DOTALL)]: from the first opening bracket to
    the last closing bracket after it *)
Definition search_brackets (s : string) : option string :=
  match from_first "["%char s with
  | Some s1 => upto_last "]"%char s1
  | None => None
  end.

(** [text.replace('```json', '').replace('```', '').strip()] *)
Definition strip_fences (text : string) : string :=
  Text.strip (Text.replace "```" "" (Text.replace "```json" "" text)).

(** [json.loads], raising [JSONDecodeError] *)
Definition loads (env : Env) (text : string) : res Py.value :=
  match json_loads env text with
  | Some v => Ok v
  | None => Raise JSONDecodeError
  end.

(** one round of the printing loop of lines 278-282: each subscript, the
    subtraction, the division and the slice may raise *)
Definition report_item (current_price p : Py.value) : res unit :=
  price ← Py.subscript p "price";
  savings ← Py.sub current_price price;
  _ ← Py.div savings current_price;
  _ ← Py.subscript p "x";
  _ ← Py.subscript p "y";
  title ← Py.subscript p "title";
  if Py.sliceable title then Ok tt else Raise OtherError.

Fixpoint report_items (current_price : Py.value) (l : list Py.value) : res unit :=
  match l with
  | [] => Ok tt
  | p :: rest => _ ← report_item current_price p; report_items current_price rest
  end.

(** lines 276-282 for a truthy [products]: [len] and the iteration raise on
    everything but a list, a string or a dict, and the items of a string or
    of a dict are strings, which have no ['price'] *)
Definition report_products (current_price products : Py.value) : res unit :=
  match products with
  | Py.VList l => report_items current_price l
  | _ => Raise OtherError
  end.

(** lines 271-297, after the response text has been read and stripped *)
Definition parse_cheaper (env : Env) (current_price : Py.value)
    (response_text : string) : res Py.value :=
  let response_text := strip_fences response_text in
  match json_loads env response_text with
  | Some products =>
      if Py.truthy products
      then _ ← report_products current_price products; Ok products
      else Ok products
  | None =>
      match search_brackets response_text with
      | Some m =>
          match json_loads env m with
          | Some products => Ok products
          | None => Ok (Py.VList [])
          end
      | None => Ok (Py.VList [])
      end
  end.

(** [ORIGINAL_PRODUCT_NAME or name], handed to
    [extract_key_product_features], whose first [.lower()] raises on [None] *)
Definition features_source (original : string) (name : option string) : res string :=
  if decide (original = "") then
    match name with
    | Some n => Ok n
    | None => Raise OtherError
    end
  else Ok original.

Fixpoint keys_of (l : list Py.value) : res (list Py.value) :=
  match l with
  | [] => Ok []
  | x :: rest =>
      k ← Py.subscript x "price";
      ks ← keys_of rest;
      Ok (k :: ks)
  end.

Fixpoint insert_by_price (k : Q) (x : Py.value) (l : list (Q * Py.value))
    : list (Q * Py.value) :=
  match l with
  | [] => [(k, x)]
  | (k', y) :: rest =>
      if Py.Qlt_bool k' k then (k', y) :: insert_by_price k x rest
      else (k, x) :: l
  end.

Fixpoint sort_pairs (l : list (Q * Py.value)) : list (Q * Py.value) :=
  match l with
  | [] => []
  | (k, x) :: rest => insert_by_price k x (sort_pairs rest)
  end.

Fixpoint numeric_keys (ks : list Py.value) : option (list Q) :=
  match ks with
  | [] => Some []
  | k :: rest =>
      match Py.num_of k, numeric_keys rest with
      | Some q, Some qs => Some (q :: qs)
      | _, _ => None
      end
  end.

(** [products.sort(key=lambda x: x['price'])]: the keys are computed first;
    numeric keys sort stably in ascending order; a list of two or more that
    mixes numbers with other keys raises [TypeError], every element being
    compared with another one; lists without a numeric key are the
    runtime's business *)
Definition sort_by_price (env : Env) (products : Py.value) : res (list Py.value) :=
  match products with
  | Py.VList l =>
      ks ← keys_of l;
      match numeric_keys ks with
      | Some qs => Ok (map snd (sort_pairs (zip qs l)))
      | None =>
          if bool_decide (length l ≤ 1)%nat then Ok l
          else if existsb (fun k => bool_decide (is_Some (Py.num_of k))) ks
          then Raise OtherError
          else sort_other env l
      end
  | _ => Raise OtherError
  end.

End Oracle.

(** ** The agent *)

Section Agent.

Context {W : Type}.
Variable dev : Device W.
Variable env : Env.
Variable ORIGINAL_PRODUCT_NAME : string.

Definition exists_ (sel : selector) : M W bool :=
  call (dev_exists dev sel) (EvExists sel).

Definition count_ (sel : selector) : M W nat :=
  call (dev_count dev sel) (EvCount sel).

Definition get_text (sel : selector) (i : option nat) : M W string :=
  call (dev_get_text dev sel i) (EvGetText sel i).

Definition info : M W (Z * Z) := call (dev_info dev) EvInfo.

Definition screenshot : M W bool := call (dev_screenshot dev) EvScreenshot.

Definition generate_content (req : request) : M W string :=
  call (dev_vision dev req) (EvVision req).

Definition click (x y : Py.value) : M W unit :=
  call (dev_click dev x y) (EvClick x y).

Definition swipe (x1 y1 x2 y2 : Z) : M W unit :=
  call (dev_swipe dev x1 y1 x2 y2) (EvSwipe x1 y1 x2 y2).

Definition dump_hierarchy : M W string :=
  call (dev_dump_hierarchy dev) EvDump.

Definition execute_adb_command (cmd : adb_command) : M W unit :=
  fun s => (Ok tt, State (dev_adb dev cmd (world s)) (GLOBAL_LOWEST_PRICE s)
                     (PRICE_CHECK_HISTORY s) (VISITED_PRODUCTS s)
                     (trace s ++ [EvAdb cmd])).

(** lines 152-175: [true] for a path, [false] for [None] *)
Definition capture_screenshot : M W bool :=
  catch screenshot (ret false).

(** lines 216-303 *)
Definition analyze_screenshot_for_cheaper_products
    (current_price : Py.value) (product_name : option string) : M W Py.value :=
  catch
    (_ ← lift (Oracle.features_source ORIGINAL_PRODUCT_NAME product_name);
     text ← generate_content (FindCheaper product_name current_price);
     lift (Oracle.parse_cheaper env current_price (Text.strip text)))
    (ret (Py.VList [])).

(** [if GLOBAL_LOWEST_PRICE is None or x < GLOBAL_LOWEST_PRICE:
    GLOBAL_LOWEST_PRICE = x] *)
Definition lower_global (x : Py.value) : M W unit :=
  g ← read_global;
  match g with
  | Py.VNone => write_global x
  | _ =>
      b ← lift (py_lt env x g);
      if b : bool then write_global x else ret tt
  end.

(** lines 362-390: the tap, with its fallback through adb *)
Definition tap_and_record (x y best_price : Py.value) : M W (bool * Py.value) :=
  catch
    (_ ← click x y;
     _ ← lower_global best_price;
     ret (true, best_price))
    (_ ← execute_adb_command (AdbTap x y);
     _ ← lower_global best_price;
     ret (true, best_price)).

(** lines 335-395: the capture of an even-numbered step *)
Definition capture_step (current_price : Py.value) (product_name : option string)
    : M W (ctl (bool * Py.value)) :=
  shot ← capture_screenshot;
  if shot : bool then
    cheaper_products ← analyze_screenshot_for_cheaper_products current_price product_name;
    if Py.truthy cheaper_products then
      sorted ← lift (Oracle.sort_by_price env cheaper_products);
      match sorted with
      | [] => throw OtherError
      | cheapest :: _ =>
          price ← lift (Py.subscript cheapest "price");
          lower ← lift (py_lt env price current_price);
          if lower : bool then
            x ← lift (Py.subscript cheapest "x");
            y ← lift (Py.subscript cheapest "y");
            savings ← lift (Py.sub current_price price);
            _ ← lift (Py.div savings current_price);
            r ← tap_and_record x y price;
            ret (Return r)
          else ret Next
      end
    else ret Next
  else ret Next.

(** lines 397-413: one swipe between two hashes of the hierarchy *)
Definition scroll_step (center_x scroll_start_y scroll_end_y : Z)
    : M W (ctl (bool * Py.value)) :=
  catch
    (before_scroll ← dump_hierarchy;
     _ ← swipe center_x scroll_start_y center_x scroll_end_y;
     after_scroll ← dump_hierarchy;
     if decide (py_hash env before_scroll = py_hash env after_scroll)
     then ret Break else ret Next)
    (ret Break).

(** the body of [for scroll_num in range(max_scrolls)] *)
Definition scroll_body (current_price : Py.value) (product_name : option string)
    (center_x scroll_start_y scroll_end_y : Z) (scroll_num : nat)
    : M W (ctl (bool * Py.value)) :=
  c ← (if Nat.even scroll_num then capture_step current_price product_name
       else ret Next);
  match c with
  | Next => scroll_step center_x scroll_start_y scroll_end_y
  | _ => ret c
  end.

(** the [for] loop over [range(scroll_num, scroll_num + n)] and the
    fall-through of lines 415-418 *)
Fixpoint scroll_loop (n : nat) (current_price : Py.value)
    (product_name : option string) (center_x scroll_start_y scroll_end_y : Z)
    (scroll_num : nat) : M W (bool * Py.value) :=
  match n with
  | O => ret (false, current_price)
  | S n' =>
      c ← scroll_body current_price product_name
            center_x scroll_start_y scroll_end_y scroll_num;
      match c with
      | Next =>
          scroll_loop n' current_price product_name
            center_x scroll_start_y scroll_end_y (S scroll_num)
      | Break => ret (false, current_price)
      | Return r => ret r
      end
  end.

Definition max_scrolls : nat := 15.

(** lines 309-424 *)
Definition smart_scroll_and_find_cheaper
    (current_price : Py.value) (product_name : option string)
    : M W (bool * Py.value) :=
  catch
    ('(screen_width, screen_height) ← info;
     let center_x := screen_width `div` 2 in
     let scroll_start_y := (3 * screen_height) `quot` 4 in
     let scroll_end_y := screen_height `quot` 4 in
     scroll_loop max_scrolls current_price product_name
       center_x scroll_start_y scroll_end_y 0)
    (ret (false, current_price)).

(** *** Page state (lines 458-553) *)

(** the inner loop of [get_current_price_from_page] over
    [range(i, i + n)] *)
Fixpoint scan_prices (sel : selector) (n i : nat) : M W (option Q) :=
  match n with
  | O => ret None
  | S n' =>
      r ← catch
            (price_text ← get_text sel (Some i);
             if decide (price_text = "") then ret None
             else
               match Price.extract_price_from_text price_text with
               | Some q => if Py.Qlt_bool 0 q then ret (Some q) else ret None
               | None => ret None
               end)
            (ret None);
      match r with
      | Some q => ret (Some q)
      | None => scan_prices sel n' (S i)
      end
  end.

Definition prices_matching (pattern : string) : M W (option Q) :=
  catch
    (count ← count_ (TextContains pattern);
     scan_prices (TextContains pattern) (Nat.min count 3) 0)
    (ret None).

Definition get_current_price_from_page : M W (option Q) :=
  r ← prices_matching "₹";
  match r with
  | Some q => ret (Some q)
  | None => prices_matching "Rs"
  end.

(** [len(title)]: the code points of a UTF-8 string are its bytes that
    are not continuation bytes *)
Fixpoint len (s : string) : nat :=
  match s with
  | EmptyString => O
  | String c s' =>
      let n := nat_of_ascii c in
      if Nat.leb 128 n && Nat.ltb n 192 then len s' else S (len s')
  end.

Definition title_from (sel : selector) : M W (option string) :=
  catch
    (found ← exists_ sel;
     if found : bool then
       title ← get_text sel None;
       if negb (bool_decide (title = "")) && Nat.ltb 10 (len title)
       then ret (Some (Text.strip title)) else ret None
     else ret None)
    (ret None).

Definition extract_product_title_from_page : M W (option string) :=
  r ← title_from (ResourceId "com.android.chrome:id/title");
  match r with
  | Some t => ret (Some t)
  | None => title_from (ClassName "android.widget.TextView")
  end.

Definition error_indicators : list string :=
  ["404"; "Page not found"; "Access Denied"; "Error"; "Something went wrong"; "Oops"].

Fixpoint any_on_screen (texts : list string) : M W bool :=
  match texts with
  | [] => ret false
  | t :: rest =>
      found ← catch (exists_ (TextContains t)) (ret false);
      if found : bool then ret true else any_on_screen rest
  end.

Definition check_page_errors : M W bool := any_on_screen error_indicators.

Definition stock_indicators : list string :=
  ["Out of Stock"; "Currently unavailable"; "Notify Me"; "Sold Out";
   "Not Available"; "out of stock"; "currently unavailable"].

Definition add_to_cart_buttons : list string :=
  ["Add to Cart"; "ADD TO CART"; "Add to Bag"; "Buy Now"; "BUY NOW"].

(** lines 531-536: [out_of_stock_count] *)
Fixpoint count_indicators (texts : list string) : M W nat :=
  match texts with
  | [] => ret O
  | t :: rest =>
      found ← catch (exists_ (TextContains t)) (ret false);
      n ← count_indicators rest;
      ret (if found : bool then S n else n)
  end.

(** lines 546-549, inside the [try] of line 544 *)
Fixpoint find_button (buttons : list string) : M W bool :=
  match buttons with
  | [] => ret false
  | b :: rest =>
      found ← exists_ (TextContains b);
      if found : bool then ret true else find_button rest
  end.

Definition check_out_of_stock : M W bool :=
  out_of_stock_count ← count_indicators stock_indicators;
  if Nat.leb 2 out_of_stock_count then ret true
  else
    button ← catch (find_button add_to_cart_buttons) (ret false);
    if button : bool then ret false
    else ret (Nat.ltb 0 out_of_stock_count).

(** *** The optimisation loop (lines 559-922) *)

(** the [return] statements of [process_product_page_loop], by line *)
Inductive exit_site : Type :=
| Line588
| Line608
| Line767
| Line826
| Line854
| Line868
| Line899
| Line902
| Line915
| Line918
| Line922.

(** what the loop returns: [(success, price)], tagged with the statement
    that returned it *)
Record outcome : Type := Outcome {
  site : exit_site;
  success : bool;
  price : Py.value
}.

(** [f"{current_title}_{current_price}"] *)
Definition fingerprint (current_title : option string) (current_price : Py.value)
    : string :=
  (match current_title with Some t => t | None => "None" end)
    +:+ "_" +:+ format_value env current_price.

(** [GLOBAL_LOWEST_PRICE if GLOBAL_LOWEST_PRICE else d] *)
Definition global_or (d : Py.value) : M W Py.value :=
  g ← read_global;
  ret (if Py.truthy g then g else d).

(** lines 599-608 *)
Definition error_branch (current_price : Py.value) (current_title : option string)
    : M W (ctl outcome) :=
  '(found_cheaper, new_price) ← smart_scroll_and_find_cheaper current_price current_title;
  if found_cheaper : bool then ret Next
  else ret (Return (Outcome Line608 false current_price)).

Fixpoint swipes (n : nat) (center_x scroll_start_y scroll_end_y : Z) : M W unit :=
  match n with
  | O => ret tt
  | S n' =>
      _ ← swipe center_x scroll_start_y center_x scroll_end_y;
      swipes n' center_x scroll_start_y scroll_end_y
  end.

Definition confident (confidence : Py.value) : bool :=
  match confidence with
  | Py.VStr s => bool_decide (s = "high") || bool_decide (s = "medium")
  | _ => false
  end.

(** lines 687-739, after the response text has been read and stripped:
    [true] when one of the two [continue] statements is reached *)
Definition accept_available (current_price : Py.value) (response_text : string)
    : M W bool :=
  catch_json
    (available_product ← lift (Oracle.loads env response_text);
     confidence ← lift (Py.get available_product "confidence" Py.VNone);
     if confident confidence then
       x0 ← lift (Py.get available_product "x" (Py.VInt 0));
       positive ← lift (py_lt env (Py.VInt 0) x0);
       if positive : bool then
         x ← lift (Py.get available_product "x" Py.VNone);
         y ← lift (Py.get available_product "y" Py.VNone);
         new_price ← lift (Py.get available_product "price" current_price);
         title ← lift (Py.get available_product "title" (Py.VStr "Unknown"));
         if Py.sliceable title then
           catch
             (_ ← click x y;
              _ ← lower_global new_price;
              ret true)
             (_ ← execute_adb_command (AdbTap x y);
              _ ← lower_global new_price;
              ret true)
         else throw OtherError
       else ret false
     else ret false)
    (ret false).

(** lines 618-748: [true] for [continue], [false] for falling through to
    the fallback of line 750 *)
Definition find_available (current_price : Py.value) (current_title : option string)
    : M W bool :=
  catch
    ('(screen_width, screen_height) ← info;
     _ ← swipes 5 (screen_width `div` 2)
           ((3 * screen_height) `quot` 4) (screen_height `quot` 4);
     shot ← capture_screenshot;
     if shot : bool then
       _ ← lift (Oracle.features_source ORIGINAL_PRODUCT_NAME current_title);
       text ← generate_content (FindAvailable current_title current_price);
       accept_available current_price (Oracle.strip_fences (Text.strip text))
     else ret false)
    (ret false).

(** lines 613-767 *)
Definition stock_branch (current_price : Py.value) (current_title : option string)
    : M W (ctl outcome) :=
  switched ← find_available current_price current_title;
  if switched : bool then ret Next
  else
    '(found_cheaper, new_price) ← smart_scroll_and_find_cheaper current_price current_title;
    if found_cheaper : bool then
      _ ← check_out_of_stock;
      ret Next
    else
      p ← global_or current_price;
      ret (Return (Outcome Line767 false p)).

(** lines 810-868: the checks after the reload *)
Definition reload_verify (current_price : Py.value) (current_title : option string)
    : M W (ctl outcome) :=
  _ ← execute_adb_command (AdbKeyevent "KEYCODE_F5");
  err ← check_page_errors;
  if err : bool then
    '(found_cheaper, new_price) ← smart_scroll_and_find_cheaper current_price current_title;
    if found_cheaper : bool then ret Next
    else ret (Return (Outcome Line826 false current_price))
  else
    unavailable ← check_out_of_stock;
    if unavailable : bool then
      '(found_alternative, alt_price) ← smart_scroll_and_find_cheaper current_price current_title;
      if found_alternative : bool then
        still ← check_out_of_stock;
        if still : bool then ret Next
        else
          _ ← lower_global alt_price;
          ret Next
      else
        p ← global_or current_price;
        ret (Return (Outcome Line854 false p))
    else
      reloaded_price ← get_current_price_from_page;
      match reloaded_price with
      | Some q =>
          if Py.float_ne q current_price then
            _ ← lower_global (Py.VFloat q);
            ret (Return (Outcome Line868 true (Py.VFloat q)))
          else ret (Return (Outcome Line868 true current_price))
      | None => ret (Return (Outcome Line868 true current_price))
      end.

(** lines 769-868 *)
Definition normal_branch (current_price : Py.value) (current_title : option string)
    : M W (ctl outcome) :=
  _ ← lower_global current_price;
  '(found_cheaper, new_price) ← smart_scroll_and_find_cheaper current_price current_title;
  if found_cheaper : bool then
    err ← check_page_errors;
    if err : bool then ret Next
    else
      _ ← check_out_of_stock;
      ret Next
  else reload_verify current_price current_title.

(** lines 592-868: the iteration once its fingerprint is known to be new *)
Definition visit (current_price : Py.value) (current_title : option string)
    : M W (ctl outcome) :=
  err ← check_page_errors;
  if err : bool then error_branch current_price current_title
  else
    is_out_of_stock ← check_out_of_stock;
    if is_out_of_stock : bool then stock_branch current_price current_title
    else normal_branch current_price current_title.

(** lines 577-582: the title and the price an iteration works with *)
Definition read_page : M W (option string * Py.value) :=
  current_title ← extract_product_title_from_page;
  page_price ← get_current_price_from_page;
  current_price ← match page_price with
                  | Some q => ret (Py.VFloat q)
                  | None => global_or (Py.VInt 0)
                  end;
  ret (current_title, current_price).

(** the body of the [while] loop *)
Definition iteration : M W (ctl outcome) :=
  '(current_title, current_price) ← read_page;
  let product_fingerprint := fingerprint current_title current_price in
  seen ← visited product_fingerprint;
  if seen : bool then ret (Return (Outcome Line588 true current_price))
  else
    _ ← add_visited product_fingerprint;
    _ ← append_history current_price;
    visit current_price current_title.

(** lines 870-922: after the iteration cap *)
Definition final_pass : M W outcome :=
  _ ← execute_adb_command (AdbKeyevent "KEYCODE_F5");
  unavailable ← check_out_of_stock;
  if unavailable : bool then
    final_price ← global_or (Py.VInt 0);
    current_title ← extract_product_title_from_page;
    '(found_final, final_alt_price) ← smart_scroll_and_find_cheaper final_price current_title;
    available ← (if found_final : bool
                 then still ← check_out_of_stock; ret (negb still)
                 else ret false);
    if available : bool then
      _ ← lower_global final_alt_price;
      ret (Outcome Line899 true final_alt_price)
    else
      g ← read_global;
      ret (Outcome Line902 false g)
  else
    err ← check_page_errors;
    if err : bool then
      current_title ← extract_product_title_from_page;
      final_price ← global_or (Py.VInt 0);
      '(found_working, working_price) ← smart_scroll_and_find_cheaper final_price current_title;
      working ← (if found_working : bool
                 then broken ← check_page_errors; ret (negb broken)
                 else ret false);
      if working : bool then ret (Outcome Line915 true working_price)
      else
        g ← read_global;
        ret (Outcome Line918 false g)
    else
      g ← read_global;
      ret (Outcome Line922 true g).

(** [while iteration < max_iterations] with [n] iterations to go *)
Fixpoint iterate (n : nat) : M W outcome :=
  match n with
  | O => final_pass
  | S n' =>
      c ← iteration;
      match c with
      | Next => iterate n'
      | Break => final_pass
      | Return o => ret o
      end
  end.

Definition max_iterations : nat := 3.

Definition process_product_page_loop : M W outcome := iterate max_iterations.

End Agent.

(** ** A reference runtime and a simulated phone

    Closed runs need a concrete [Env] and a concrete [Device].  [Ref.env]
    decodes the JSON the examples use (no string escapes, no exponents, no
    [NaN]); it orders numbers and strings and leaves other comparisons as
    [TypeError]; it prints integers and the floats with at most two decimals
    that the page parser yields.  The theorems below hold for every [Env]. *)

Module Ref.

Definition is_ws (c : ascii) : bool :=
  bool_decide (c = " "%char) || bool_decide (c = "009"%char)
  || bool_decide (c = "010"%char) || bool_decide (c = "013"%char).

Fixpoint skip_ws (s : string) : string :=
  match s with
  | String c s' => if is_ws c then skip_ws s' else s
  | EmptyString => EmptyString
  end.

Fixpoint drop (n : nat) (s : string) : string :=
  match n, s with
  | S k, String _ s' => drop k s'
  | _, _ => s
  end.

Definition quote : ascii := "034"%char.

(** a text with every apostrophe turned into a double quote: JSON for the
    examples is written with apostrophes *)
Fixpoint quoted (s : string) : string :=
  match s with
  | EmptyString => EmptyString
  | String c s' => String (if decide (c = "'"%char) then quote else c) (quoted s')
  end.

(** the characters of a string literal up to its closing quote *)
Fixpoint string_body (s : string) : option (string * string) :=
  match s with
  | EmptyString => None
  | String c s' =>
      if decide (c = quote) then Some (EmptyString, s')
      else if decide (c = "\"%char) then None
      else
        match string_body s' with
        | Some (a, rest) => Some (String c a, rest)
        | None => None
        end
  end.

(** an unsigned number: digits, optionally a dot and more digits *)
Definition number (s : string) : option (Py.value * string) :=
  let '(ip, rest) := Text.span Text.is_digit s in
  if decide (ip = "") then None
  else
    match rest with
    | String c rest' =>
        if Text.is_dot c then
          let '(fp, rest'') := Text.span Text.is_digit rest' in
          if decide (fp = "") then None
          else Some (Py.VFloat (Text.digits_from 0 (ip +:+ fp)
                                  # Price.pow10 (String.length fp)), rest'')
        else Some (Py.VInt (Text.digits_from 0 ip), rest)
    | EmptyString => Some (Py.VInt (Text.digits_from 0 ip), rest)
    end.

Definition negate (v : Py.value) : Py.value :=
  match v with
  | Py.VInt z => Py.VInt (- z)
  | Py.VFloat q => Py.VFloat (- q)
  | _ => v
  end.

Fixpoint value_ (fuel : nat) (s : string) : option (Py.value * string) :=
  match fuel with
  | O => None
  | S fuel' =>
      let s := skip_ws s in
      if Text.prefix "null" s then Some (Py.VNone, drop 4 s)
      else if Text.prefix "true" s then Some (Py.VBool true, drop 4 s)
      else if Text.prefix "false" s then Some (Py.VBool false, drop 5 s)
      else
        match s with
        | EmptyString => None
        | String c s' =>
            if decide (c = quote) then
              match string_body s' with
              | Some (a, rest) => Some (Py.VStr a, rest)
              | None => None
              end
            else if decide (c = "-"%char) then
              match number s' with
              | Some (v, rest) => Some (negate v, rest)
              | None => None
              end
            else if decide (c = "["%char) then
              match skip_ws s' with
              | String "]" rest => Some (Py.VList [], rest)
              | _ =>
                  match elements_ fuel' s' with
                  | Some (l, rest) => Some (Py.VList l, rest)
                  | None => None
                  end
              end
            else if decide (c = "{"%char) then
              match skip_ws s' with
              | String "}" rest => Some (Py.VDict [], rest)
              | _ =>
                  match members_ fuel' s' with
                  | Some (kv, rest) => Some (Py.VDict kv, rest)
                  | None => None
                  end
              end
            else number s
        end
  end
with elements_ (fuel : nat) (s : string) : option (list Py.value * string) :=
  match fuel with
  | O => None
  | S fuel' =>
      match value_ fuel' s with
      | Some (v, rest) =>
          match skip_ws rest with
          | String "," rest' =>
              match elements_ fuel' rest' with
              | Some (l, rest'') => Some (v :: l, rest'')
              | None => None
              end
          | String "]" rest' => Some ([v], rest')
          | _ => None
          end
      | None => None
      end
  end
with members_ (fuel : nat) (s : string) : option (list (string * Py.value) * string) :=
  match fuel with
  | O => None
  | S fuel' =>
      match skip_ws s with
      | String c s1 =>
          if decide (c = quote) then
            match string_body s1 with
            | Some (k, s2) =>
                match skip_ws s2 with
                | String ":" s3 =>
                    match value_ fuel' s3 with
                    | Some (v, rest) =>
                        match skip_ws rest with
                        | String "," rest' =>
                            match members_ fuel' rest' with
                            | Some (kv, rest'') => Some ((k, v) :: kv, rest'')
                            | None => None
                            end
                        | String "}" rest' => Some ([(k, v)], rest')
                        | _ => None
                        end
                    | None => None
                    end
                | _ => None
                end
            | None => None
            end
          else None
      | EmptyString => None
      end
  end.

(** members are kept in the order of the text *)
Definition loads (s : string) : option Py.value :=
  match value_ (2 * String.length s + 2) s with
  | Some (v, rest) =>
      match skip_ws rest with
      | EmptyString => Some v
      | _ => None
      end
  | None => None
  end.

Definition lt_strings (a b : Py.value) : res bool :=
  match a, b with
  | Py.VStr x, Py.VStr y => Ok (String.ltb x y)
  | _, _ => Raise OtherError
  end.

Definition sort_unsupported (l : list Py.value) : res (list Py.value) :=
  Raise OtherError.

Fixpoint digits_of (fuel : nat) (n : N) (acc : string) : string :=
  match fuel with
  | O => acc
  | S fuel' =>
      let acc' := String (ascii_of_N (48 + n `mod` 10)%N) acc in
      if decide (n `div` 10 = 0)%N then acc'
      else digits_of fuel' (n `div` 10)%N acc'
  end.

Definition decimal (z : Z) : string :=
  let n := Z.to_N (Z.abs z) in
  (if decide (z < 0) then "-" else "") +:+ digits_of (S (N.to_nat (N.log2 n))) n "".

(** [repr] of a float that has at most two decimals *)
Definition format_float (q : Q) : string :=
  let cents := (Qnum q * 100) `quot` Z.pos (Qden q) in
  let whole := cents `quot` 100 in
  let frac := Z.abs (cents `rem` 100) in
  (if bool_decide (cents < 0) && bool_decide (whole = 0) then "-" else "")
  +:+ decimal whole +:+ "."
  +:+ (if decide (frac `rem` 10 = 0) then decimal (frac `quot` 10)
       else (if decide (frac < 10) then "0" else "") +:+ decimal frac).

Definition str (v : Py.value) : string :=
  match v with
  | Py.VNone => "None"
  | Py.VBool b => if b then "True" else "False"
  | Py.VInt z => decimal z
  | Py.VFloat q => format_float q
  | Py.VStr s => s
  | Py.VList _ => "[...]"
  | Py.VDict _ => "{...}"
  end.

Definition env : Env := {|
  json_loads := loads;
  lt_other := lt_strings;
  sort_other := sort_unsupported;
  py_hash := fun s => Z.pos (encode s);
  format_value := str
|}.

End Ref.

(** A phone browsing a small site: a page shows texts, answers the oracle's
    two requests, opens another page on a tap, and scrolls a fixed number of
    steps before its hierarchy stops changing. *)

Module Sim.

Record page : Type := Page {
  texts : list string;
  title : string;
  cheaper : res string;
  available : res string;
  link : nat;
  height : nat
}.

(** the page on screen and how far it is scrolled *)
Definition world : Type := (nat * nat)%type.

Section Phone.

Variable site : nat -> page.

Definition matching (t : string) (w : world) : list string :=
  filter (fun x => Is_true (Text.contains t x)) (texts (site (fst w))).

Definition phone : Device world := {|
  dev_exists := fun sel w =>
    (match sel with
     | TextContains t => Ok (existsb (Text.contains t) (texts (site (fst w))))
     | ResourceId _ => Ok (negb (bool_decide (title (site (fst w)) = "")))
     | ClassName _ => Ok false
     end, w);
  dev_count := fun sel w =>
    (match sel with
     | TextContains t => Ok (length (matching t w))
     | _ => Ok O
     end, w);
  dev_get_text := fun sel i w =>
    (match sel, i with
     | TextContains t, Some i =>
         match matching t w !! i with
         | Some x => Ok x
         | None => Raise OtherError
         end
     | ResourceId _, None => Ok (title (site (fst w)))
     | _, _ => Raise OtherError
     end, w);
  dev_info := fun w => (Ok (1080, 2400), w);
  dev_screenshot := fun w => (Ok true, w);
  dev_vision := fun req w =>
    (match req with
     | FindCheaper _ _ => cheaper (site (fst w))
     | FindAvailable _ _ => available (site (fst w))
     end, w);
  dev_click := fun _ _ w => (Ok tt, (link (site (fst w)), O));
  dev_swipe := fun _ _ _ _ w =>
    (Ok tt, (fst w, Nat.min (S (snd w)) (height (site (fst w)))));
  dev_dump_hierarchy := fun w =>
    (Ok (title (site (fst w)) +:+ "@" +:+ Ref.decimal (Z.of_nat (snd w))), w);
  dev_adb := fun cmd w =>
    match cmd with
    | AdbTap _ _ => (link (site (fst w)), O)
    | AdbKeyevent _ => (fst w, O)
    end
|}.

End Phone.

End Sim.

(** ** Screens

    A screen is the list of the texts of its elements.  A world [shows] a
    screen when every [textContains] lookup answers by it, without raising
    and without changing the world. *)

Definition on_screen (t : string) (scr : list string) : bool :=
  existsb (Text.contains t) scr.

Definition shows {W : Type} (dev : Device W) (w : W) (scr : list string) : Prop :=
  forall t, dev_exists dev (TextContains t) w = (Ok (on_screen t scr), w).

Fixpoint count_on (scr : list string) (phrases : list string) : nat :=
  match phrases with
  | [] => O
  | t :: rest => if on_screen t scr then S (count_on scr rest) else count_on scr rest
  end.

(** how many of the unavailability phrases a screen holds *)
Definition unavailability_count (scr : list string) : nat :=
  count_on scr stock_indicators.

(** a purchase affordance is on the screen *)
Definition purchasable (scr : list string) : bool :=
  existsb (fun b => on_screen b scr) add_to_cart_buttons.

(** ** Relations between the states of a run *)

(** the events of a scroll step *)
Definition scroll_event (e : event) : bool :=
  match e with
  | EvSwipe _ _ _ _ _ | EvDump _ => true
  | _ => false
  end.

(** a relation between the state before and the state after that every run
    of [m] establishes, whatever it returns or raises *)
Definition preserves {W A : Type} (R : state W -> state W -> Prop) (m : M W A) : Prop :=
  forall s, R s (snd (m s)).

(** one assignment to [GLOBAL_LOWEST_PRICE]: over [None], or of a value
    that compares lower than the one it replaces *)
Definition lowered (env : Env) (g g' : Py.value) : Prop :=
  g = Py.VNone ∨ py_lt env g' g = Ok true.

Definition lowers (env : Env) : Py.value -> Py.value -> Prop := rtc (lowered env).

(** a number stays a number, and does not grow *)
Definition never_above (g g' : Py.value) : Prop :=
  forall q, Py.num_of g = Some q ->
    exists q', Py.num_of g' = Some q' ∧ (q' <= q)%Q.

Definition global_lowers {W : Type} (env : Env) (s s' : state W) : Prop :=
  lowers env (GLOBAL_LOWEST_PRICE s) (GLOBAL_LOWEST_PRICE s').


(** the page at 20000 whose screenshot shows the same phone at 18000 *)
Definition two_offers (i : nat) : Sim.page :=
  match i with
  | O => Sim.Page ["Galaxy M35 5G (8GB, 128GB)"; "₹20,000"; "Add to Cart"]
           "Galaxy M35 5G (8GB, 128GB)"
           (Ok (Ref.quoted "[{'price': 18000, 'x': 500, 'y': 900, 'title': 'Galaxy M35 5G'}]"))
           (Ok "{}") 1 3
  | _ => Sim.Page ["Galaxy M35 5G (8GB, 128GB) Blue"; "₹18,000"; "Add to Cart"]
           "Galaxy M35 5G (8GB, 128GB) Blue"
           (Ok "[]") (Ok "{}") 1 3
  end.

Definition visited_grows {W : Type} (s s' : state W) : Prop :=
  VISITED_PRODUCTS s ⊆ VISITED_PRODUCTS s'.

Definition seen_before : state Sim.world :=
  State (O, O) (Py.VInt 20000) [Py.VFloat (20000 # 1)]
    {[ "Galaxy M35 5G (8GB, 128GB)_20000.0" ]} [].

(** [p] and [current_price] are numbers and [p] is the smaller one *)
Definition strictly_lower (p current_price : Py.value) : Prop :=
  exists q c, Py.num_of p = Some q ∧ Py.num_of current_price = Some c ∧ (q < c)%Q.

(** what the scroll search may return for [current_price] *)
Definition scroll_result (current_price : Py.value) (r : bool * Py.value) : Prop :=
  (r.1 = true -> strictly_lower r.2 current_price)
  ∧ (r.1 = false -> r.2 = current_price).

(** the page in error at 100 whose screenshot shows the same phone at 120 *)
Definition broken_page (i : nat) : Sim.page :=
  Sim.Page ["Oops"; "Galaxy M35 5G (8GB, 128GB)"; "₹100"]
    "Galaxy M35 5G (8GB, 128GB)"
    (Ok (Ref.quoted "[{'price': 120, 'x': 500, 'y': 900, 'title': 'Galaxy M35 5G'}]"))
    (Ok "{}") 1 3.

(** the page in error at 100 whose screenshot shows the same phone at 90 *)
Definition broken_page_cheaper (i : nat) : Sim.page :=
  Sim.Page ["Oops"; "Galaxy M35 5G (8GB, 128GB)"; "₹100"]
    "Galaxy M35 5G (8GB, 128GB)"
    (Ok (Ref.quoted "[{'price': 90, 'x': 500, 'y': 900, 'title': 'Galaxy M35 5G'}]"))
    (Ok "{}") 1 3.

(** a return at line 868 is a success, and the global lowest price is then
    not above the price returned *)
Definition confirmed {W : Type} (o : outcome) (s : state W) : Prop :=
  site o = Line868 ->
  success o = true ∧ never_above (price o) (GLOBAL_LOWEST_PRICE s).

(** the page at 100 whose screenshot shows the same phone at 90, and the
    page the tap leads to, at 300 *)
Definition pricier_target (i : nat) : Sim.page :=
  match i with
  | O => Sim.Page ["Galaxy M35 5G (8GB, 128GB)"; "₹100"; "Add to Cart"]
           "Galaxy M35 5G (8GB, 128GB)"
           (Ok (Ref.quoted "[{'price': 90, 'x': 500, 'y': 900, 'title': 'Galaxy M35 5G'}]"))
           (Ok "{}") 1 3
  | _ => Sim.Page ["Galaxy M35 5G (8GB, 128GB) Blue"; "₹300"; "Add to Cart"]
           "Galaxy M35 5G (8GB, 128GB) Blue"
           (Ok "[]") (Ok "{}") 1 3
  end.

(** ** Lookups that may raise *)

(** what a [textContains] lookup answers in a world *)
Definition answer {W : Type} (dev : Device W) (w : W) (t : string) : res bool :=
  fst (dev_exists dev (TextContains t) w).

(** the lookups leave the world as it is *)
Definition steady {W : Type} (dev : Device W) (w : W) : Prop :=
  forall t, snd (dev_exists dev (TextContains t) w) = w.

Definition found (r : res bool) : bool :=
  match r with
  | Ok true => true
  | _ => false
  end.

(** the texts of a list whose lookup answers true *)
Definition count_found {W : Type} (dev : Device W) (w : W) (texts : list string) : nat :=
  length (List.filter (fun t => found (answer dev w t)) texts).

(** the answer of the first lookup of the list that does not answer false *)
Fixpoint first_answer {W : Type} (dev : Device W) (w : W) (texts : list string)
    : res bool :=
  match texts with
  | [] => Ok false
  | t :: rest =>
      match answer dev w t with
      | Ok false => first_answer dev w rest
      | r => r
      end
  end.

(** a phone showing [scr] on which the lookup of the texts of [bad] raises *)
Definition flaky (bad scr : list string) : Device unit := {|
  dev_exists := fun sel w =>
    (match sel with
     | TextContains t =>
         if bool_decide (t ∈ bad) then Raise OtherError else Ok (on_screen t scr)
     | _ => Ok false
     end, w);
  dev_count := fun _ w => (Ok O, w);
  dev_get_text := fun _ _ w => (Raise OtherError, w);
  dev_info := fun w => (Ok (1080, 2400), w);
  dev_screenshot := fun w => (Ok false, w);
  dev_vision := fun _ w => (Raise OtherError, w);
  dev_click := fun _ _ w => (Ok tt, w);
  dev_swipe := fun _ _ _ _ w => (Ok tt, w);
  dev_dump_hierarchy := fun w => (Ok "", w);
  dev_adb := fun _ w => w
|}.

(** ** The log of a scroll search *)

(** the state after is the state before with more events in its log, all
    of them in [q] *)
Definition extends {W : Type} (q : event -> Prop) (s s' : state W) : Prop :=
  exists evs, trace s' = trace s ++ evs ∧ Forall q evs.

Definition is_swipe (e : event) : bool :=
  match e with
  | EvSwipe _ _ _ _ _ => true
  | _ => false
  end.

(** the swipes of a log *)
Definition swipes_in (evs : list event) : nat :=
  length (List.filter is_swipe evs).

(** what a scroll step logs, and what it hands back to the loop *)
Inductive step_log (env : Env) (x1 y1 x2 y2 : Z)
    : list event -> res (ctl (bool * Py.value)) -> Prop :=
| first_dump_raised (e : exn) :
    step_log env x1 y1 x2 y2 [EvDump (Raise e)] (Ok Break)
| swipe_raised (a : string) (e : exn) :
    step_log env x1 y1 x2 y2
      [EvDump (Ok a); EvSwipe x1 y1 x2 y2 (Raise e)] (Ok Break)
| second_dump_raised (a : string) (e : exn) :
    step_log env x1 y1 x2 y2
      [EvDump (Ok a); EvSwipe x1 y1 x2 y2 (Ok tt); EvDump (Raise e)] (Ok Break)
| hashes_compared (a b : string) :
    step_log env x1 y1 x2 y2
      [EvDump (Ok a); EvSwipe x1 y1 x2 y2 (Ok tt); EvDump (Ok b)]
      (Ok (if decide (py_hash env a = py_hash env b) then Break else Next)).

(** a log in which a swipe between two dumps of equal hash is the last
    thing that happened, the search then returning [(False, current_price)] *)
Definition ends_at_equal_hashes (env : Env) (current_price : Py.value)
    (evs : list event) (r : res (bool * Py.value)) : Prop :=
  forall pre post a b x1 y1 x2 y2 u,
    evs = pre ++ [EvDump (Ok a); EvSwipe x1 y1 x2 y2 u; EvDump (Ok b)] ++ post ->
    py_hash env a = py_hash env b ->
    post = [] ∧ r = Ok (false, current_price).

Definition no_swipe_first (evs : list event) : Prop :=
  match evs with
  | e :: _ => is_swipe e = false
  | [] => True
  end.

(** an event that is neither a swipe nor a dump of the hierarchy *)
Definition calm (e : event) : Prop := scroll_event e = false.

(** ** The price history and the visited set *)

(** neither [PRICE_CHECK_HISTORY] nor [VISITED_PRODUCTS] has changed *)
Definition books_kept {W : Type} (s s' : state W) : Prop :=
  PRICE_CHECK_HISTORY s' = PRICE_CHECK_HISTORY s
  ∧ VISITED_PRODUCTS s' = VISITED_PRODUCTS s.

(** [PRICE_CHECK_HISTORY] has got at most [n] prices more, and
    [VISITED_PRODUCTS] as many fingerprints more *)
Definition books_grown {W : Type} (n : nat) (s s' : state W) : Prop :=
  exists prices,
    PRICE_CHECK_HISTORY s' = PRICE_CHECK_HISTORY s ++ prices
    ∧ (length prices <= n)%nat
    ∧ size (VISITED_PRODUCTS s') = (size (VISITED_PRODUCTS s) + length prices)%nat.

(** ** The web search (lines 928-1042)

    The two search functions post a query and read the response as JSON;
    [post url q] is what [requests.post(url, ...).json()] gives for the
    query text [q], or the exception either of the two raises. *)

Module WebSearch.

(** [needle in v] for a string [needle]: a substring of a string, an
    element of a list, a key of a dict; [TypeError] otherwise *)
Definition py_in (needle : string) (v : Py.value) : res bool :=
  match v with
  | Py.VStr s => Ok (Text.contains needle s)
  | Py.VList l =>
      Ok (existsb (fun x => match x with
                            | Py.VStr s => bool_decide (s = needle)
                            | _ => false
                            end) l)
  | Py.VDict kv => Ok (bool_decide (is_Some (Py.assoc needle kv)))
  | _ => Raise OtherError
  end.

(** lines 928-934: the function falls off its end, returning [None], when
    no test succeeds *)
Definition get_site_name (link : Py.value) : res (option string) :=
  flipkart ← py_in "flipkart.com" link;
  if flipkart : bool then Ok (Some "Flipkart")
  else
    amazon ← py_in "amazon.in" link;
    if amazon : bool then Ok (Some "Amazon")
    else
      myntra ← py_in "myntra.com" link;
      if myntra : bool then Ok (Some "Myntra") else Ok None.

(** [any(site in link for site in sites)] *)
Fixpoint any_site (sites : list string) (link : Py.value) : res bool :=
  match sites with
  | [] => Ok false
  | site :: rest =>
      b ← py_in site link;
      if b : bool then Ok true else any_site rest link
  end.

(** lines 445-452, on the text that [str(price_str)] is *)
Definition price_of_text (text : string) : Price.xfloat :=
  match Price.search_digits_dots (Price.clean text) with
  | Some m =>
      match Price.float_of_decimal m with
      | Some v => Price.Finite v
      | None => Price.PosInf
      end
  | None => Price.PosInf
  end.

(** [extract_price_value] on a value of the response *)
Definition extract_price_value (env : Env) (price_str : Py.value) : Price.xfloat :=
  match price_str with
  | Py.VStr s => Price.extract_price_value s
  | _ =>
      if Py.truthy price_str then price_of_text (format_value env price_str)
      else Price.PosInf
  end.

(** the dict appended to the results *)
Record hit : Type := Hit {
  hit_title : Py.value;
  hit_link : Py.value;
  hit_source : option string;
  hit_price : Py.value;
  hit_price_value : Price.xfloat
}.

(** the code points of a UTF-8 string: what iterating over it yields *)
Fixpoint code_points (s : string) : list string :=
  match s with
  | EmptyString => []
  | String c s' =>
      match s' with
      | String c' _ =>
          let n := nat_of_ascii c' in
          if Nat.leb 128 n && Nat.ltb n 192 then
            match code_points s' with
            | x :: xs => String c x :: xs
            | [] => [String c EmptyString]
            end
          else String c EmptyString :: code_points s'
      | EmptyString => [String c EmptyString]
      end
  end.

(** the items of [v[:n]]: a slice of a list or of a string *)
Definition first_items (n : nat) (v : Py.value) : res (list Py.value) :=
  match v with
  | Py.VList l => Ok (take n l)
  | Py.VStr s => Ok (take n (map Py.VStr (code_points s)))
  | _ => Raise OtherError
  end.

(** a [for] loop appending what [f] keeps; the first exception ends it *)
Fixpoint collect (f : Py.value -> res (option hit)) (items : list Py.value)
    : res (list hit) :=
  match items with
  | [] => Ok []
  | item :: rest =>
      h ← f item;
      hs ← collect f rest;
      Ok (match h with Some h => h :: hs | None => hs end)
  end.

(** [a < b] on floats, one of which may be [inf] *)
Definition xlt (a b : Price.xfloat) : bool :=
  match a, b with
  | Price.Finite x, Price.Finite y => Py.Qlt_bool x y
  | Price.Finite _, Price.PosInf => true
  | Price.PosInf, _ => false
  end.

Fixpoint insert_hit (h : hit) (l : list hit) : list hit :=
  match l with
  | [] => [h]
  | h' :: rest =>
      if xlt (hit_price_value h') (hit_price_value h)
      then h' :: insert_hit h rest
      else h :: l
  end.

(** [results.sort(key=lambda x: x['price_value'])]: ascending and stable *)
Fixpoint sort_hits (l : list hit) : list hit :=
  match l with
  | [] => []
  | h :: rest => insert_hit h (sort_hits rest)
  end.

Section Web.

Variable env : Env.
Variable post : string -> string -> res Py.value.

(** lines 1023-1033 *)
Definition regular_hit (item : Py.value) : res (option hit) :=
  link ← Py.get item "link" (Py.VStr "");
  keep ← any_site ["flipkart.com"; "amazon.in"; "myntra.com"] link;
  if keep : bool then
    source ← get_site_name link;
    price_text ← Py.get item "snippet" (Py.VStr "Check on site");
    title ← Py.get item "title" (Py.VStr "");
    Ok (Some (Hit title link source price_text (extract_price_value env price_text)))
  else Ok None.

(** lines 1019-1038, from the response on *)
Definition regular_results (data : Py.value) : res (list hit) :=
  has ← py_in "organic" data;
  results ← (if has : bool then
               organic ← Py.subscript data "organic";
               items ← first_items 25 organic;
               collect regular_hit items
             else Ok []);
  Ok (take 25 (match results with [] => results | _ => sort_hits results end)).

(** lines 1002-1042 *)
Definition search_with_regular_api (product_name : string) : list hit :=
  match
    data ← post "https://google.serper.dev/search"
             (product_name +:+ " buy online india price "
                +:+ "flipkart.com OR amazon.in OR myntra.com");
    regular_results data
  with
  | Ok results => results
  | Raise _ => []
  end.

Definition indian_sites : list string :=
  ["site:flipkart.com"; "site:amazon.in"; "site:myntra.com"].

(** lines 964-975 *)
Definition shopping_hit (item : Py.value) : res (option hit) :=
  link ← Py.get item "link" (Py.VStr "");
  keep ← any_site indian_sites link;
  if keep : bool then
    price ← Py.get item "price" (Py.VStr "N/A");
    source ← get_site_name link;
    title ← Py.get item "title" (Py.VStr "");
    Ok (Some (Hit title link source price (extract_price_value env price)))
  else Ok None.

(** lines 979-989 *)
Definition organic_hit (item : Py.value) : res (option hit) :=
  link ← Py.get item "link" (Py.VStr "");
  keep ← any_site indian_sites link;
  if keep : bool then
    source ← get_site_name link;
    title ← Py.get item "title" (Py.VStr "");
    price ← Py.get item "snippet" (Py.VStr "Check on site");
    snippet ← Py.get item "snippet" (Py.VStr "N/A");
    Ok (Some (Hit title link source price (extract_price_value env snippet)))
  else Ok None.

(** lines 960-989: [shopping_results] before it is sorted *)
Definition shopping_results (data : Py.value) : res (list hit) :=
  has ← py_in "shopping" data;
  shopping ← (if has : bool then
                items ← Py.subscript data "shopping";
                items ← first_items 25 items;
                collect shopping_hit items
              else Ok []);
  let organic_count := (25 - length shopping)%nat in
  more ← (if Nat.ltb 0 organic_count then py_in "organic" data else Ok false);
  organic ← (if more : bool then
               items ← Py.subscript data "organic";
               items ← first_items organic_count items;
               collect organic_hit items
             else Ok []);
  Ok (shopping ++ organic).

(** lines 936-1000 *)
Definition search_product_prices (product_name : string) : list hit :=
  match
    data ← post "https://google.serper.dev/shopping"
             (product_name +:+ " "
                +:+ "site:flipkart.com OR site:amazon.in OR site:myntra.com");
    shopping_results data
  with
  | Ok (h :: hs) => take 25 (sort_hits (h :: hs))
  | _ => search_with_regular_api product_name
  end.

End Web.

(** what [find_minimum_price_with_gemini] returns *)
Record deal : Type := Deal {
  deal_product_name : Py.value;
  minimum_price : Py.value;
  website_name : option string;
  url : Py.value;
  total_results : nat;
  additional_info : string
}.

(** lines 1044-1062: every key read by [get] is in the dict, so no default
    is used; the slice of the title in the second [print] raises on a title
    that is neither a string nor a list *)
Definition find_minimum_price_with_gemini (search_results : list hit)
    (product_name : string) : res (option deal) :=
  match search_results with
  | [] => Ok None
  | lowest_result :: _ =>
      if Py.sliceable (hit_title lowest_result) then
        Ok (Some (Deal (hit_title lowest_result) (hit_price lowest_result)
                    (hit_source lowest_result) (hit_link lowest_result)
                    (length search_results)
                    "✓ Lowest from TOP 25 results across 7 Indian sites"))
      else Raise OtherError
  end.

End WebSearch.

(** [a <= b] on floats, one of which may be [inf] *)
Definition xle (a b : Price.xfloat) : Prop :=
  match a, b with
  | Price.Finite x, Price.Finite y => (x <= y)%Q
  | _, Price.PosInf => True
  | Price.PosInf, Price.Finite _ => False
  end.

(** the price values of a list never go down *)
Definition ascending (l : list WebSearch.hit) : Prop :=
  StronglySorted
    (fun a b => xle (WebSearch.hit_price_value a) (WebSearch.hit_price_value b)) l.

(** a hit of the fallback search: its link holds one of the three domains,
    and its source is the name of a site *)
Definition kept (h : WebSearch.hit) : Prop :=
  WebSearch.any_site ["flipkart.com"; "amazon.in"; "myntra.com"] (WebSearch.hit_link h)
  = Ok true
  ∧ exists site, WebSearch.hit_source h = Some site
                 ∧ site ∈ ["Flipkart"; "Amazon"; "Myntra"].

(** a hit of the shopping search: its link holds one of the three search
    operators, so a link that is a string holds the text [site:] *)
Definition site_prefixed (h : WebSearch.hit) : Prop :=
  WebSearch.any_site WebSearch.indian_sites (WebSearch.hit_link h) = Ok true
  ∧ forall l, WebSearch.hit_link h = Py.VStr l -> Text.contains "site:" l = true.

(** a response of the search API with two results, the dearer one first *)
Definition two_results : string :=
  Ref.quoted
    "{'organic': [{'title': 'Galaxy M35 5G', 'link': 'https://www.amazon.in/dp/B0D1', 'snippet': 'Rs. 18,499 Free delivery'}, {'title': 'Galaxy M35 5G (8GB)', 'link': 'https://www.flipkart.com/p/itm1', 'snippet': 'Buy at ₹17,999'}, {'title': 'Review', 'link': 'https://example.com/review', 'snippet': '₹1'}]}".

Definition web (url q : string) : res Py.value :=
  match Ref.loads two_results with
  | Some v => Ok v
  | None => Raise OtherError
  end.

(** the deal made of [two_results] *)
Definition best_deal : WebSearch.deal :=
  WebSearch.Deal (Py.VStr "Galaxy M35 5G (8GB)") (Py.VStr "Buy at ₹17,999")
    (Some "Flipkart") (Py.VStr "https://www.flipkart.com/p/itm1") 2
    "✓ Lowest from TOP 25 results across 7 Indian sites".

(** ** Small helpers of the main program *)

Definition newline : ascii := "010"%char.

(** [output.count('\n')] *)
Fixpoint count_newlines (s : string) : nat :=
  match s with
  | EmptyString => O
  | String c s' => if decide (c = newline) then S (count_newlines s') else count_newlines s'
  end.

(** lines 139-146, on what [execute_adb_command("adb devices")] returned:
    whether the command succeeded, and its output *)
Definition check_adb_connection (result : bool * string) : bool :=
  let '(success, output) := result in
  success && Text.contains "device" output && Nat.ltb 1 (count_newlines output).

Definition language_codes : list string :=
  ["/mr"; "/hi"; "/ta"; "/te"; "/bn"; "/kn"; "/ml"; "/gu"; "/pa"; "/or"].

(** the loop of lines 1083-1087: only a string has [replace] *)
Fixpoint remove_first_code (codes : list string) (url : Py.value) : res Py.value :=
  match codes with
  | [] => Ok url
  | lang_code :: rest =>
      b ← WebSearch.py_in (lang_code +:+ "/") url;
      if b : bool then
        match url with
        | Py.VStr s => Ok (Py.VStr (Text.replace (lang_code +:+ "/") "/" s))
        | _ => Raise OtherError
        end
      else remove_first_code rest url
  end.

(** lines 1081-1088 *)
Definition remove_language_codes_from_url (url : Py.value) : res Py.value :=
  remove_first_code language_codes url.

(** [s.lower()] of an ASCII string *)
Definition lower_ascii (c : ascii) : ascii :=
  let n := nat_of_ascii c in
  if Nat.leb 65 n && Nat.leb n 90 then ascii_of_nat (n + 32) else c.

Fixpoint lower (s : string) : string :=
  match s with
  | EmptyString => EmptyString
  | String c s' => String (lower_ascii c) (lower s')
  end.

Definition brands : list string :=
  ["iPhone"; "Samsung"; "OnePlus"; "Xiaomi"; "Realme"; "Oppo"; "Vivo"; "Google";
   "Pixel"; "Mi"; "Redmi"; "Nothing"; "Asus"; "Sony"; "Motorola"; "Nokia"].

Definition colors : list string :=
  ["Black"; "White"; "Blue"; "Red"; "Green"; "Gold"; "Silver"; "Gray"; "Grey";
   "Purple"; "Pink"; "Yellow"; "Orange"; "Midnight"; "Starlight"; "Sierra"].

(** the two loops of [extract_key_product_features] (lines 189-194 and
    206-212): the first name of the list whose lower case occurs in
    [lowered], the lower case of the product name, and the empty string of
    the initial dict when there is none.  The names are ASCII, so their
    lower case is [lower]; the lower case of the product name is the
    runtime's. *)
Fixpoint first_feature (names : list string) (lowered : string) : string :=
  match names with
  | [] => ""
  | name :: rest =>
      if Text.contains (lower name) lowered then name else first_feature rest lowered
  end.

Definition brand_feature (lowered : string) : string := first_feature brands lowered.

Definition color_feature (lowered : string) : string := first_feature colors lowered.

(** no character of [s] is [h] *)
Definition without (h : ascii) (s : string) : bool :=
  Text.forallb (fun c => negb (bool_decide (c = h))) s.

(** ** The swipes of a run *)

(** the swipes logged so far *)
Definition swiped {W : Type} (s : state W) : nat := swipes_in (trace s).

(** a run of [m] swipes at most [k] times *)
Class Within {W A : Type} (m : M W A) (k : nat) : Prop :=
  within_bound : forall s, (swiped (snd (m s)) <= swiped s + k)%nat.

(** ** Definitions used by the statements about the stock check, the
    loop and the shopping search *)

(** the lookups of the unavailability phrases on a screen (lines 531-536),
    as they appear in the log *)
Definition phrase_lookups (scr : list string) (phrases : list string) : list event :=
  map (fun t => EvExists (TextContains t) (Ok (on_screen t scr))) phrases.

(** a page whose cheaper offer opens the same page again *)
Definition same_page (i : nat) : Sim.page :=
  Sim.Page ["Galaxy M35 5G (8GB, 128GB)"; "₹20,000"; "Add to Cart"]
    "Galaxy M35 5G (8GB, 128GB)"
    (Ok (Ref.quoted "[{'price': 18000, 'x': 500, 'y': 900, 'title': 'Galaxy M35 5G'}]"))
    (Ok "{}") O 3.

(** the test of lines 965 and 980 on an item of the response: its link
    holds one of the search operators *)
Definition passes (item : Py.value) : bool :=
  match Py.get item "link" (Py.VStr "") with
  | Ok link =>
      match WebSearch.any_site WebSearch.indian_sites link with
      | Ok true => true
      | _ => false
      end
  | Raise _ => false
  end.

(** the first 25 items under a key of the response, if it has them *)
Definition listed (data : Py.value) (key : string) : list Py.value :=
  match Py.subscript data key with
  | Ok v =>
      match WebSearch.first_items 25 v with
      | Ok items => items
      | Raise _ => []
      end
  | Raise _ => []
  end.

(** some link among the shopping and organic items passes the test *)
Definition offers_site_operator (data : Py.value) : bool :=
  existsb passes (listed data "shopping" ++ listed data "organic").

(** the URL and the query of [search_product_prices] (lines 944-947) *)
Definition shopping_url : string := "https://google.serper.dev/shopping".

Definition shopping_query (product_name : string) : string :=
  product_name +:+ " " +:+ "site:flipkart.com OR site:amazon.in OR site:myntra.com".

(** the state in which an iteration goes on once the fingerprint of the
    page it has read is found new (lines 590-596) *)
Definition recorded {W : Type} (env : Env) (current_title : option string)
    (current_price : Py.value) (s : state W) : state W :=
  State (world s) (GLOBAL_LOWEST_PRICE s) (PRICE_CHECK_HISTORY s ++ [current_price])
    ({[ fingerprint env current_title current_price ]} ∪ VISITED_PRODUCTS s) (trace s).


(** four pages, each offering the price of the next: 400, 300, 200, 100 *)
Definition descending (i : nat) : Sim.page :=
  match i with
  | 0%nat => Sim.Page ["Galaxy M35 5G (8GB, 128GB)"; "₹400"; "Add to Cart"]
           "Galaxy M35 5G (8GB, 128GB)"
           (Ok (Ref.quoted "[{'price': 300, 'x': 500, 'y': 900, 'title': 'Galaxy M35 5G'}]"))
           (Ok "{}") 1 3
  | 1%nat => Sim.Page ["Galaxy M35 5G (8GB, 128GB)"; "₹300"; "Add to Cart"]
           "Galaxy M35 5G (8GB, 128GB)"
           (Ok (Ref.quoted "[{'price': 200, 'x': 500, 'y': 900, 'title': 'Galaxy M35 5G'}]"))
           (Ok "{}") 2 3
  | 2%nat => Sim.Page ["Galaxy M35 5G (8GB, 128GB)"; "₹200"; "Add to Cart"]
           "Galaxy M35 5G (8GB, 128GB)"
           (Ok (Ref.quoted "[{'price': 100, 'x': 500, 'y': 900, 'title': 'Galaxy M35 5G'}]"))
           (Ok "{}") 3 3
  | _ => Sim.Page ["Galaxy M35 5G (8GB, 128GB)"; "₹100"; "Add to Cart"]
           "Galaxy M35 5G (8GB, 128GB)"
           (Ok "[]") (Ok "{}") 3 3
  end.

(** * Properties

    ** Facts about the text helpers *)

Section TextFacts.

Import Text.

Lemma app_nil_r (s : string) : s +:+ "" = s.
Proof. induction s as [|c s IH]; [reflexivity|]. change (String c (s +:+ "") = String c s). by rewrite IH. Qed.

Lemma app_cons (c : ascii) (a b : string) : String c a +:+ b = String c (a +:+ b).
Proof. reflexivity. Qed.

Lemma app_nil_l (s : string) : "" +:+ s = s.
Proof. reflexivity. Qed.

Lemma app_assoc (a b c : string) : (a +:+ b) +:+ c = a +:+ (b +:+ c).
Proof. induction a as [|x a IH]; [reflexivity|]. rewrite !app_cons. by rewrite IH. Qed.

(** what [span] returns: a prefix of [p]-characters, and a rest that does
    not start with one *)
Definition stops (p : ascii -> bool) (s : string) : Prop :=
  match s with
  | EmptyString => True
  | String c _ => p c = false
  end.

Lemma span_spec (p : ascii -> bool) (s : string) :
  s = fst (span p s) +:+ snd (span p s)
  ∧ forallb p (fst (span p s)) = true
  ∧ stops p (snd (span p s)).
Proof.
  induction s as [|c s (IH1 & IH2 & IH3)]; [done|].
  simpl. destruct (p c) eqn:Hc.
  - destruct (span p s) as [a b]. simpl in *. rewrite app_cons, Hc.
    split; [by rewrite <- IH1|done].
  - simpl. done.
Qed.

Lemma span_cons (p : ascii -> bool) (c : ascii) (s : string) :
  p c = true -> span p (String c s) = (String c (fst (span p s)), snd (span p s)).
Proof. intros Hc. simpl. rewrite Hc. by destruct (span p s). Qed.

Lemma span_app (p : ascii -> bool) (d x : string) :
  forallb p d = true -> stops p x -> span p (d +:+ x) = (d, x).
Proof.
  induction d as [|c d IH]; intros Hd Hx.
  - rewrite app_nil_l. destruct x as [|c x]; [done|]. simpl in *. by rewrite Hx.
  - simpl in Hd. apply andb_true_iff in Hd as [Hc Hd].
    rewrite app_cons. simpl. rewrite Hc, (IH Hd Hx). done.
Qed.

Lemma span_app_all (p : ascii -> bool) (d x : string) :
  forallb p d = true ->
  span p (d +:+ x) = (d +:+ fst (span p x), snd (span p x)).
Proof.
  intros Hd. destruct (span_spec p x) as (E & Hf & Hs).
  rewrite E at 1. rewrite <- app_assoc. apply span_app; [|done].
  clear E Hs. induction d as [|c d IH]; [done|].
  simpl in Hd. apply andb_true_iff in Hd as [Hc Hd].
  rewrite app_cons. simpl. by rewrite Hc, IH.
Qed.

Lemma forallb_impl (p q : ascii -> bool) (s : string) :
  (forall c, p c = true -> q c = true) -> forallb p s = true -> forallb q s = true.
Proof.
  intros H. induction s as [|c s IH]; [done|]. simpl.
  rewrite !andb_true_iff. intros [? ?]. auto.
Qed.

Lemma space_not_digit (c : ascii) : is_space c = true -> is_digit c = false.
Proof.
  unfold is_space, is_digit. generalize (nat_of_ascii c). intros n H.
  apply orb_true_iff in H as [H|H]; apply andb_true_iff in H as [H1 H2];
    apply Nat.leb_le in H1, H2; apply andb_false_iff;
    left; apply Nat.leb_gt; lia.
Qed.

Lemma space_not_dot (c : ascii) : is_space c = true -> is_dot c = false.
Proof.
  unfold is_dot. intros H. apply bool_decide_eq_false. intros ->. done.
Qed.

Lemma rstrip_split (s : string) :
  exists ws, s = rstrip s +:+ ws ∧ forallb is_space ws = true.
Proof.
  induction s as [|c s (ws & E & Hws)]; [by exists ""|].
  simpl. destruct (rstrip s) as [|c' r] eqn:Hr.
  - rewrite app_nil_l in E. subst ws. destruct (is_space c) eqn:Hc.
    + exists (String c s). simpl. by rewrite Hc, Hws.
    + exists s. done.
  - exists ws. split; [|done]. rewrite app_cons. by rewrite <- E.
Qed.

Lemma lstrip_split (s : string) :
  exists ws, s = ws +:+ lstrip s ∧ forallb is_space ws = true.
Proof.
  induction s as [|c s (ws & E & Hws)]; [by exists ""|].
  simpl. destruct (is_space c) eqn:Hc.
  - exists (String c ws). simpl. rewrite app_cons, Hc, <- E. done.
  - by exists "".
Qed.

Lemma stops_app (p : ascii -> bool) (a b : string) :
  stops p a -> stops p b -> stops p (a +:+ b).
Proof. destruct a; [by rewrite app_nil_l|done]. Qed.

Lemma span_app_stop (p : ascii -> bool) (a ws : string) :
  stops p ws ->
  span p (a +:+ ws) = (fst (span p a), snd (span p a) +:+ ws).
Proof.
  intros Hws. destruct (span_spec p a) as (E & Hd & Hs).
  rewrite E at 1. rewrite app_assoc. apply span_app; [done|].
  by apply stops_app.
Qed.

Lemma spaces_stop (p : ascii -> bool) (ws : string) :
  (forall c, is_space c = true -> p c = false) ->
  forallb is_space ws = true -> stops p ws.
Proof.
  intros H. destruct ws as [|c ws]; [done|]. simpl.
  intros [Hc _]%andb_true_iff. auto.
Qed.

End TextFacts.

(** ** The two price parsers *)

Section PriceFacts.

Import Text Price.

Definition no_digit (s : string) : Prop := forallb (fun c => negb (is_digit c)) s = true.

Lemma digits_float (d : string) :
  d <> "" -> forallb is_digit d = true ->
  float_of_decimal d = Some (digits_from 0 d # 1).
Proof.
  intros Hne Hd. unfold float_of_decimal.
  rewrite <- (app_nil_r d) at 1. rewrite span_app by done.
  by destruct (decide (d = "")).
Qed.

Lemma digits_dot_float (d f : string) :
  d <> "" -> forallb is_digit d = true -> forallb is_digit f = true ->
  float_of_decimal (d +:+ String "." f)
  = Some (digits_from 0 (d +:+ f) # pow10 (String.length f)).
Proof.
  intros Hne Hd Hf. unfold float_of_decimal.
  rewrite span_app by done.
  rewrite Hf. simpl. rewrite bool_decide_eq_false_2 by done. done.
Qed.

Lemma no_digit_float (m : string) : no_digit m -> float_of_decimal m = None.
Proof.
  unfold no_digit, float_of_decimal. destruct m as [|c m]; [done|].
  simpl. intros H. apply andb_true_iff in H as [Hc Hm].
  apply negb_true_iff in Hc. rewrite Hc.
  destruct m as [|c' m]; simpl.
  - by rewrite andb_false_r.
  - simpl in Hm. apply andb_true_iff in Hm as [Hc' _].
    apply negb_true_iff in Hc'. rewrite Hc'. simpl. by rewrite andb_false_r.
Qed.

Lemma span_digit_head (c : ascii) (s : string) :
  is_digit c = true ->
  exists d rest, span is_digit (String c s) = (d, rest) ∧ d <> ""
    ∧ forallb is_digit d = true ∧ stops is_digit rest.
Proof.
  intros Hc. destruct (span_spec is_digit (String c s)) as (_ & Hd & Hs).
  exists (fst (span is_digit (String c s))), (snd (span is_digit (String c s))).
  split; [by destruct (span is_digit (String c s))|].
  split; [|done]. simpl. rewrite Hc. by destruct (span is_digit s).
Qed.

Lemma match_price_float (c : ascii) (s : string) :
  is_digit c = true ->
  exists q, float_of_decimal (match_price (String c s)) = Some q.
Proof.
  intros Hc. destruct (span_digit_head c s Hc) as (d & rest & E & Hne & Hd & Hs).
  unfold match_price. rewrite E.
  destruct rest as [|c0 [|c1 r1]]; try (rewrite digits_float by done; eauto).
  destruct (is_dot c0 && is_digit c1) eqn:H01;
    [|rewrite digits_float by done; eauto].
  apply andb_true_iff in H01 as [H0 H1].
  apply bool_decide_eq_true in H0. subst c0.
  destruct r1 as [|c2 r2]; [|destruct (is_digit c2) eqn:H2];
    rewrite digits_dot_float; eauto; simpl; by rewrite ?H1, ?H2.
Qed.

Lemma search_price_float (s m : string) :
  search_price s = Some m -> exists q, float_of_decimal m = Some q.
Proof.
  induction s as [|c s IH]; [done|]. simpl.
  destruct (is_digit c) eqn:Hc; [|done].
  intros [= <-]. by apply match_price_float.
Qed.

Lemma search_price_none (s : string) : search_price s = None -> no_digit s.
Proof.
  unfold no_digit. induction s as [|c s IH]; [done|]. simpl.
  destruct (is_digit c); [done|]. intros H. by rewrite IH.
Qed.

Lemma no_digit_app (a b : string) : no_digit a -> no_digit b -> no_digit (a +:+ b).
Proof.
  unfold no_digit. induction a as [|c a IH]; [done|]. rewrite app_cons. simpl.
  rewrite !andb_true_iff. intros [? ?] ?. auto.
Qed.

Lemma spaces_no_digit (ws : string) : forallb is_space ws = true -> no_digit ws.
Proof.
  apply forallb_impl. intros c Hc. by rewrite space_not_digit.
Qed.

Lemma no_digit_strip (s : string) : no_digit (strip s) -> no_digit s.
Proof.
  unfold strip. intros H.
  destruct (lstrip_split s) as (w1 & E1 & H1).
  destruct (rstrip_split (lstrip s)) as (w2 & E2 & H2).
  rewrite E1, E2. auto using no_digit_app, spaces_no_digit.
Qed.

Lemma no_digit_run (s m : string) :
  no_digit s -> search_digits_dots s = Some m -> no_digit m.
Proof.
  unfold no_digit. revert m. induction s as [|c s IH]; intros m; [done|].
  cbn [search_digits_dots forallb].
  intros H. apply andb_true_iff in H as [Hc Hs].
  destruct (digit_or_dot c) eqn:Hdd; [|by apply IH].
  intros E. apply (inj Some) in E. subst m. rewrite span_cons by done.
  destruct (span_spec digit_or_dot s) as (E & _ & _).
  destruct (span digit_or_dot s) as [a b]. cbn [fst snd forallb] in *.
  rewrite Hc. cbn [andb].
  rewrite E in Hs. clear -Hs. induction a as [|x a IH]; [done|].
  rewrite app_cons in Hs. cbn [forallb] in *.
  apply andb_true_iff in Hs as [-> ?]. auto.
Qed.

(** the unknown sentinel of the first parser is the infinity of the second *)
Lemma none_gives_infinity (text : string) :
  extract_price_from_text text = None -> extract_price_value text = PosInf.
Proof.
  unfold extract_price_from_text, extract_price_value.
  destruct (decide (text = "")); [done|].
  destruct (decide (text = "N/A")); [done|].
  destruct (search_price _) as [m|] eqn:Hs.
  - destruct (search_price_float _ _ Hs) as [q ->]. done.
  - intros _. apply search_price_none, no_digit_strip in Hs.
    destruct (search_digits_dots _) as [m|] eqn:Hm; [|done].
    by rewrite (no_digit_float m (no_digit_run _ _ Hs Hm)).
Qed.

Lemma match_price_app_spaces (a ws : string) :
  forallb is_space ws = true -> match_price (a +:+ ws) = match_price a.
Proof.
  intros Hws. unfold match_price.
  rewrite span_app_stop by (by apply spaces_stop; [apply space_not_digit|]).
  destruct (span is_digit a) as [d rest]. cbn [fst snd].
  destruct rest as [|c [|c1 [|c2 r2]]]; rewrite ?app_cons, ?app_nil_l; try done.
  - destruct ws as [|w [|w' ws]]; try done.
    simpl in Hws. apply andb_true_iff in Hws as [Hw _].
    by rewrite (space_not_dot w Hw).
  - destruct ws as [|w ws]; [done|].
    simpl in Hws. apply andb_true_iff in Hws as [Hw _].
    by rewrite (space_not_digit w Hw), andb_false_r.
  - destruct ws as [|w ws]; [done|].
    simpl in Hws. apply andb_true_iff in Hws as [Hw _].
    by rewrite (space_not_digit w Hw).
Qed.

Lemma search_price_app_spaces (a ws : string) :
  forallb is_space ws = true -> search_price (a +:+ ws) = search_price a.
Proof.
  intros Hws. induction a as [|c a IH].
  - rewrite app_nil_l. clear -Hws. induction ws as [|w ws IH]; [done|].
    simpl in *. apply andb_true_iff in Hws as [Hw Hws].
    rewrite (space_not_digit w Hw). auto.
  - rewrite app_cons. cbn [search_price]. rewrite IH.
    by rewrite <- app_cons, match_price_app_spaces.
Qed.

Lemma search_price_spaces_app (ws a : string) :
  forallb is_space ws = true -> search_price (ws +:+ a) = search_price a.
Proof.
  induction ws as [|w ws IH]; [done|]. simpl.
  intros [Hw Hws]%andb_true_iff.
  rewrite (space_not_digit w Hw). auto.
Qed.

Lemma search_price_strip (s : string) : search_price (strip s) = search_price s.
Proof.
  unfold strip.
  destruct (lstrip_split s) as (w1 & E1 & H1).
  destruct (rstrip_split (lstrip s)) as (w2 & E2 & H2).
  rewrite E1 at 2. rewrite search_price_spaces_app by done.
  rewrite E2 at 2. by rewrite search_price_app_spaces.
Qed.

Lemma digit_or_dot_false (c : ascii) :
  digit_or_dot c = false -> is_digit c = false ∧ is_dot c = false.
Proof. unfold digit_or_dot. by intros ?%orb_false_iff. Qed.

(** at a position where the run of digits and dots has the shape of a
    price, both regular expressions select text of the same value *)
Lemma shaped_run_agrees (s : string) :
  price_shaped (fst (span digit_or_dot s)) = true ->
  exists q, float_of_decimal (match_price s) = Some q
    ∧ float_of_decimal (fst (span digit_or_dot s)) = Some q.
Proof.
  destruct (span_spec is_digit s) as (E & Hd & Hs).
  unfold match_price.
  destruct (span is_digit s) as [d rest]. cbn [fst snd] in *. subst s.
  rewrite span_app_all
    by (revert Hd; apply forallb_impl; unfold digit_or_dot; by intros c ->).
  cbn [fst].
  destruct (span_spec digit_or_dot rest) as (E2 & Hr2 & Hs2).
  destruct (span digit_or_dot rest) as [r2 rest2]. cbn [fst snd] in *.
  assert (stops is_digit r2) as Hsr2.
  { subst rest. destruct r2; [done|]. by rewrite app_cons in Hs. }
  unfold price_shaped. rewrite span_app by done.
  intros [Hne Hshape]%andb_true_iff.
  apply negb_true_iff, bool_decide_eq_false in Hne.
  destruct r2 as [|c f].
  - exists (digits_from 0 d # 1). rewrite app_nil_r.
    pose proof (digits_float d Hne Hd) as Hfd.
    split; [|done]. rewrite app_nil_l in E2. subst rest2.
    destruct rest as [|c [|c1 r1]]; try done.
    simpl in Hs2. apply digit_or_dot_false in Hs2 as [_ ->]. done.
  - apply andb_true_iff in Hshape as [[Hc Hf]%andb_true_iff Hlen].
    apply bool_decide_eq_true in Hc. subst c. apply Nat.leb_le in Hlen.
    exists (digits_from 0 (d +:+ f) # pow10 (String.length f)).
    pose proof (digits_dot_float d f Hne Hd Hf) as Hfr.
    pose proof (digits_float d Hne Hd) as Hfd.
    split; [|done].
    assert (forall x r, rest2 = String x r -> is_digit x = false) as Hx.
    { intros x r ->. by apply digit_or_dot_false in Hs2 as [? _]. }
    subst rest. rewrite app_cons.
    destruct f as [|f1 [|f2 [|f3 f]]]; [| | |simpl in Hlen; lia].
    + rewrite app_nil_l, app_nil_r.
      destruct rest2 as [|x r]; [done|].
      by rewrite (Hx x r eq_refl), andb_false_r.
    + simpl in Hf. apply andb_true_iff in Hf as [Hf1 _].
      rewrite !app_cons, app_nil_l, Hf1. cbn [andb].
      by destruct rest2 as [|x r]; [|rewrite (Hx x r eq_refl)].
    + simpl in Hf. apply andb_true_iff in Hf as [Hf1 [Hf2 _]%andb_true_iff].
      rewrite !app_cons, Hf1, Hf2. cbn [andb]. done.
Qed.

Lemma shaped_search_agrees (s r : string) :
  search_digits_dots s = Some r -> price_shaped r = true ->
  exists m q, search_price s = Some m ∧ float_of_decimal m = Some q
    ∧ float_of_decimal r = Some q.
Proof.
  revert r. induction s as [|c s IH]; intros r; [done|].
  cbn [search_digits_dots search_price].
  destruct (digit_or_dot c) eqn:Hdd.
  - intros E Hshape. apply (inj Some) in E. subst r.
    destruct (shaped_run_agrees _ Hshape) as (q & Hm & Hr).
    assert (is_digit c = true) as ->.
    { revert Hshape. unfold price_shaped. rewrite span_cons by done.
      cbn [fst span]. destruct (is_digit c); [done|]. done. }
    eauto.
  - apply digit_or_dot_false in Hdd as [-> _]. apply IH.
Qed.

(** on text whose first run of digits and dots has the shape of a price
    the two parsers return the same value *)
Lemma shaped_gives_same (text r : string) (v : Q) :
  search_digits_dots (clean text) = Some r -> price_shaped r = true ->
  extract_price_from_text text = Some v ->
  extract_price_value text = Finite v.
Proof.
  intros Hr Hshape. unfold extract_price_from_text, extract_price_value.
  destruct (decide (text = "")); [done|].
  rewrite search_price_strip.
  destruct (shaped_search_agrees _ _ Hr Hshape) as (m & q & -> & -> & Hq).
  intros [= <-]. rewrite Hr, Hq.
  destruct (decide (text = "N/A")) as [->|]; [|done].
  done.
Qed.

End PriceFacts.

(** C7, where the two parsers do agree.  Whenever [extract_price_from_text]
    yields the unknown sentinel, [extract_price_value] yields +infinity; and
    whenever the first
    run of digits and dots of the cleaned text has the shape of a price
    (digits, optionally a dot and at most two digits) and
    [extract_price_from_text] yields [v], [extract_price_value] yields the
    same [v]. *)
Theorem price_parsers_agree_on_prices (text : string) :
  (Price.extract_price_from_text text = None ->
   Price.extract_price_value text = Price.PosInf)
  ∧ (forall (r : string) (v : Q),
       Price.search_digits_dots (Price.clean text) = Some r ->
       Price.price_shaped r = true ->
       Price.extract_price_from_text text = Some v ->
       Price.extract_price_value text = Price.Finite v).
Proof.
  split.
  - apply none_gives_infinity.
  - intros r v. apply shaped_gives_same.
Qed.

(** C7 at two inputs: a text without a price, and a formatted price. *)
Lemma price_parsers_agree_witness :
  Price.extract_price_value "Currently unavailable" = Price.PosInf
  ∧ Price.extract_price_value "₹15,999.50" = Price.Finite (1599950 # 100).
Proof.
  split.
  - apply (proj1 (price_parsers_agree_on_prices "Currently unavailable")).
    reflexivity.
  - apply (proj2 (price_parsers_agree_on_prices "₹15,999.50") "15999.50");
      reflexivity.
Defined.

(** C7 does not hold of the code: on ["Rs. 500"] the first parser reads 500
    and the second, whose match is the lone dot left behind by the removal
    of ["Rs"], yields +infinity.  The removal of ["Rs."], which would have
    taken the dot away, comes after that of ["Rs"] and finds nothing. *)
Lemma price_parsers_disagree :
  Price.extract_price_from_text "Rs. 500" = Some (500 # 1)
  ∧ Price.extract_price_value "Rs. 500" = Price.PosInf.
Proof. split; reflexivity. Qed.

(** the examples of the specification's section 8 *)
Example from_text_rupee :
  Price.extract_price_from_text "₹15,999.50" = Some (1599950 # 100).
Proof. reflexivity. Qed.

Example from_text_rs : Price.extract_price_from_text "Rs 1200" = Some (1200 # 1).
Proof. reflexivity. Qed.

Example from_text_plain : Price.extract_price_from_text "1999" = Some (1999 # 1).
Proof. reflexivity. Qed.

Example value_not_available : Price.extract_price_value "N/A" = Price.PosInf.
Proof. reflexivity. Qed.

(** ** The out-of-stock check on a screen *)

Section StockCheck.

Context {W : Type}.
Variable dev : Device W.

(** a state of the same world: only the log may differ *)
Definition logged (s s' : state W) : Prop :=
  world s' = world s
  ∧ GLOBAL_LOWEST_PRICE s' = GLOBAL_LOWEST_PRICE s
  ∧ PRICE_CHECK_HISTORY s' = PRICE_CHECK_HISTORY s
  ∧ VISITED_PRODUCTS s' = VISITED_PRODUCTS s.

Lemma logged_refl (s : state W) : logged s s.
Proof. done. Qed.

Lemma logged_trans (s1 s2 s3 : state W) : logged s1 s2 -> logged s2 s3 -> logged s1 s3.
Proof. unfold logged. intros (-> & -> & -> & ->) (-> & -> & -> & ->). done. Qed.

Lemma exists_shows (scr : list string) (t : string) (s : state W) :
  shows dev (world s) scr ->
  exists s', exists_ dev (TextContains t) s = (Ok (on_screen t scr), s') ∧ logged s s'.
Proof.
  intros H. unfold exists_, call. rewrite (H t). eexists. split; [done|]. done.
Qed.

Lemma count_indicators_shows (scr : list string) (phrases : list string) (s : state W) :
  shows dev (world s) scr ->
  exists s', count_indicators dev phrases s = (Ok (count_on scr phrases), s')
    ∧ logged s s'.
Proof.
  revert s. induction phrases as [|t rest IH]; intros s H.
  - eexists. split; [done|]. done.
  - destruct (exists_shows scr t s H) as (s1 & E1 & L1).
    assert (shows dev (world s1) scr) as H1 by (by destruct L1 as [-> _]).
    destruct (IH s1 H1) as (s2 & E2 & L2).
    exists s2. split; [|by eapply logged_trans].
    cbn [count_indicators count_on]. unfold mbind, M_bind, bind, catch at 1.
    rewrite E1, E2. unfold mret, M_ret, ret. by destruct (on_screen t scr).
Qed.

Lemma find_button_shows (scr : list string) (buttons : list string) (s : state W) :
  shows dev (world s) scr ->
  exists s', find_button dev buttons s
             = (Ok (existsb (fun b => on_screen b scr) buttons), s')
    ∧ logged s s'.
Proof.
  revert s. induction buttons as [|b rest IH]; intros s H.
  - eexists. split; [done|]. done.
  - destruct (exists_shows scr b s H) as (s1 & E1 & L1).
    cbn [find_button existsb]. unfold mbind, M_bind, bind. rewrite E1.
    destruct (on_screen b scr).
    + exists s1. done.
    + assert (shows dev (world s1) scr) as H1 by (by destruct L1 as [-> _]).
      destruct (IH s1 H1) as (s2 & E2 & L2).
      exists s2. split; [done|by eapply logged_trans].
Qed.

(** counting the phrases changes the log only: one lookup a phrase *)
Lemma count_indicators_log (scr : list string) (phrases : list string) (s : state W) :
  shows dev (world s) scr ->
  count_indicators dev phrases s
  = (Ok (count_on scr phrases),
     State (world s) (GLOBAL_LOWEST_PRICE s) (PRICE_CHECK_HISTORY s)
       (VISITED_PRODUCTS s) (trace s ++ phrase_lookups scr phrases)).
Proof.
  revert s. induction phrases as [|t rest IH]; intros s H.
  - cbn. unfold ret. rewrite List.app_nil_r. by destruct s.
  - cbn [count_indicators count_on phrase_lookups map].
    unfold mbind, M_bind, bind, catch at 1, exists_, call. rewrite (H t).
    rewrite IH by (cbn; exact H). cbn [world GLOBAL_LOWEST_PRICE PRICE_CHECK_HISTORY
      VISITED_PRODUCTS trace].
    unfold mret, M_ret, ret. rewrite <- List.app_assoc. cbn [app].
    by destruct (on_screen t scr).
Qed.

(** what the check answers on a screen: two phrases or more, or one and
    no purchase affordance *)
Lemma check_out_of_stock_shows (scr : list string) (s : state W) :
  shows dev (world s) scr ->
  fst (check_out_of_stock dev s)
  = Ok (Nat.leb 2 (unavailability_count scr)
        || negb (purchasable scr) && Nat.ltb 0 (unavailability_count scr)).
Proof.
  intros H. unfold check_out_of_stock, unavailability_count, purchasable.
  destruct (count_indicators_shows scr stock_indicators s H) as (s1 & E1 & L1).
  unfold mbind, M_bind, bind. rewrite E1.
  destruct (Nat.leb 2 (count_on scr stock_indicators)); [done|].
  assert (shows dev (world s1) scr) as H1 by (by destruct L1 as [-> _]).
  destruct (find_button_shows scr add_to_cart_buttons s1 H1) as (s2 & E2 & L2).
  unfold catch. rewrite E2.
  by destruct (existsb _ add_to_cart_buttons).
Qed.

End StockCheck.

(** screens of the examples, shown by the simulated phone *)
Definition screen_site (scr : list string) : nat -> Sim.page :=
  fun _ => Sim.Page scr "Phone" (Ok "[]") (Ok "{}") O O.

Lemma phone_shows (scr : list string) (w : Sim.world) :
  shows (Sim.phone (screen_site scr)) w scr.
Proof. intros t. reflexivity. Qed.

(** C1, as the code has it: on a screen that holds a purchase affordance
    and fewer than two of the unavailability phrases, [check_out_of_stock]
    returns false; on a screen that holds two of the phrases or more it
    returns true at line 539, and the lookups it has made are those of the
    seven phrases: no button has been looked for. *)
Theorem purchase_affordance_overrides_single_phrase
  {W : Type} (dev : Device W) (s : state W) (scr : list string) :
  shows dev (world s) scr ->
  (purchasable scr = true -> (unavailability_count scr < 2)%nat ->
   fst (check_out_of_stock dev s) = Ok false)
  ∧ ((2 <= unavailability_count scr)%nat ->
     fst (check_out_of_stock dev s) = Ok true
     ∧ trace (snd (check_out_of_stock dev s))
       = trace s ++ phrase_lookups scr stock_indicators).
Proof.
  intros H. split.
  - intros B C. rewrite (check_out_of_stock_shows dev scr s H), B.
    apply Nat.leb_gt in C. by rewrite C.
  - intros C. unfold check_out_of_stock, mbind, M_bind, bind.
    rewrite (count_indicators_log dev scr stock_indicators s H).
    fold (unavailability_count scr). apply Nat.leb_le in C. rewrite C. done.
Qed.

Lemma purchase_affordance_overrides_witness :
  (unavailability_count ["Notify Me"; "Add to Cart"] = 1%nat
   ∧ fst (check_out_of_stock (Sim.phone (screen_site ["Notify Me"; "Add to Cart"]))
            (initial_state (O, O))) = Ok false)
  ∧ (unavailability_count ["Out of Stock"; "Sold Out"; "Add to Cart"] = 2%nat
     ∧ fst (check_out_of_stock
              (Sim.phone (screen_site ["Out of Stock"; "Sold Out"; "Add to Cart"]))
              (initial_state (O, O))) = Ok true
     ∧ length (trace (snd (check_out_of_stock
              (Sim.phone (screen_site ["Out of Stock"; "Sold Out"; "Add to Cart"]))
              (initial_state (O, O))))) = length stock_indicators).
Proof.
  split.
  - split; [reflexivity|].
    apply (purchase_affordance_overrides_single_phrase
             (Sim.phone (screen_site ["Notify Me"; "Add to Cart"]))
             (initial_state (O, O)) ["Notify Me"; "Add to Cart"]).
    + apply phone_shows.
    + reflexivity.
    + vm_compute. lia.
  - split; [reflexivity|].
    destruct (proj2 (purchase_affordance_overrides_single_phrase
             (Sim.phone (screen_site ["Out of Stock"; "Sold Out"; "Add to Cart"]))
             (initial_state (O, O)) ["Out of Stock"; "Sold Out"; "Add to Cart"]
             (phone_shows _ _))) as [R T].
    + vm_compute. lia.
    + split; [exact R|]. rewrite T. reflexivity.
Defined.

(** two unavailability phrases beside an "Add to Cart" button: out of stock *)
Lemma purchase_affordance_overridden :
  purchasable ["Out of Stock"; "Sold Out"; "Add to Cart"] = true
  ∧ fst (check_out_of_stock
           (Sim.phone (screen_site ["Out of Stock"; "Sold Out"; "Add to Cart"]))
           (initial_state (O, O))) = Ok true.
Proof. split; vm_compute; reflexivity. Qed.

(** C2, as the code has it: on a screen with no purchase affordance,
    [check_out_of_stock] returns true exactly when at least one
    unavailability phrase is found (line 553). *)
Theorem no_affordance_any_phrase_is_out_of_stock
  {W : Type} (dev : Device W) (s : state W) (scr : list string) :
  shows dev (world s) scr ->
  purchasable scr = false ->
  fst (check_out_of_stock dev s) = Ok (Nat.ltb 0 (unavailability_count scr)).
Proof.
  intros H B. rewrite (check_out_of_stock_shows dev scr s H), B.
  by destruct (unavailability_count scr) as [|[|n]].
Qed.

Lemma no_affordance_witness :
  unavailability_count ["Currently unavailable"] = 1%nat
  ∧ fst (check_out_of_stock (Sim.phone (screen_site ["Currently unavailable"]))
           (initial_state (O, O))) = Ok true.
Proof.
  split; [reflexivity|].
  apply (no_affordance_any_phrase_is_out_of_stock
           (Sim.phone (screen_site ["Currently unavailable"]))
           (initial_state (O, O)) ["Currently unavailable"]).
  - apply phone_shows.
  - reflexivity.
Defined.

(** exactly one unavailability phrase and no button: out of stock *)
Lemma single_phrase_is_out_of_stock :
  unavailability_count ["Sold Out"] = 1%nat
  ∧ purchasable ["Sold Out"] = false
  ∧ fst (check_out_of_stock (Sim.phone (screen_site ["Sold Out"]))
           (initial_state (O, O))) = Ok true.
Proof. repeat split; vm_compute; reflexivity. Qed.

(** ** Relations every run preserves *)

Create HintDb pres.

Section Preservation.

Context {W : Type}.
Variable dev : Device W.
Variable env : Env.
Variable ORIGINAL_PRODUCT_NAME : string.
Variable R : state W -> state W -> Prop.
Variable quiet : event -> Prop.

Hypothesis R_refl : forall s, R s s.
Hypothesis R_trans : forall s1 s2 s3, R s1 s2 -> R s2 s3 -> R s1 s3.
Hypothesis R_log : forall s w e, quiet e ->
  R s (State w (GLOBAL_LOWEST_PRICE s) (PRICE_CHECK_HISTORY s)
         (VISITED_PRODUCTS s) (trace s ++ [e])).
Hypothesis R_history : forall v, preserves R (append_history v).
Hypothesis R_lower : forall x, preserves R (lower_global env x).
Hypothesis R_add : forall fp, preserves R (add_visited fp).
Hypothesis quiet_other : forall e, scroll_event e = false -> quiet e.

Lemma preserves_ret {A : Type} (a : A) : preserves R (@ret W A a).
Proof. intros s. apply R_refl. Qed.

Lemma preserves_throw {A : Type} (e : exn) : preserves R (@throw W A e).
Proof. intros s. apply R_refl. Qed.

Lemma preserves_lift {A : Type} (r : res A) : preserves R (@lift W A r).
Proof. intros s. apply R_refl. Qed.

Lemma preserves_bind {A B : Type} (m : M W A) (f : A -> M W B) :
  preserves R m -> (forall a, preserves R (f a)) -> preserves R (m ≫= f).
Proof.
  intros Hm Hf s. unfold mbind, M_bind, bind.
  specialize (Hm s). destruct (m s) as [[a|e] s1]; [|done].
  eapply R_trans; [exact Hm|apply Hf].
Qed.

Lemma preserves_catch {A : Type} (m h : M W A) :
  preserves R m -> preserves R h -> preserves R (catch m h).
Proof.
  intros Hm Hh s. unfold catch.
  specialize (Hm s). destruct (m s) as [[a|e] s1]; [done|].
  eapply R_trans; [exact Hm|apply Hh].
Qed.

Lemma preserves_catch_json {A : Type} (m h : M W A) :
  preserves R m -> preserves R h -> preserves R (catch_json m h).
Proof.
  intros Hm Hh s. unfold catch_json.
  specialize (Hm s). destruct (m s) as [[a|[|]] s1]; [done| |done].
  eapply R_trans; [exact Hm|apply Hh].
Qed.

Lemma preserves_call {A : Type} (op : W -> res A * W) (ev : res A -> event) :
  (forall r, quiet (ev r)) -> preserves R (call op ev).
Proof.
  intros Hq s. unfold call. destruct (op (world s)) as [r w]. apply R_log, Hq.
Qed.

Lemma preserves_read_global : preserves R (@read_global W).
Proof. intros s. apply R_refl. Qed.

Lemma preserves_visited (fp : string) : preserves R (@visited W fp).
Proof. intros s. apply R_refl. Qed.

Lemma preserves_adb (cmd : adb_command) : preserves R (execute_adb_command dev cmd).
Proof. intros s. apply R_log, quiet_other. done. Qed.

Ltac pres_step tac :=
  first
    [ solve [auto with pres]
    | apply preserves_ret | apply preserves_throw | apply preserves_lift
    | apply preserves_read_global | apply preserves_visited
    | apply preserves_adb
    | apply preserves_call; intros; tac
    | apply preserves_bind; [|intros ?]
    | apply preserves_catch | apply preserves_catch_json
    | match goal with
      | |- preserves _ (if ?b then _ else _) => destruct b
      | |- preserves _ (match ?x with _ => _ end) => destruct x
      end ].

Ltac pres := repeat pres_step ltac:(apply quiet_other; reflexivity).

Lemma preserves_exists (sel : selector) : preserves R (exists_ dev sel).
Proof. unfold exists_. pres. Qed.

Lemma preserves_count (sel : selector) : preserves R (count_ dev sel).
Proof. unfold count_. pres. Qed.

Lemma preserves_get_text (sel : selector) (i : option nat) :
  preserves R (get_text dev sel i).
Proof. unfold get_text. pres. Qed.

Lemma preserves_info : preserves R (info dev).
Proof. unfold info. pres. Qed.

Lemma preserves_generate_content (req : request) : preserves R (generate_content dev req).
Proof. unfold generate_content. pres. Qed.

Lemma preserves_click (x y : Py.value) : preserves R (click dev x y).
Proof. unfold click. pres. Qed.

Lemma preserves_capture_screenshot : preserves R (capture_screenshot dev).
Proof. unfold capture_screenshot, screenshot. pres. Qed.

#[local] Hint Resolve preserves_exists preserves_count preserves_get_text
  preserves_info preserves_generate_content preserves_click
  preserves_capture_screenshot R_history R_lower R_add : pres.

Lemma preserves_analyze (current_price : Py.value) (product_name : option string) :
  preserves R (analyze_screenshot_for_cheaper_products dev env ORIGINAL_PRODUCT_NAME
               current_price product_name).
Proof. unfold analyze_screenshot_for_cheaper_products. pres. Qed.

Lemma preserves_tap_and_record (x y best_price : Py.value) :
  preserves R (tap_and_record dev env x y best_price).
Proof. unfold tap_and_record. pres. Qed.

#[local] Hint Resolve preserves_analyze preserves_tap_and_record : pres.

Lemma preserves_capture_step (current_price : Py.value) (product_name : option string) :
  preserves R (capture_step dev env ORIGINAL_PRODUCT_NAME current_price product_name).
Proof. unfold capture_step. pres. Qed.

Lemma preserves_scan_prices (sel : selector) (n i : nat) :
  preserves R (scan_prices dev sel n i).
Proof.
  revert i. induction n as [|n IH]; intros i; cbn [scan_prices]; pres.
Qed.

#[local] Hint Resolve preserves_capture_step preserves_scan_prices : pres.

Lemma preserves_prices_matching (pattern : string) :
  preserves R (prices_matching dev pattern).
Proof. unfold prices_matching. pres. Qed.

#[local] Hint Resolve preserves_prices_matching : pres.

Lemma preserves_get_current_price : preserves R (get_current_price_from_page dev).
Proof. unfold get_current_price_from_page. pres. Qed.

Lemma preserves_title_from (sel : selector) : preserves R (title_from dev sel).
Proof. unfold title_from. pres. Qed.

#[local] Hint Resolve preserves_get_current_price preserves_title_from : pres.

Lemma preserves_extract_title : preserves R (extract_product_title_from_page dev).
Proof. unfold extract_product_title_from_page. pres. Qed.

Lemma preserves_any_on_screen (texts : list string) : preserves R (any_on_screen dev texts).
Proof. induction texts as [|t rest IH]; cbn [any_on_screen]; pres. Qed.

Lemma preserves_count_indicators (texts : list string) :
  preserves R (count_indicators dev texts).
Proof. induction texts as [|t rest IH]; cbn [count_indicators]; pres. Qed.

Lemma preserves_find_button (buttons : list string) : preserves R (find_button dev buttons).
Proof. induction buttons as [|t rest IH]; cbn [find_button]; pres. Qed.

#[local] Hint Resolve preserves_extract_title preserves_any_on_screen
  preserves_count_indicators preserves_find_button : pres.

Lemma preserves_check_page_errors : preserves R (check_page_errors dev).
Proof. unfold check_page_errors. pres. Qed.

Lemma preserves_check_out_of_stock : preserves R (check_out_of_stock dev).
Proof. unfold check_out_of_stock. pres. Qed.

Lemma preserves_global_or (d : Py.value) : preserves R (@global_or W d).
Proof. unfold global_or. pres. Qed.

#[local] Hint Resolve preserves_check_page_errors preserves_check_out_of_stock
  preserves_global_or : pres.

Lemma preserves_accept_available (current_price : Py.value) (response_text : string) :
  preserves R (accept_available dev env current_price response_text).
Proof. unfold accept_available. pres. Qed.

Lemma preserves_read_page : preserves R (read_page dev).
Proof. unfold read_page. pres. Qed.

#[local] Hint Resolve preserves_accept_available preserves_read_page : pres.

Section Scrolling.

Hypothesis quiet_scroll : forall e, scroll_event e = true -> quiet e.

Lemma preserves_swipe (x1 y1 x2 y2 : Z) : preserves R (swipe dev x1 y1 x2 y2).
Proof. apply preserves_call. intros r. by apply quiet_scroll. Qed.

Lemma preserves_dump_hierarchy : preserves R (dump_hierarchy dev).
Proof. apply preserves_call. intros r. by apply quiet_scroll. Qed.

#[local] Hint Resolve preserves_swipe preserves_dump_hierarchy : pres.

Lemma preserves_scroll_step (center_x scroll_start_y scroll_end_y : Z) :
  preserves R (scroll_step dev env center_x scroll_start_y scroll_end_y).
Proof. unfold scroll_step. pres. Qed.

#[local] Hint Resolve preserves_scroll_step : pres.

Lemma preserves_scroll_body (current_price : Py.value) (product_name : option string)
    (center_x scroll_start_y scroll_end_y : Z) (scroll_num : nat) :
  preserves R (scroll_body dev env ORIGINAL_PRODUCT_NAME current_price product_name
               center_x scroll_start_y scroll_end_y scroll_num).
Proof. unfold scroll_body. pres. Qed.

#[local] Hint Resolve preserves_scroll_body : pres.

Lemma preserves_scroll_loop (n : nat) (current_price : Py.value)
    (product_name : option string) (center_x scroll_start_y scroll_end_y : Z)
    (scroll_num : nat) :
  preserves R (scroll_loop dev env ORIGINAL_PRODUCT_NAME n current_price product_name
               center_x scroll_start_y scroll_end_y scroll_num).
Proof.
  revert scroll_num. induction n as [|n IH]; intros scroll_num; cbn [scroll_loop]; pres.
Qed.

#[local] Hint Resolve preserves_scroll_loop : pres.

Lemma preserves_smart_scroll (current_price : Py.value) (product_name : option string) :
  preserves R (smart_scroll_and_find_cheaper dev env ORIGINAL_PRODUCT_NAME
               current_price product_name).
Proof. unfold smart_scroll_and_find_cheaper. pres. Qed.

#[local] Hint Resolve preserves_smart_scroll : pres.

Lemma preserves_error_branch (current_price : Py.value) (current_title : option string) :
  preserves R (error_branch dev env ORIGINAL_PRODUCT_NAME current_price current_title).
Proof. unfold error_branch. pres. Qed.

Lemma preserves_swipes (n : nat) (center_x scroll_start_y scroll_end_y : Z) :
  preserves R (swipes dev n center_x scroll_start_y scroll_end_y).
Proof. induction n as [|n IH]; cbn [swipes]; pres. Qed.

#[local] Hint Resolve preserves_error_branch preserves_swipes : pres.

Lemma preserves_find_available (current_price : Py.value) (current_title : option string) :
  preserves R (find_available dev env ORIGINAL_PRODUCT_NAME current_price current_title).
Proof. unfold find_available. pres. Qed.

#[local] Hint Resolve preserves_find_available : pres.

Lemma preserves_stock_branch (current_price : Py.value) (current_title : option string) :
  preserves R (stock_branch dev env ORIGINAL_PRODUCT_NAME current_price current_title).
Proof. unfold stock_branch. pres. Qed.

Lemma preserves_reload_verify (current_price : Py.value) (current_title : option string) :
  preserves R (reload_verify dev env ORIGINAL_PRODUCT_NAME current_price current_title).
Proof. unfold reload_verify. pres. Qed.

#[local] Hint Resolve preserves_stock_branch preserves_reload_verify : pres.

Lemma preserves_normal_branch (current_price : Py.value) (current_title : option string) :
  preserves R (normal_branch dev env ORIGINAL_PRODUCT_NAME current_price current_title).
Proof. unfold normal_branch. pres. Qed.

#[local] Hint Resolve preserves_normal_branch : pres.

Lemma preserves_visit (current_price : Py.value) (current_title : option string) :
  preserves R (visit dev env ORIGINAL_PRODUCT_NAME current_price current_title).
Proof. unfold visit. pres. Qed.

#[local] Hint Resolve preserves_visit : pres.

Lemma preserves_iteration : preserves R (iteration dev env ORIGINAL_PRODUCT_NAME).
Proof. unfold iteration. pres. Qed.

Lemma preserves_final_pass : preserves R (final_pass dev env ORIGINAL_PRODUCT_NAME).
Proof. unfold final_pass. pres. Qed.

#[local] Hint Resolve preserves_iteration preserves_final_pass : pres.

Lemma preserves_iterate (n : nat) : preserves R (iterate dev env ORIGINAL_PRODUCT_NAME n).
Proof. induction n as [|n IH]; cbn [iterate]; pres. Qed.

Lemma preserves_process_product_page_loop :
  preserves R (process_product_page_loop dev env ORIGINAL_PRODUCT_NAME).
Proof. apply preserves_iterate. Qed.

End Scrolling.

End Preservation.

(** ** The global lowest price *)

Lemma Qlt_bool_lt (x y : Q) : Py.Qlt_bool x y = true -> (x < y)%Q.
Proof.
  unfold Py.Qlt_bool. intros H. apply negb_true_iff in H.
  apply Qnot_le_lt. intros L. apply Qle_bool_iff in L. congruence.
Qed.

Lemma py_lt_numbers (env : Env) (a b : Py.value) (q : Q) :
  py_lt env a b = Ok true -> Py.num_of b = Some q ->
  exists p, Py.num_of a = Some p ∧ (p < q)%Q.
Proof.
  unfold py_lt. intros H E. rewrite E in H.
  destruct (Py.num_of a) as [p|]; [|done].
  exists p. split; [done|]. apply Qlt_bool_lt. congruence.
Qed.

Lemma lowers_never_above (env : Env) (g g' : Py.value) :
  lowers env g g' -> never_above g g'.
Proof.
  induction 1 as [g|g g1 g2 [->|H] _ IH]; intros q E.
  - exists q. split; [done|]. apply Qle_refl.
  - done.
  - destruct (py_lt_numbers env g1 g q H E) as (p & E1 & L).
    destruct (IH p E1) as (q' & E2 & L').
    exists q'. split; [done|]. eapply Qle_trans; [exact L'|]. by apply Qlt_le_weak.
Qed.

Lemma lower_global_lowers {W : Type} (env : Env) (x : Py.value) :
  preserves (W := W) (global_lowers env) (lower_global env x).
Proof.
  intros s. unfold global_lowers, lower_global, mbind, M_bind, bind, read_global.
  destruct (GLOBAL_LOWEST_PRICE s) eqn:E; cbn;
    try (apply rtc_once; left; done);
    unfold lift; (destruct (py_lt env x _) as [[|]|] eqn:L; cbn; rewrite ?E;
      [apply rtc_once; right; done|done|done]).
Qed.

Ltac lowers_frame :=
  first
    [ apply lower_global_lowers
    | done
    | unfold preserves, global_lowers; intros;
      first [apply rtc_refl | etrans; eassumption] ].

Section GlobalLowest.

Context {W : Type}.
Variable dev : Device W.
Variable env : Env.
Variable ORIGINAL_PRODUCT_NAME : string.

Lemma process_lowers (s : state W) :
  global_lowers env s (snd (process_product_page_loop dev env ORIGINAL_PRODUCT_NAME s)).
Proof.
  apply (preserves_process_product_page_loop dev env ORIGINAL_PRODUCT_NAME
           (global_lowers env) (fun _ => True)); lowers_frame.
Qed.

Lemma smart_scroll_lowers (current_price : Py.value) (product_name : option string)
    (s : state W) :
  global_lowers env s (snd (smart_scroll_and_find_cheaper dev env ORIGINAL_PRODUCT_NAME
                          current_price product_name s)).
Proof.
  apply (preserves_smart_scroll dev env ORIGINAL_PRODUCT_NAME
           (global_lowers env) (fun _ => True)); lowers_frame.
Qed.

End GlobalLowest.

(** C4: over a whole run of the optimisation loop, and over a whole run of
    the scroll search, the global lowest price changes only by assignments
    over [None] or of a value that compares strictly lower than the one it
    replaces; a global lowest price that is a number stays a number and
    never increases. *)
Theorem global_lowest_price_never_increases
  {W : Type} (dev : Device W) (env : Env) (ORIGINAL_PRODUCT_NAME : string)
  (current_price : Py.value) (product_name : option string) (s : state W) :
  (lowers env (GLOBAL_LOWEST_PRICE s)
     (GLOBAL_LOWEST_PRICE
        (snd (process_product_page_loop dev env ORIGINAL_PRODUCT_NAME s)))
   ∧ never_above (GLOBAL_LOWEST_PRICE s)
       (GLOBAL_LOWEST_PRICE
          (snd (process_product_page_loop dev env ORIGINAL_PRODUCT_NAME s))))
  ∧ (lowers env (GLOBAL_LOWEST_PRICE s)
       (GLOBAL_LOWEST_PRICE
          (snd (smart_scroll_and_find_cheaper dev env ORIGINAL_PRODUCT_NAME
                  current_price product_name s)))
     ∧ never_above (GLOBAL_LOWEST_PRICE s)
         (GLOBAL_LOWEST_PRICE
            (snd (smart_scroll_and_find_cheaper dev env ORIGINAL_PRODUCT_NAME
                    current_price product_name s)))).
Proof.
  pose proof (process_lowers dev env ORIGINAL_PRODUCT_NAME s) as H1.
  pose proof (smart_scroll_lowers dev env ORIGINAL_PRODUCT_NAME
                current_price product_name s) as H2.
  split; (split; [done|by eapply lowers_never_above]).
Qed.


Section Visited.

Context {W : Type}.
Variable dev : Device W.
Variable env : Env.
Variable ORIGINAL_PRODUCT_NAME : string.

(** [lower_global] writes the global lowest price and nothing else *)
Lemma lower_global_keeps (x : Py.value) (s : state W) :
  world (snd (lower_global env x s)) = world s
  ∧ PRICE_CHECK_HISTORY (snd (lower_global env x s)) = PRICE_CHECK_HISTORY s
  ∧ VISITED_PRODUCTS (snd (lower_global env x s)) = VISITED_PRODUCTS s
  ∧ trace (snd (lower_global env x s)) = trace s.
Proof.
  unfold lower_global, mbind, M_bind, bind, read_global, lift.
  destruct (GLOBAL_LOWEST_PRICE s); cbn; try done;
    destruct (py_lt env x _) as [[|]|]; done.
Qed.

Ltac visited_frame :=
  first
    [ done
    | unfold preserves, visited_grows; intros;
      first [ by rewrite (proj1 (proj2 (proj2 (lower_global_keeps _ _))))
            | cbn; set_solver ] ].

Lemma iteration_visited (s : state W) :
  visited_grows s (snd (iteration dev env ORIGINAL_PRODUCT_NAME s)).
Proof.
  apply (preserves_iteration dev env ORIGINAL_PRODUCT_NAME
           visited_grows (fun _ => True)); visited_frame.
Qed.

Lemma process_visited (s : state W) :
  visited_grows s (snd (process_product_page_loop dev env ORIGINAL_PRODUCT_NAME s)).
Proof.
  apply (preserves_process_product_page_loop dev env ORIGINAL_PRODUCT_NAME
           visited_grows (fun _ => True)); visited_frame.
Qed.

Lemma iteration_revisit (s s1 : state W) (current_title : option string)
    (current_price : Py.value) :
  read_page dev s = (Ok (current_title, current_price), s1) ->
  fingerprint env current_title current_price ∈ VISITED_PRODUCTS s1 ->
  iteration dev env ORIGINAL_PRODUCT_NAME s
  = (Ok (Return (Outcome Line588 true current_price)), s1).
Proof.
  intros E H. unfold iteration, mbind, M_bind, bind. rewrite E.
  unfold visited. by rewrite bool_decide_eq_true_2.
Qed.

Lemma iterate_visited (n : nat) (s : state W) :
  visited_grows s (snd (iterate dev env ORIGINAL_PRODUCT_NAME n s)).
Proof.
  apply (preserves_iterate dev env ORIGINAL_PRODUCT_NAME
           visited_grows (fun _ => True)); visited_frame.
Qed.

(** a revisit ends the loop whatever the number of iterations left *)
Lemma iterate_revisit (n : nat) (s s1 : state W) (current_title : option string)
    (current_price : Py.value) :
  read_page dev s = (Ok (current_title, current_price), s1) ->
  fingerprint env current_title current_price ∈ VISITED_PRODUCTS s1 ->
  iterate dev env ORIGINAL_PRODUCT_NAME (S n) s
  = (Ok (Outcome Line588 true current_price), s1).
Proof.
  intros E H. cbn [iterate]. unfold mbind, M_bind, bind.
  by rewrite (iteration_revisit s s1 _ _ E H).
Qed.

End Visited.

(** C5: the fingerprints in [VISITED_PRODUCTS] before an iteration, before
    any number of iterations and before a run of the loop are still there
    after it; and when the fingerprint of the page an iteration has read is
    already in the set, the iteration returns [(True, current_price)] at
    line 588, and so does the loop, with any number of iterations left and
    from its start, in the state the reading left: no later device call,
    no change to the globals. *)
Theorem visited_grows_and_revisit_stops
  {W : Type} (dev : Device W) (env : Env) (ORIGINAL_PRODUCT_NAME : string)
  (s : state W) :
  VISITED_PRODUCTS s
    ⊆ VISITED_PRODUCTS (snd (process_product_page_loop dev env ORIGINAL_PRODUCT_NAME s))
  ∧ VISITED_PRODUCTS s
      ⊆ VISITED_PRODUCTS (snd (iteration dev env ORIGINAL_PRODUCT_NAME s))
  ∧ (forall n : nat,
       VISITED_PRODUCTS s
         ⊆ VISITED_PRODUCTS (snd (iterate dev env ORIGINAL_PRODUCT_NAME n s)))
  ∧ (forall (s1 : state W) (current_title : option string) (current_price : Py.value),
       read_page dev s = (Ok (current_title, current_price), s1) ->
       fingerprint env current_title current_price ∈ VISITED_PRODUCTS s1 ->
       iteration dev env ORIGINAL_PRODUCT_NAME s
       = (Ok (Return (Outcome Line588 true current_price)), s1)
       ∧ (forall n : nat,
            iterate dev env ORIGINAL_PRODUCT_NAME (S n) s
            = (Ok (Outcome Line588 true current_price), s1))
       ∧ process_product_page_loop dev env ORIGINAL_PRODUCT_NAME s
         = (Ok (Outcome Line588 true current_price), s1)).
Proof.
  split; [apply process_visited|]. split; [apply iteration_visited|].
  split; [intros n; apply iterate_visited|].
  intros s1 t p E H.
  split; [by apply (iteration_revisit dev env _ s s1 t p)|].
  split; [intros n; by apply (iterate_revisit dev env _ n s s1 t p)|].
  by apply (iterate_revisit dev env _ _ s s1 t p).
Qed.

Lemma revisit_stops_witness :
  process_product_page_loop (Sim.phone two_offers) Ref.env "Galaxy M35 5G" seen_before
  = (Ok (Outcome Line588 true (Py.VFloat (20000 # 1))),
     snd (read_page (Sim.phone two_offers) seen_before)).
Proof.
  pose proof (visited_grows_and_revisit_stops (Sim.phone two_offers) Ref.env
                "Galaxy M35 5G" seen_before) as (_ & _ & _ & H).
  apply (H (snd (read_page (Sim.phone two_offers) seen_before))
           (Some "Galaxy M35 5G (8GB, 128GB)") (Py.VFloat (20000 # 1))).
  - vm_compute. reflexivity.
  - apply elem_of_singleton. vm_compute. reflexivity.
Defined.

(** the loop on a page whose cheaper offer opens the same page: the first
    iteration records the page and taps the offer, the second meets the
    recorded fingerprint and the loop returns at line 588 *)
Example revisit_in_second_iteration :
  fst (iteration (Sim.phone same_page) Ref.env "Galaxy M35 5G" (initial_state (O, O)))
  = Ok Next
  ∧ fst (process_product_page_loop (Sim.phone same_page) Ref.env "Galaxy M35 5G"
           (initial_state (O, O)))
    = Ok (Outcome Line588 true (Py.VFloat (20000 # 1))).
Proof. split; vm_compute; reflexivity. Qed.

(** ** Runs that return *)

Section Runs.

Context {W : Type}.

Lemma bind_ok {A B : Type} (m : M W A) (f : A -> M W B) (s s' : state W) (b : B) :
  (m ≫= f) s = (Ok b, s') ->
  exists a s1, m s = (Ok a, s1) ∧ f a s1 = (Ok b, s').
Proof.
  unfold mbind, M_bind, bind. destruct (m s) as [[a|e] s1]; [|done].
  intros H. by exists a, s1.
Qed.

Lemma catch_ok {A : Type} (m h : M W A) (s s' : state W) (a : A) :
  catch m h s = (Ok a, s') ->
  m s = (Ok a, s') ∨ exists e s1, m s = (Raise e, s1) ∧ h s1 = (Ok a, s').
Proof.
  unfold catch. destruct (m s) as [[a1|e] s1]; intros H.
  - by left.
  - right. by exists e, s1.
Qed.

Lemma ret_ok {A : Type} (a b : A) (s s' : state W) :
  ret a s = (Ok b, s') -> b = a ∧ s' = s.
Proof. unfold ret. by intros [= -> ->]. Qed.

Lemma lift_ok {A : Type} (r : res A) (a : A) (s s' : state W) :
  lift r s = (Ok a, s') -> r = Ok a ∧ s' = s.
Proof. unfold lift. by intros [= -> ->]. Qed.

End Runs.

Ltac run_inv :=
  repeat match goal with
  | H : (_ ≫= _) _ = (Ok _, _) |- _ =>
      apply bind_ok in H as (? & ? & ? & H)
  | H : ret _ _ = (Ok _, _) |- _ => apply ret_ok in H as [? ?]; simplify_eq
  | H : lift _ _ = (Ok _, _) |- _ => apply lift_ok in H as [? ?]; subst
  | H : throw _ _ = (Ok _, _) |- _ => discriminate H
  | H : (if ?b then _ else _) _ = (Ok _, _) |- _ => destruct b eqn:?
  | H : (match ?x with _ => _ end) _ = (Ok _, _) |- _ => destruct x eqn:?
  end.

Lemma lower_and_sub (env : Env) (p current_price : Py.value) (d : Q) :
  py_lt env p current_price = Ok true ->
  Py.sub current_price p = Ok d ->
  strictly_lower p current_price.
Proof.
  unfold py_lt, Py.sub. intros L S.
  destruct (Py.num_of current_price) as [c|] eqn:Ec; [|done].
  destruct (Py.num_of p) as [q|] eqn:Ep; [|done].
  exists q, c. split; [done|]. split; [done|]. apply Qlt_bool_lt. congruence.
Qed.

Section ScrollResult.

Context {W : Type}.
Variable dev : Device W.
Variable env : Env.
Variable ORIGINAL_PRODUCT_NAME : string.

Lemma tap_and_record_ok (x y best_price : Py.value) (s s' : state W)
    (r : bool * Py.value) :
  tap_and_record dev env x y best_price s = (Ok r, s') -> r = (true, best_price).
Proof.
  unfold tap_and_record. intros H.
  apply catch_ok in H as [H|(e & s1 & _ & H)]; by run_inv.
Qed.

Lemma capture_step_ok (current_price : Py.value) (product_name : option string)
    (s s' : state W) (r : bool * Py.value) :
  capture_step dev env ORIGINAL_PRODUCT_NAME current_price product_name s
  = (Ok (Return r), s') ->
  r.1 = true ∧ strictly_lower r.2 current_price.
Proof.
  unfold capture_step. intros H. run_inv.
  match goal with
  | H : tap_and_record _ _ _ _ _ _ = _ |- _ => apply tap_and_record_ok in H as ->
  end.
  split; [done|]. by eapply lower_and_sub.
Qed.

Lemma scroll_step_ok (center_x scroll_start_y scroll_end_y : Z) (s s' : state W)
    (r : bool * Py.value) :
  scroll_step dev env center_x scroll_start_y scroll_end_y s = (Ok (Return r), s') ->
  False.
Proof.
  unfold scroll_step. intros H.
  apply catch_ok in H as [H|(e & s1 & _ & H)]; by run_inv.
Qed.

Lemma scroll_body_ok (current_price : Py.value) (product_name : option string)
    (center_x scroll_start_y scroll_end_y : Z) (scroll_num : nat)
    (s s' : state W) (r : bool * Py.value) :
  scroll_body dev env ORIGINAL_PRODUCT_NAME current_price product_name
    center_x scroll_start_y scroll_end_y scroll_num s = (Ok (Return r), s') ->
  r.1 = true ∧ strictly_lower r.2 current_price.
Proof.
  unfold scroll_body. intros H. apply bind_ok in H as (c & s1 & H1 & H).
  destruct c as [| |r1].
  - by apply scroll_step_ok in H.
  - by run_inv.
  - run_inv. destruct (Nat.even scroll_num); [|by run_inv].
    by apply capture_step_ok in H1.
Qed.

Lemma scroll_loop_ok (n : nat) (current_price : Py.value)
    (product_name : option string) (center_x scroll_start_y scroll_end_y : Z)
    (scroll_num : nat) (s s' : state W) (r : bool * Py.value) :
  scroll_loop dev env ORIGINAL_PRODUCT_NAME n current_price product_name
    center_x scroll_start_y scroll_end_y scroll_num s = (Ok r, s') ->
  scroll_result current_price r.
Proof.
  revert scroll_num s. induction n as [|n IH]; intros scroll_num s; cbn [scroll_loop].
  - intros H. run_inv. by split.
  - intros H. apply bind_ok in H as (c & s1 & H1 & H).
    destruct c as [| |r1].
    + by eapply IH.
    + run_inv. by split.
    + run_inv. apply scroll_body_ok in H1 as [H1 H2].
      split; [done|]. intros E. congruence.
Qed.

(** the scroll search returns, and what it returns is a [scroll_result] *)
Lemma smart_scroll_returns (current_price : Py.value) (product_name : option string)
    (s : state W) :
  exists r,
    fst (smart_scroll_and_find_cheaper dev env ORIGINAL_PRODUCT_NAME
           current_price product_name s) = Ok r
    ∧ scroll_result current_price r.
Proof.
  unfold smart_scroll_and_find_cheaper, catch.
  match goal with |- context [match ?m s with _ => _ end] => destruct (m s) as [[r|e] s1] eqn:E end.
  - exists r. split; [done|].
    apply bind_ok in E as ([w h] & s2 & _ & E). by eapply scroll_loop_ok.
  - exists (false, current_price). by split.
Qed.

End ScrollResult.

(** X1: whatever the device, the runtime and the state, the scroll search
    returns a pair [(found, price)]; when [found] is true, [price] and
    [current_price] are numbers and [price] is strictly the lower one; when
    [found] is false, [price] is [current_price]. *)
Theorem smart_scroll_returns_lower_or_same
  {W : Type} (dev : Device W) (env : Env) (ORIGINAL_PRODUCT_NAME : string)
  (current_price : Py.value) (product_name : option string) (s : state W) :
  exists (found : bool) (price : Py.value),
    fst (smart_scroll_and_find_cheaper dev env ORIGINAL_PRODUCT_NAME
           current_price product_name s) = Ok (found, price)
    ∧ (found = true -> strictly_lower price current_price)
    ∧ (found = false -> price = current_price).
Proof.
  destruct (smart_scroll_returns dev env ORIGINAL_PRODUCT_NAME
              current_price product_name s) as ([found price] & E & H1 & H2).
  by exists found, price.
Qed.

Example smart_scroll_finds_lower :
  fst (smart_scroll_and_find_cheaper (Sim.phone two_offers) Ref.env "Galaxy M35 5G"
         (Py.VFloat (20000 # 1)) (Some "Galaxy M35 5G (8GB, 128GB)")
         (initial_state (O, O)))
  = Ok (true, Py.VInt 18000).
Proof. vm_compute. reflexivity. Qed.

Example smart_scroll_finds_nothing :
  fst (smart_scroll_and_find_cheaper (Sim.phone two_offers) Ref.env "Galaxy M35 5G"
         (Py.VFloat (18000 # 1)) (Some "Galaxy M35 5G (8GB, 128GB) Blue")
         (initial_state (1%nat, O)))
  = Ok (false, Py.VFloat (18000 # 1)).
Proof. vm_compute. reflexivity. Qed.

(** ** The error branch *)

(** X2: when the error check of an iteration reports a
    page error, the iteration runs the scroll search with its current price;
    the search reports an alternative only when it is strictly cheaper than
    that price, and the loop then goes on to its next iteration; otherwise
    the loop returns [(False, current_price)] at line 608. *)
Theorem error_branch_accepts_only_cheaper
  {W : Type} (dev : Device W) (env : Env) (ORIGINAL_PRODUCT_NAME : string)
  (current_price : Py.value) (current_title : option string) (s s1 : state W) :
  check_page_errors dev s = (Ok true, s1) ->
  exists (found : bool) (new_price : Py.value) (s2 : state W),
    smart_scroll_and_find_cheaper dev env ORIGINAL_PRODUCT_NAME
      current_price current_title s1 = (Ok (found, new_price), s2)
    ∧ (found = true ->
       strictly_lower new_price current_price
       ∧ visit dev env ORIGINAL_PRODUCT_NAME current_price current_title s
         = (Ok Next, s2))
    ∧ (found = false ->
       visit dev env ORIGINAL_PRODUCT_NAME current_price current_title s
       = (Ok (Return (Outcome Line608 false current_price)), s2)).
Proof.
  intros E.
  destruct (smart_scroll_returns dev env ORIGINAL_PRODUCT_NAME
              current_price current_title s1) as ([found p] & R & H1 & H2).
  destruct (smart_scroll_and_find_cheaper dev env ORIGINAL_PRODUCT_NAME
              current_price current_title s1) as [r s2] eqn:S.
  cbn in R. subst r. exists found, p, s2. split; [done|].
  unfold visit, error_branch, mbind, M_bind, bind. rewrite E, S.
  split; intros ->; [split; [by apply H1|done]|done].
Qed.

Lemma error_branch_witness :
  exists (found : bool) (new_price : Py.value) (s2 : state Sim.world),
    smart_scroll_and_find_cheaper (Sim.phone broken_page_cheaper) Ref.env "Galaxy M35 5G"
      (Py.VFloat (100 # 1)) (Some "Galaxy M35 5G (8GB, 128GB)")
      (snd (check_page_errors (Sim.phone broken_page_cheaper) (initial_state (O, O))))
    = (Ok (found, new_price), s2)
    ∧ (found = true ->
       strictly_lower new_price (Py.VFloat (100 # 1))
       ∧ visit (Sim.phone broken_page_cheaper) Ref.env "Galaxy M35 5G"
           (Py.VFloat (100 # 1)) (Some "Galaxy M35 5G (8GB, 128GB)")
           (initial_state (O, O))
         = (Ok Next, s2))
    ∧ (found = false ->
       visit (Sim.phone broken_page_cheaper) Ref.env "Galaxy M35 5G"
         (Py.VFloat (100 # 1)) (Some "Galaxy M35 5G (8GB, 128GB)")
         (initial_state (O, O))
       = (Ok (Return (Outcome Line608 false (Py.VFloat (100 # 1)))), s2)).
Proof.
  apply (error_branch_accepts_only_cheaper (Sim.phone broken_page_cheaper) Ref.env
           "Galaxy M35 5G" (Py.VFloat (100 # 1)) (Some "Galaxy M35 5G (8GB, 128GB)")
           (initial_state (O, O))).
  vm_compute. reflexivity.
Defined.

Example error_branch_takes_cheaper :
  fst (visit (Sim.phone broken_page_cheaper) Ref.env "Galaxy M35 5G"
         (Py.VFloat (100 # 1)) (Some "Galaxy M35 5G (8GB, 128GB)")
         (initial_state (O, O)))
  = Ok Next.
Proof. vm_compute. reflexivity. Qed.

(** an alternative at 120 on a page in error at 100: the loop fails *)
Lemma error_branch_rejects_pricier :
  Oracle.parse_cheaper Ref.env (Py.VFloat (100 # 1))
    (Ref.quoted "[{'price': 120, 'x': 500, 'y': 900, 'title': 'Galaxy M35 5G'}]")
  = Ok (Py.VList [Py.VDict [("price", Py.VInt 120); ("x", Py.VInt 500);
                            ("y", Py.VInt 900); ("title", Py.VStr "Galaxy M35 5G")]])
  ∧ fst (process_product_page_loop (Sim.phone broken_page) Ref.env "Galaxy M35 5G"
           (initial_state (O, O)))
    = Ok (Outcome Line608 false (Py.VFloat (100 # 1))).
Proof. split; vm_compute; reflexivity. Qed.

(** ** The price returned after the reload *)

Lemma never_above_refl (g : Py.value) : never_above g g.
Proof. intros q E. exists q. split; [done|apply Qle_refl]. Qed.

Lemma never_above_trans (a b c : Py.value) :
  never_above a b -> never_above b c -> never_above a c.
Proof.
  intros H1 H2 q E. destruct (H1 q E) as (q1 & E1 & L1).
  destruct (H2 q1 E1) as (q2 & E2 & L2).
  exists q2. split; [done|]. by eapply Qle_trans.
Qed.

Lemma Qlt_bool_false (x y : Q) : Py.Qlt_bool x y = false -> (y <= x)%Q.
Proof.
  unfold Py.Qlt_bool. intros H. apply negb_false_iff in H. by apply Qle_bool_iff.
Qed.

Lemma run_never_above {W A : Type} (env : Env) (m : M W A) (s s' : state W) (r : res A) :
  preserves (global_lowers env) m -> m s = (r, s') ->
  never_above (GLOBAL_LOWEST_PRICE s) (GLOBAL_LOWEST_PRICE s').
Proof.
  intros P E. specialize (P s). rewrite E in P. by apply lowers_never_above in P.
Qed.

Lemma py_lt_false_numbers (env : Env) (x g : Py.value) (q : Q) :
  py_lt env x g = Ok false -> Py.num_of x = Some q ->
  exists q', Py.num_of g = Some q' ∧ (q' <= q)%Q.
Proof.
  unfold py_lt. intros L E. rewrite E in L.
  destruct (Py.num_of g) as [q'|]; [|done].
  exists q'. split; [done|]. apply Qlt_bool_false. congruence.
Qed.

(** after [lower_global x] has returned, the global lowest price is not
    above [x] *)
Lemma lower_global_ok {W : Type} (env : Env) (x : Py.value) (s s' : state W) :
  lower_global env x s = (Ok tt, s') -> never_above x (GLOBAL_LOWEST_PRICE s').
Proof.
  unfold lower_global, mbind, M_bind, bind, read_global, lift, write_global, ret.
  destruct (GLOBAL_LOWEST_PRICE s) eqn:G;
    [ intros [= <-]; cbn; apply never_above_refl | .. ];
    (destruct (py_lt env x _) as [[|]|] eqn:L;
     [ intros [= <-]; cbn; apply never_above_refl
     | intros [= <-]; cbn; rewrite G; intros q1 E1; by eapply py_lt_false_numbers
     | done ]).
Qed.

Section ReloadPrice.

Context {W : Type}.
Variable dev : Device W.
Variable env : Env.
Variable ORIGINAL_PRODUCT_NAME : string.

Lemma smart_scroll_global_lowers (current_price : Py.value)
    (product_name : option string) :
  preserves (global_lowers env)
    (smart_scroll_and_find_cheaper dev env ORIGINAL_PRODUCT_NAME
       current_price product_name).
Proof. intros s. apply smart_scroll_lowers. Qed.

Lemma adb_global_lowers (cmd : adb_command) :
  preserves (global_lowers env) (execute_adb_command dev cmd).
Proof.
  apply (preserves_adb dev (global_lowers env) (fun _ => True)); lowers_frame.
Qed.

Lemma check_page_errors_global_lowers :
  preserves (global_lowers env) (check_page_errors dev).
Proof.
  apply (preserves_check_page_errors dev (global_lowers env) (fun _ => True));
    lowers_frame.
Qed.

Lemma check_out_of_stock_global_lowers :
  preserves (global_lowers env) (check_out_of_stock dev).
Proof.
  apply (preserves_check_out_of_stock dev (global_lowers env) (fun _ => True));
    lowers_frame.
Qed.

Lemma get_current_price_global_lowers :
  preserves (global_lowers env) (get_current_price_from_page dev).
Proof.
  apply (preserves_get_current_price dev (global_lowers env) (fun _ => True));
    lowers_frame.
Qed.

Ltac chain :=
  repeat match goal with
  | H : lower_global _ _ _ = (Ok ?u, _) |- _ =>
      destruct u; apply lower_global_ok in H
  | H : smart_scroll_and_find_cheaper _ _ _ _ _ _ = _ |- _ =>
      apply (run_never_above env _ _ _ _ (smart_scroll_global_lowers _ _)) in H
  | H : execute_adb_command _ _ _ = _ |- _ =>
      apply (run_never_above env _ _ _ _ (adb_global_lowers _)) in H
  | H : check_page_errors _ _ = _ |- _ =>
      apply (run_never_above env _ _ _ _ check_page_errors_global_lowers) in H
  | H : check_out_of_stock _ _ = _ |- _ =>
      apply (run_never_above env _ _ _ _ check_out_of_stock_global_lowers) in H
  | H : get_current_price_from_page _ _ = _ |- _ =>
      apply (run_never_above env _ _ _ _ get_current_price_global_lowers) in H
  end.

Ltac follow :=
  repeat first [ eassumption | eapply never_above_trans; [eassumption|] ].

Lemma normal_branch_868 (current_price : Py.value) (current_title : option string)
    (s s' : state W) (o : outcome) :
  normal_branch dev env ORIGINAL_PRODUCT_NAME current_price current_title s
  = (Ok (Return o), s') ->
  confirmed o s'.
Proof.
  unfold normal_branch, reload_verify. intros H Hs. run_inv; cbn [site success price] in *; try done.
  all: chain; split; [done|]; follow.
Qed.

Lemma visit_868 (current_price : Py.value) (current_title : option string)
    (s s' : state W) (o : outcome) :
  visit dev env ORIGINAL_PRODUCT_NAME current_price current_title s
  = (Ok (Return o), s') ->
  confirmed o s'.
Proof.
  unfold visit. intros H. apply bind_ok in H as (err & s1 & _ & H).
  destruct err.
  - unfold error_branch in H. intros Hs. run_inv; cbn [site success price] in *; done.
  - apply bind_ok in H as (oos & s2 & _ & H). destruct oos.
    + unfold stock_branch, global_or in H. intros Hs. run_inv; cbn [site success price] in *; done.
    + by eapply normal_branch_868.
Qed.

Lemma iteration_868 (s s' : state W) (o : outcome) :
  iteration dev env ORIGINAL_PRODUCT_NAME s = (Ok (Return o), s') ->
  confirmed o s'.
Proof.
  unfold iteration. intros H. apply bind_ok in H as ([t p] & s1 & _ & H).
  apply bind_ok in H as (seen & s2 & _ & H). destruct seen.
  - intros Hs. run_inv; cbn [site success price] in *; done.
  - apply bind_ok in H as (? & s3 & _ & H). apply bind_ok in H as (? & s4 & _ & H).
    by eapply visit_868.
Qed.

Lemma final_pass_868 (s s' : state W) (o : outcome) :
  final_pass dev env ORIGINAL_PRODUCT_NAME s = (Ok o, s') -> confirmed o s'.
Proof.
  unfold final_pass, global_or. intros H Hs. run_inv; cbn [site success price] in *; done.
Qed.

Lemma iterate_868 (n : nat) (s s' : state W) (o : outcome) :
  iterate dev env ORIGINAL_PRODUCT_NAME n s = (Ok o, s') -> confirmed o s'.
Proof.
  revert s. induction n as [|n IH]; intros s; cbn [iterate].
  - apply final_pass_868.
  - intros H. apply bind_ok in H as (c & s1 & H1 & H). destruct c as [| |o1].
    + by eapply IH.
    + by eapply final_pass_868.
    + run_inv. by eapply iteration_868.
Qed.

End ReloadPrice.

Lemma never_above_not_below (env : Env) (x g : Py.value) (q : Q) :
  never_above x g -> Py.num_of x = Some q -> py_lt env x g = Ok false.
Proof.
  intros H E. destruct (H q E) as (q' & E' & L).
  unfold py_lt. rewrite E, E'. f_equal.
  unfold Py.Qlt_bool. apply negb_false_iff. by apply Qle_bool_iff.
Qed.

(** X3: when the optimisation loop returns from its verification after the
    reload (the [return True, current_price] of line 868), the result is a
    success, and if the price returned is a number, the comparison of lines
    770 and 861, [price < GLOBAL_LOWEST_PRICE], gives [False] on it: the
    price returned is not below the global lowest price. *)
Theorem reload_price_not_below_global_lowest
  {W : Type} (dev : Device W) (env : Env) (ORIGINAL_PRODUCT_NAME : string)
  (s s' : state W) (o : outcome) :
  process_product_page_loop dev env ORIGINAL_PRODUCT_NAME s = (Ok o, s') ->
  site o = Line868 ->
  success o = true
  ∧ (forall q, Py.num_of (price o) = Some q ->
       py_lt env (price o) (GLOBAL_LOWEST_PRICE s') = Ok false).
Proof.
  intros H Hs.
  destruct (iterate_868 dev env ORIGINAL_PRODUCT_NAME max_iterations s s' o H Hs)
    as [S N].
  split; [done|]. intros q E. by eapply never_above_not_below.
Qed.

Lemma reload_price_witness :
  success (Outcome Line868 true (Py.VFloat (300 # 1))) = true
  ∧ py_lt Ref.env (Py.VFloat (300 # 1))
      (GLOBAL_LOWEST_PRICE
         (snd (process_product_page_loop (Sim.phone pricier_target) Ref.env
                 "Galaxy M35 5G" (initial_state (O, O)))))
    = Ok false.
Proof.
  destruct (reload_price_not_below_global_lowest (Sim.phone pricier_target) Ref.env
           "Galaxy M35 5G" (initial_state (O, O))
           (snd (process_product_page_loop (Sim.phone pricier_target) Ref.env
                   "Galaxy M35 5G" (initial_state (O, O))))
           (Outcome Line868 true (Py.VFloat (300 # 1)))) as [S P].
  - vm_compute. reflexivity.
  - reflexivity.
  - split; [exact S|]. exact (P (300 # 1)%Q eq_refl).
Defined.


Section Lookups.

Context {W : Type}.
Variable dev : Device W.

Lemma exists_steady (t : string) (s : state W) :
  steady dev (world s) ->
  exists s', exists_ dev (TextContains t) s = (answer dev (world s) t, s')
    ∧ logged s s'.
Proof.
  intros H. unfold exists_, call, answer. specialize (H t).
  destruct (dev_exists dev (TextContains t) (world s)) as [r w]. cbn in *. subst w.
  eexists. split; [done|]. done.
Qed.

Lemma guarded_exists_steady (t : string) (s : state W) :
  steady dev (world s) ->
  exists s', catch (exists_ dev (TextContains t)) (ret false) s
             = (Ok (found (answer dev (world s) t)), s')
    ∧ logged s s'.
Proof.
  intros H. destruct (exists_steady t s H) as (s' & E & L).
  exists s'. split; [|done]. unfold catch. rewrite E.
  by destruct (answer dev (world s) t) as [[|]|].
Qed.

Lemma any_on_screen_steady (texts : list string) (s : state W) :
  steady dev (world s) ->
  exists s', any_on_screen dev texts s
             = (Ok (existsb (fun t => found (answer dev (world s) t)) texts), s')
    ∧ logged s s'.
Proof.
  revert s. induction texts as [|t rest IH]; intros s H.
  - eexists. split; [done|]. done.
  - destruct (guarded_exists_steady t s H) as (s1 & E1 & L1).
    cbn [any_on_screen existsb]. unfold mbind, M_bind, bind. rewrite E1.
    destruct (found (answer dev (world s) t)).
    + exists s1. done.
    + assert (steady dev (world s1)) as H1 by (by destruct L1 as [-> _]).
      destruct (IH s1 H1) as (s2 & E2 & L2).
      exists s2. split; [|by eapply logged_trans].
      rewrite E2. by destruct L1 as [-> _].
Qed.

Lemma count_indicators_steady (texts : list string) (s : state W) :
  steady dev (world s) ->
  exists s', count_indicators dev texts s
             = (Ok (count_found dev (world s) texts), s')
    ∧ logged s s'.
Proof.
  revert s. induction texts as [|t rest IH]; intros s H.
  - eexists. split; [done|]. done.
  - destruct (guarded_exists_steady t s H) as (s1 & E1 & L1).
    assert (steady dev (world s1)) as H1 by (by destruct L1 as [-> _]).
    destruct (IH s1 H1) as (s2 & E2 & L2).
    exists s2. split; [|by eapply logged_trans].
    cbn [count_indicators]. unfold mbind, M_bind, bind. rewrite E1, E2.
    unfold count_found. cbn [List.filter]. destruct L1 as [-> _].
    by destruct (found (answer dev (world s) t)).
Qed.

Lemma find_button_steady (buttons : list string) (s : state W) :
  steady dev (world s) ->
  exists s', find_button dev buttons s = (first_answer dev (world s) buttons, s')
    ∧ logged s s'.
Proof.
  revert s. induction buttons as [|b rest IH]; intros s H.
  - eexists. split; [done|]. done.
  - destruct (exists_steady b s H) as (s1 & E1 & L1).
    cbn [find_button first_answer]. unfold mbind, M_bind, bind. rewrite E1.
    destruct (answer dev (world s) b) as [[|]|e].
    + exists s1. done.
    + assert (steady dev (world s1)) as H1 by (by destruct L1 as [-> _]).
      destruct (IH s1 H1) as (s2 & E2 & L2).
      exists s2. split; [|by eapply logged_trans].
      rewrite E2. by destruct L1 as [-> _].
    + exists s1. done.
Qed.

End Lookups.

(** X4: in a world that the lookups leave as it is, [check_page_errors]
    returns true exactly when the lookup of one of its six error texts
    answers true; a lookup that raises counts as an absent text, and the
    function itself does not raise. *)
Theorem check_page_errors_swallows_lookup_errors
  {W : Type} (dev : Device W) (s : state W) :
  steady dev (world s) ->
  fst (check_page_errors dev s)
  = Ok (existsb (fun t => found (answer dev (world s) t)) error_indicators).
Proof.
  intros H. unfold check_page_errors.
  destruct (any_on_screen_steady dev error_indicators s H) as (s' & E & _).
  by rewrite E.
Qed.

(** X5: in a world that the lookups leave as it is, [check_out_of_stock]
    returns true when two or more of the unavailability lookups answer
    true; otherwise it returns false when a button lookup answers true
    before any button lookup raises, and else tells whether one
    unavailability lookup answered true.  Unavailability lookups that raise
    count as absent texts; a button lookup that raises ends the search for
    buttons. *)
Theorem check_out_of_stock_swallows_lookup_errors
  {W : Type} (dev : Device W) (s : state W) :
  steady dev (world s) ->
  fst (check_out_of_stock dev s)
  = Ok (Nat.leb 2 (count_found dev (world s) stock_indicators)
        || negb (found (first_answer dev (world s) add_to_cart_buttons))
           && Nat.ltb 0 (count_found dev (world s) stock_indicators)).
Proof.
  intros H. unfold check_out_of_stock.
  destruct (count_indicators_steady dev stock_indicators s H) as (s1 & E1 & L1).
  unfold mbind, M_bind, bind. rewrite E1.
  destruct (Nat.leb 2 _); [done|].
  assert (steady dev (world s1)) as H1 by (by destruct L1 as [-> _]).
  destruct (find_button_steady dev add_to_cart_buttons s1 H1) as (s2 & E2 & L2).
  unfold catch. rewrite E2. destruct L1 as [-> _].
  by destruct (first_answer dev (world s) add_to_cart_buttons) as [[|]|].
Qed.

Lemma check_page_errors_witness :
  fst (check_page_errors (flaky ["404"] ["Oops"]) (initial_state tt)) = Ok true.
Proof.
  rewrite (check_page_errors_swallows_lookup_errors (flaky ["404"] ["Oops"])
             (initial_state tt)).
  - vm_compute. reflexivity.
  - intros t. reflexivity.
Defined.

Lemma check_out_of_stock_witness :
  found (answer (flaky ["Add to Cart"] ["Sold Out"; "Buy Now"]) tt "Buy Now") = true
  ∧ fst (check_out_of_stock (flaky ["Add to Cart"] ["Sold Out"; "Buy Now"])
           (initial_state tt)) = Ok true.
Proof.
  split; [vm_compute; reflexivity|].
  rewrite (check_out_of_stock_swallows_lookup_errors
             (flaky ["Add to Cart"] ["Sold Out"; "Buy Now"]) (initial_state tt)).
  - vm_compute. reflexivity.
  - intros t. reflexivity.
Defined.

(** ** The price read from the page *)

Section PagePrice.

Context {W : Type}.
Variable dev : Device W.

Lemma Qlt_bool_pos (q : Q) : Py.Qlt_bool 0 q = true -> (0 < q)%Q.
Proof. apply Qlt_bool_lt. Qed.

Lemma scan_prices_positive (sel : selector) (n i : nat) (s s' : state W) (q : Q) :
  scan_prices dev sel n i s = (Ok (Some q), s') -> (0 < q)%Q.
Proof.
  revert i s. induction n as [|n IH]; intros i s; cbn [scan_prices]; intros H.
  - by run_inv.
  - apply bind_ok in H as (r & s1 & H1 & H). destruct r as [q1|].
    + run_inv. apply catch_ok in H1 as [H1|(e & s2 & _ & H1)]; [|by run_inv].
      run_inv. by apply Qlt_bool_pos.
    + by eapply IH.
Qed.

Lemma prices_matching_positive (pattern : string) (s s' : state W) (q : Q) :
  prices_matching dev pattern s = (Ok (Some q), s') -> (0 < q)%Q.
Proof.
  unfold prices_matching. intros H.
  apply catch_ok in H as [H|(e & s2 & _ & H)]; [|by run_inv].
  apply bind_ok in H as (c & s1 & _ & H). by eapply scan_prices_positive.
Qed.

Lemma prices_matching_returns (pattern : string) (s : state W) :
  exists r, fst (prices_matching dev pattern s) = Ok r.
Proof.
  unfold prices_matching, catch.
  match goal with |- context [match ?m s with _ => _ end] => destruct (m s) as [[r|e] s1] end.
  - by exists r.
  - by exists None.
Qed.

End PagePrice.

(** X6: [get_current_price_from_page] never raises, whatever the device
    does, and a price it returns is strictly positive: a text that parses to
    zero is passed over. *)
Theorem page_price_is_positive
  {W : Type} (dev : Device W) (s : state W) :
  exists r : option Q,
    fst (get_current_price_from_page dev s) = Ok r
    ∧ forall q, r = Some q -> (0 < q)%Q.
Proof.
  unfold get_current_price_from_page, mbind, M_bind, bind.
  destruct (prices_matching_returns dev "₹" s) as (r1 & E1).
  destruct (prices_matching dev "₹" s) as [r s1] eqn:P1. cbn in E1. subst r.
  destruct r1 as [q1|].
  - exists (Some q1). split; [done|]. intros q [= <-].
    by eapply prices_matching_positive.
  - destruct (prices_matching_returns dev "Rs" s1) as (r2 & E2).
    destruct (prices_matching dev "Rs" s1) as [r s2] eqn:P2. cbn in E2. subst r.
    exists r2. split; [done|]. intros q ->.
    by eapply prices_matching_positive.
Qed.

Section ScrollLog.

Context {W : Type}.
Variable dev : Device W.
Variable env : Env.
Variable ORIGINAL_PRODUCT_NAME : string.

Lemma extends_refl (q : event -> Prop) (s : state W) : extends q s s.
Proof. exists []. split; [by rewrite List.app_nil_r|done]. Qed.

Lemma extends_trans (q : event -> Prop) (s1 s2 s3 : state W) :
  extends q s1 s2 -> extends q s2 s3 -> extends q s1 s3.
Proof.
  intros (e1 & E1 & F1) (e2 & E2 & F2). exists (e1 ++ e2).
  split; [by rewrite E2, E1, List.app_assoc|by apply Forall_app].
Qed.

Lemma lower_global_extends (q : event -> Prop) (x : Py.value) :
  preserves (W := W) (extends q) (lower_global env x).
Proof.
  intros s. exists []. split; [|done].
  rewrite List.app_nil_r. apply (lower_global_keeps env x s).
Qed.

Ltac extends_frame :=
  first
    [ apply lower_global_extends
    | apply extends_refl
    | apply extends_trans
    | done
    | unfold preserves; intros;
      first [ apply extends_refl
            | eexists [_]; split; [reflexivity|by apply Forall_singleton] ] ].

Lemma capture_step_calm (current_price : Py.value) (product_name : option string) :
  preserves (extends calm)
    (capture_step dev env ORIGINAL_PRODUCT_NAME current_price product_name).
Proof.
  apply (preserves_capture_step dev env ORIGINAL_PRODUCT_NAME (extends calm) calm);
    extends_frame.
Qed.

Lemma scroll_step_log (x y1 y2 : Z) (s : state W) :
  exists evs,
    trace (snd (scroll_step dev env x y1 y2 s)) = trace s ++ evs
    ∧ step_log env x y1 x y2 evs (fst (scroll_step dev env x y1 y2 s)).
Proof.
  unfold scroll_step, catch, mbind, M_bind, bind, dump_hierarchy, swipe, call.
  destruct (dev_dump_hierarchy dev (world s)) as [[a|e1] w1]; cbn;
    [|eexists; split; [reflexivity|constructor]].
  destruct (dev_swipe dev x y1 x y2 w1) as [[[]|e2] w2]; cbn;
    [|eexists; split; [by rewrite <- List.app_assoc|constructor]].
  destruct (dev_dump_hierarchy dev w2) as [[b|e3] w3]; cbn;
    [|eexists; split; [by rewrite <- !List.app_assoc|constructor]].
  exists [EvDump (Ok a); EvSwipe x y1 x y2 (Ok tt); EvDump (Ok b)].
  pose proof (hashes_compared env x y1 x y2 a b) as H.
  destruct (decide (py_hash env a = py_hash env b)); cbn;
    (split; [by rewrite <- !List.app_assoc|exact H]).
Qed.

Lemma pattern_after_calm (cap rest pre pat post : list event) (p : event) :
  Forall calm cap -> scroll_event p = true ->
  cap ++ rest = pre ++ (p :: pat) ++ post ->
  exists pre', pre = cap ++ pre' ∧ rest = pre' ++ (p :: pat) ++ post.
Proof.
  intros F P. revert pre. induction cap as [|c cap IH]; intros pre E.
  - by exists pre.
  - apply Forall_cons in F as [C F]. destruct pre as [|p0 pre].
    + injection E as -> _. unfold calm in C. congruence.
    + injection E as -> E. destruct (IH F pre E) as (pre' & -> & E').
      by exists pre'.
Qed.

Lemma swipes_in_app (a b : list event) :
  swipes_in (a ++ b) = (swipes_in a + swipes_in b)%nat.
Proof. unfold swipes_in. by rewrite List.filter_app, List.length_app. Qed.

Lemma swipes_in_calm (cap : list event) : Forall calm cap -> swipes_in cap = O.
Proof.
  induction 1 as [|e cap C _ IH]; [done|].
  unfold swipes_in in *. cbn. unfold calm in C.
  destruct e; cbn in *; try done.
Qed.

Lemma no_swipe_first_calm (cap rest : list event) :
  Forall calm cap -> no_swipe_first rest -> no_swipe_first (cap ++ rest).
Proof.
  intros F N. destruct cap as [|e cap]; [done|].
  apply Forall_cons in F as [C _]. unfold calm in C. cbn. by destruct e.
Qed.

Lemma step_log_swipes (x1 y1 x2 y2 : Z) (step : list event)
    (r : res (ctl (bool * Py.value))) :
  step_log env x1 y1 x2 y2 step r ->
  (swipes_in step <= 1)%nat ∧ no_swipe_first (step ++ [])
  ∧ (r = Ok Break ∨ r = Ok Next).
Proof.
  destruct 1; repeat split; cbn; try lia; try (by left).
  destruct (decide _); [by left|by right].
Qed.

Lemma ends_after_step (current_price : Py.value) (x1 y1 x2 y2 : Z)
    (cap step rest : list event) (rs : res (ctl (bool * Py.value)))
    (rl : res (bool * Py.value)) :
  Forall calm cap ->
  step_log env x1 y1 x2 y2 step rs ->
  (rs = Ok Break -> rest = [] ∧ rl = Ok (false, current_price)) ->
  (rs = Ok Next -> no_swipe_first rest ∧ ends_at_equal_hashes env current_price rest rl) ->
  ends_at_equal_hashes env current_price (cap ++ step ++ rest) rl.
Proof.
  intros F S B N pre post a b u1 v1 u2 v2 u E Hh.
  apply pattern_after_calm in E as (pre' & -> & E); [|done|done].
  destruct S as [e|a0 e|a0 e|a0 b0].
  - destruct (B eq_refl) as [-> ->].
    destruct pre' as [|? [|? [|? [|? ?]]]]; cbn in E; simplify_eq.
  - destruct (B eq_refl) as [-> ->].
    destruct pre' as [|? [|? [|? [|? ?]]]]; cbn in E; simplify_eq.
  - destruct (B eq_refl) as [-> ->].
    destruct pre' as [|? [|? [|? [|? ?]]]]; cbn in E; simplify_eq.
  - destruct (decide (py_hash env a0 = py_hash env b0)) as [Heq|Hne].
    + destruct (B eq_refl) as [-> ->].
      destruct pre' as [|? [|? [|? [|? ?]]]]; cbn in E; simplify_eq. done.
    + destruct (N eq_refl) as [N1 N2].
      destruct pre' as [|? [|? [|? pre'']]]; cbn in E; simplify_eq.
      by eapply (N2 pre'').
Qed.

Lemma no_pattern_in_calm (current_price : Py.value) (cap : list event)
    (r : res (bool * Py.value)) :
  Forall calm cap -> ends_at_equal_hashes env current_price cap r.
Proof.
  intros F pre post a b u1 v1 u2 v2 u E _.
  rewrite <- (List.app_nil_r cap) in E.
  apply pattern_after_calm in E as (pre' & _ & E); [|done|done].
  by destruct pre'.
Qed.

Lemma scroll_loop_log (n : nat) (current_price : Py.value)
    (product_name : option string) (x y1 y2 : Z) (scroll_num : nat) (s : state W) :
  exists evs,
    trace (snd (scroll_loop dev env ORIGINAL_PRODUCT_NAME n current_price
                  product_name x y1 y2 scroll_num s)) = trace s ++ evs
    ∧ no_swipe_first evs
    ∧ ends_at_equal_hashes env current_price evs
        (fst (scroll_loop dev env ORIGINAL_PRODUCT_NAME n current_price
                product_name x y1 y2 scroll_num s))
    ∧ (swipes_in evs <= n)%nat.
Proof.
  revert scroll_num s. induction n as [|n IH]; intros k s; cbn [scroll_loop].
  - exists []. rewrite List.app_nil_r. split_and!; [done|done| |done].
    by apply no_pattern_in_calm.
  - unfold scroll_body, mbind, M_bind, bind.
    set (m := if Nat.even k
              then capture_step dev env ORIGINAL_PRODUCT_NAME
                     current_price product_name
              else ret Next).
    assert (extends calm s (snd (m s))) as (cap & Ec & Fc).
    { unfold m. destruct (Nat.even k); [apply capture_step_calm|apply extends_refl]. }
    destruct (m s) as [rc s1]. cbn in Ec.
    destruct rc as [[| |r]|e]; cbn.
    + destruct (scroll_step_log x y1 y2 s1) as (step & Es & Ls).
      destruct (scroll_step dev env x y1 y2 s1) as [rs s2]. cbn in Es, Ls.
      destruct (step_log_swipes x y1 x y2 step rs Ls) as (Sw & Nf & [->| ->]).
      * exists (cap ++ step ++ []). cbn. split_and!.
        -- by rewrite Es, Ec, List.app_nil_r, List.app_assoc.
        -- by apply no_swipe_first_calm.
        -- eapply ends_after_step; [done|exact Ls|done|done].
        -- rewrite !swipes_in_app, (swipes_in_calm cap Fc). cbn. lia.
      * destruct (IH (S k) s2) as (evs & Ee & Ne & He & Se).
        exists (cap ++ step ++ evs). split_and!.
        -- by rewrite Ee, Es, Ec, !List.app_assoc.
        -- apply no_swipe_first_calm; [done|].
           destruct Ls; done.
        -- eapply ends_after_step; [done|exact Ls|done|done].
        -- rewrite !swipes_in_app, (swipes_in_calm cap Fc). lia.
    + exists cap. split_and!; [done| |by apply no_pattern_in_calm|].
      * rewrite <- (List.app_nil_r cap). by apply no_swipe_first_calm.
      * rewrite (swipes_in_calm cap Fc). lia.
    + exists cap. split_and!; [done| |by apply no_pattern_in_calm|].
      * rewrite <- (List.app_nil_r cap). by apply no_swipe_first_calm.
      * rewrite (swipes_in_calm cap Fc). lia.
    + exists cap. split_and!; [done| |by apply no_pattern_in_calm|].
      * rewrite <- (List.app_nil_r cap). by apply no_swipe_first_calm.
      * rewrite (swipes_in_calm cap Fc). lia.
Qed.

End ScrollLog.

Section ScrollSearchLog.

Context {W : Type}.
Variable dev : Device W.
Variable env : Env.
Variable ORIGINAL_PRODUCT_NAME : string.

Lemma smart_scroll_log (current_price : Py.value) (product_name : option string)
    (s : state W) :
  exists evs,
    trace (snd (smart_scroll_and_find_cheaper dev env ORIGINAL_PRODUCT_NAME
                  current_price product_name s)) = trace s ++ evs
    ∧ ends_at_equal_hashes env current_price evs
        (fst (smart_scroll_and_find_cheaper dev env ORIGINAL_PRODUCT_NAME
                current_price product_name s))
    ∧ (swipes_in evs <= max_scrolls)%nat.
Proof.
  unfold smart_scroll_and_find_cheaper, catch, mbind, M_bind, bind, info, call.
  destruct (dev_info dev (world s)) as [[[w h]|e] w1]; cbn -[scroll_loop max_scrolls].
  - match goal with
    | |- context [scroll_loop _ _ _ ?n ?cp ?pn ?x ?y1 ?y2 ?k ?s1] =>
        destruct (scroll_loop_log dev env ORIGINAL_PRODUCT_NAME n cp pn x y1 y2 k s1)
          as (evs & Ee & _ & He & Se);
        destruct (scroll_loop dev env ORIGINAL_PRODUCT_NAME n cp pn x y1 y2 k s1)
          as [r s2]
    end.
    cbn in Ee, He. exists ([EvInfo (Ok (w, h))] ++ evs).
    assert (trace s2 = trace s ++ [EvInfo (Ok (w, h))] ++ evs) as Et
      by (by rewrite Ee, <- List.app_assoc).
    assert (forall r', ends_at_equal_hashes env current_price evs r ->
              (r = Ok (false, current_price) -> r' = Ok (false, current_price)) ->
              ends_at_equal_hashes env current_price ([EvInfo (Ok (w, h))] ++ evs) r')
      as Hends.
    { intros r' H Hr pre post a b u1 v1 u2 v2 u E Hh.
      apply (pattern_after_calm [EvInfo (Ok (w, h))]) in E as (pre' & _ & E);
        [|by apply Forall_singleton|done].
      destruct (H pre' post a b u1 v1 u2 v2 u E Hh) as [-> Hr'].
      split; [done|by apply Hr]. }
    destruct r as [r|e]; cbn.
    + split_and!; [done| |cbn; done]. by apply (Hends (Ok r)).
    + split_and!; [done| |cbn; done]. apply (Hends (Ok (false, current_price)) He).
      done.
  - exists [EvInfo (Raise e)]. split_and!; [done| |cbn; unfold max_scrolls; lia].
    apply no_pattern_in_calm. by apply Forall_singleton.
Qed.

End ScrollSearchLog.

(** X7: one run of [smart_scroll_and_find_cheaper] swipes at most 15
    times, whatever the device and the oracle answer. *)
Theorem scroll_search_swipes_at_most_15_times
  {W : Type} (dev : Device W) (env : Env) (ORIGINAL_PRODUCT_NAME : string)
  (current_price : Py.value) (product_name : option string) (s : state W) :
  exists evs,
    trace (snd (smart_scroll_and_find_cheaper dev env ORIGINAL_PRODUCT_NAME
                  current_price product_name s)) = trace s ++ evs
    ∧ (swipes_in evs <= 15)%nat.
Proof.
  destruct (smart_scroll_log dev env ORIGINAL_PRODUCT_NAME current_price
              product_name s) as (evs & E & _ & S).
  by exists evs.
Qed.

(** X8: when the log of a run of [smart_scroll_and_find_cheaper] holds a
    swipe between two dumps of the hierarchy with the same hash, these are
    the last device calls of the run (no later screenshot, oracle call or
    swipe), and the run returns [(False, current_price)]. *)
Theorem equal_hashes_end_the_scroll_search
  {W : Type} (dev : Device W) (env : Env) (ORIGINAL_PRODUCT_NAME : string)
  (current_price : Py.value) (product_name : option string) (s : state W)
  (pre post : list event) (a b : string) (x1 y1 x2 y2 : Z) (u : res unit) :
  trace (snd (smart_scroll_and_find_cheaper dev env ORIGINAL_PRODUCT_NAME
                current_price product_name s))
  = trace s ++ pre ++ [EvDump (Ok a); EvSwipe x1 y1 x2 y2 u; EvDump (Ok b)] ++ post ->
  py_hash env a = py_hash env b ->
  post = []
  ∧ fst (smart_scroll_and_find_cheaper dev env ORIGINAL_PRODUCT_NAME
           current_price product_name s) = Ok (false, current_price).
Proof.
  intros E Hh.
  destruct (smart_scroll_log dev env ORIGINAL_PRODUCT_NAME current_price
              product_name s) as (evs & Ee & He & _).
  rewrite Ee in E. apply app_inv_head in E. by eapply He.
Qed.

Lemma equal_hashes_witness :
  @nil event = []
  ∧ fst (smart_scroll_and_find_cheaper (Sim.phone two_offers) Ref.env "Galaxy M35 5G"
           (Py.VFloat (18000 # 1)) (Some "Galaxy M35 5G (8GB, 128GB) Blue")
           (initial_state (1%nat, 2%nat)))
    = Ok (false, Py.VFloat (18000 # 1)).
Proof.
  apply (equal_hashes_end_the_scroll_search (Sim.phone two_offers) Ref.env
           "Galaxy M35 5G" (Py.VFloat (18000 # 1))
           (Some "Galaxy M35 5G (8GB, 128GB) Blue") (initial_state (1%nat, 2%nat))
           [EvInfo (Ok (1080, 2400)); EvScreenshot (Ok true);
            EvVision (FindCheaper (Some "Galaxy M35 5G (8GB, 128GB) Blue")
                        (Py.VFloat (18000 # 1))) (Ok "[]");
            EvDump (Ok "Galaxy M35 5G (8GB, 128GB) Blue@2");
            EvSwipe 540 1800 540 600 (Ok tt);
            EvDump (Ok "Galaxy M35 5G (8GB, 128GB) Blue@3")]
           []
           "Galaxy M35 5G (8GB, 128GB) Blue@3" "Galaxy M35 5G (8GB, 128GB) Blue@3"
           540 1800 540 600 (Ok tt)).
  - vm_compute. reflexivity.
  - reflexivity.
Defined.

Section Books.

Context {W : Type}.
Variable dev : Device W.
Variable env : Env.
Variable ORIGINAL_PRODUCT_NAME : string.

Ltac books_frame :=
  first
    [ done
    | unfold preserves, books_kept; intros;
      first [ split; [apply (lower_global_keeps env)|apply (lower_global_keeps env)]
            | by split
            | match goal with
              | H1 : _ ∧ _, H2 : _ ∧ _ |- _ =>
                  destruct H1 as [-> ->]; destruct H2 as [-> ->]; by split
              end ] ].

Lemma read_page_keeps_books : preserves (W := W) books_kept (read_page dev).
Proof.
  apply (preserves_read_page dev books_kept (fun _ => True)); books_frame.
Qed.

Lemma visit_keeps_books (current_price : Py.value) (current_title : option string) :
  preserves books_kept
    (visit dev env ORIGINAL_PRODUCT_NAME current_price current_title).
Proof.
  apply (preserves_visit dev env ORIGINAL_PRODUCT_NAME books_kept (fun _ => True));
    books_frame.
Qed.

Lemma final_pass_keeps_books :
  preserves books_kept (final_pass dev env ORIGINAL_PRODUCT_NAME).
Proof.
  apply (preserves_final_pass dev env ORIGINAL_PRODUCT_NAME books_kept (fun _ => True));
    books_frame.
Qed.

Lemma books_kept_grown (n : nat) (s s' : state W) : books_kept s s' -> books_grown n s s'.
Proof.
  intros [H V]. exists []. rewrite List.app_nil_r, H, V. cbn. split_and!; [done|lia|lia].
Qed.

Lemma books_grown_trans (n m : nat) (s1 s2 s3 : state W) :
  books_grown n s1 s2 -> books_grown m s2 s3 -> books_grown (n + m) s1 s3.
Proof.
  intros (l1 & H1 & L1 & V1) (l2 & H2 & L2 & V2). exists (l1 ++ l2).
  rewrite H2, H1, V2, V1, List.length_app, List.app_assoc. split_and!; [done|lia|lia].
Qed.

Lemma iteration_grows_books (s : state W) :
  books_grown 1 s (snd (iteration dev env ORIGINAL_PRODUCT_NAME s)).
Proof.
  unfold iteration, mbind, M_bind, bind.
  pose proof (read_page_keeps_books s) as Hr.
  destruct (read_page dev s) as [[[t p]|e] s0]; cbn in Hr; [|by apply books_kept_grown].
  unfold visited, add_visited, append_history. cbn -[visit].
  destruct (bool_decide (fingerprint env t p ∈ VISITED_PRODUCTS s0)) eqn:Hv; cbn -[visit];
    [by apply books_kept_grown|].
  apply bool_decide_eq_false in Hv.
  match goal with
  | |- books_grown _ _ (snd (visit _ _ _ _ _ ?s1)) =>
      pose proof (visit_keeps_books p t s1) as [Hh Hs]
  end.
  cbn -[visit] in Hh, Hs. destruct Hr as [Hh0 Hs0].
  exists [p]. rewrite Hh, Hs, Hh0, Hs0. split_and!; [done|cbn; lia|].
  rewrite size_union, size_singleton; [cbn; lia|].
  apply disjoint_singleton_l. by rewrite <- Hs0.
Qed.

Lemma iterate_grows_books (n : nat) (s : state W) :
  books_grown n s (snd (iterate dev env ORIGINAL_PRODUCT_NAME n s)).
Proof.
  revert s. induction n as [|n IH]; intros s; cbn [iterate].
  - apply books_kept_grown, final_pass_keeps_books.
  - unfold mbind, M_bind, bind.
    pose proof (iteration_grows_books s) as H1.
    destruct (iteration dev env ORIGINAL_PRODUCT_NAME s) as [[[| |o]|e] s1]; cbn -[iterate final_pass] in *.
    + apply (books_grown_trans 1 n s s1); [done|apply IH].
    + replace (S n) with (S n + 0)%nat by lia.
      apply (books_grown_trans (S n) 0 s s1);
        [|apply books_kept_grown, final_pass_keeps_books].
      destruct H1 as (l & ? & ? & ?). exists l. split_and!; [done|lia|done].
    + destruct H1 as (l & ? & ? & ?). exists l. split_and!; [done|lia|done].
    + destruct H1 as (l & ? & ? & ?). exists l. split_and!; [done|lia|done].
Qed.

End Books.

(** X9: a run of [process_product_page_loop] only appends to
    [PRICE_CHECK_HISTORY], at most three prices (one for each iteration
    that meets a new fingerprint), and [VISITED_PRODUCTS] gets exactly as
    many new fingerprints as the history gets prices. *)
Theorem history_and_visited_grow_together
  {W : Type} (dev : Device W) (env : Env) (ORIGINAL_PRODUCT_NAME : string)
  (s : state W) :
  exists prices,
    PRICE_CHECK_HISTORY (snd (process_product_page_loop dev env ORIGINAL_PRODUCT_NAME s))
    = PRICE_CHECK_HISTORY s ++ prices
    ∧ (length prices <= 3)%nat
    ∧ size (VISITED_PRODUCTS
              (snd (process_product_page_loop dev env ORIGINAL_PRODUCT_NAME s)))
      = (size (VISITED_PRODUCTS s) + length prices)%nat.
Proof. apply (iterate_grows_books dev env ORIGINAL_PRODUCT_NAME max_iterations s). Qed.

(** ** Properties of the web search *)

Section SearchFacts.

Import WebSearch.

Lemma prefix_app (a b s : string) :
  Text.prefix (a +:+ b) s = true -> Text.prefix a s = true.
Proof.
  revert s. induction a as [|c a IH]; intros s; [done|].
  destruct s as [|d s]; [done|].
  change (String c a +:+ b) with (String c (a +:+ b)). cbn [Text.prefix].
  destruct (decide (c = d)); [apply IH|done].
Qed.

Lemma contains_app (a b s : string) :
  Text.contains (a +:+ b) s = true -> Text.contains a s = true.
Proof.
  induction s as [|d s IH]; cbn; intros H.
  - apply orb_true_iff in H as [H|H]; [|done].
    apply prefix_app in H. by rewrite H.
  - apply orb_true_iff in H as [H|H].
    + apply prefix_app in H. by rewrite H.
    + rewrite (IH H). apply orb_true_r.
Qed.

Lemma xlt_false (a b : Price.xfloat) : xlt b a = false <-> xle a b.
Proof.
  destruct a as [x|], b as [y|]; cbn; try done.
  unfold Py.Qlt_bool. rewrite negb_false_iff. apply Qle_bool_iff.
Qed.

Lemma xle_trans (a b c : Price.xfloat) : xle a b -> xle b c -> xle a c.
Proof.
  destruct a as [x|], b as [y|], c as [z|]; cbn; try done. apply Qle_trans.
Qed.

Lemma xlt_true (a b : Price.xfloat) : xlt a b = true -> xle a b.
Proof.
  destruct a as [x|], b as [y|]; cbn; try done.
  intros H. apply Qlt_le_weak. by apply Qlt_bool_lt.
Qed.

Lemma Forall_insert_hit (P : hit -> Prop) (h : hit) (l : list hit) :
  P h -> Forall P l -> Forall P (insert_hit h l).
Proof.
  intros Hh. induction 1 as [|h' l Hh' F IH]; cbn.
  - by constructor.
  - destruct (xlt _ _); repeat constructor; done.
Qed.

Lemma Forall_sort_hits (P : hit -> Prop) (l : list hit) :
  Forall P l -> Forall P (sort_hits l).
Proof.
  induction 1 as [|h l Hh F IH]; cbn; [done|]. by apply Forall_insert_hit.
Qed.

Lemma insert_hit_ascending (h : hit) (l : list hit) :
  ascending l -> ascending (insert_hit h l).
Proof.
  induction 1 as [|h' l S IH F]; cbn.
  - repeat constructor.
  - destruct (xlt (hit_price_value h') (hit_price_value h)) eqn:E.
    + constructor; [done|]. apply Forall_insert_hit; [|done]. by apply xlt_true.
    + apply xlt_false in E. constructor; [by constructor|].
      constructor; [done|]. eapply Forall_impl; [exact F|].
      intros b Hb. cbn in Hb. by eapply xle_trans.
Qed.

Lemma sort_hits_ascending (l : list hit) : ascending (sort_hits l).
Proof.
  induction l as [|h l IH]; cbn; [constructor|]. by apply insert_hit_ascending.
Qed.

Lemma take_ascending (n : nat) (l : list hit) : ascending l -> ascending (take n l).
Proof.
  intros H. revert n. induction H as [|h l S IH F]; intros [|n]; cbn; try constructor.
  - apply IH.
  - by apply Forall_take.
Qed.

Lemma insert_hit_length (h : hit) (l : list hit) :
  length (insert_hit h l) = S (length l).
Proof.
  induction l as [|h' l IH]; cbn; [done|]. destruct (xlt _ _); cbn; by rewrite ?IH.
Qed.

Lemma collect_Forall (P : hit -> Prop) (f : Py.value -> res (option hit))
    (items : list Py.value) (hs : list hit) :
  (forall item h, f item = Ok (Some h) -> P h) ->
  collect f items = Ok hs -> Forall P hs.
Proof.
  intros Hf. revert hs. induction items as [|item rest IH]; cbn; intros hs H.
  - by injection H as <-.
  - unfold mbind, res_mbind, res_bind in H.
    destruct (f item) as [h|] eqn:E; [|done].
    destruct (collect f rest) as [hs'|]; [|done].
    injection H as <-. destruct h as [h|]; [|by apply IH].
    constructor; [by eapply Hf|by apply IH].
Qed.

End SearchFacts.

Section SearchResults.

Import WebSearch.

Variable env : Env.
Variable post : string -> string -> res Py.value.

Lemma domain_has_source (link : Py.value) :
  any_site ["flipkart.com"; "amazon.in"; "myntra.com"] link = Ok true ->
  exists site, get_site_name link = Ok (Some site)
               ∧ site ∈ ["Flipkart"; "Amazon"; "Myntra"].
Proof.
  unfold any_site, get_site_name, mbind, res_mbind, res_bind.
  destruct (py_in "flipkart.com" link) as [[|]|]; [| |done].
  { intros _. exists "Flipkart". split; [done|set_solver]. }
  destruct (py_in "amazon.in" link) as [[|]|]; [| |done].
  { intros _. exists "Amazon". split; [done|set_solver]. }
  destruct (py_in "myntra.com" link) as [[|]|]; [| |done]; [|done].
  intros _. exists "Myntra". split; [done|set_solver].
Qed.

Lemma regular_hit_kept (item : Py.value) (h : hit) :
  regular_hit env item = Ok (Some h) -> kept h.
Proof.
  unfold regular_hit, mbind, res_mbind, res_bind.
  destruct (Py.get item "link" _) as [link|]; [|done].
  destruct (any_site _ link) as [[|]|] eqn:K; [| |done]; [|done].
  destruct (domain_has_source link K) as (site & -> & Hs).
  destruct (Py.get item "snippet" _) as [p|]; [|done].
  destruct (Py.get item "title" _) as [t|]; [|done].
  intros [= <-]. split; [done|]. by exists site.
Qed.

Lemma take_length_le {A : Type} (n : nat) (l : list A) : (length (take n l) <= n)%nat.
Proof. rewrite length_take. lia. Qed.

Lemma regular_results_ok (data : Py.value) (l : list hit) :
  regular_results env data = Ok l ->
  (length l <= 25)%nat ∧ ascending l ∧ Forall kept l.
Proof.
  unfold regular_results, mbind, res_mbind, res_bind.
  destruct (py_in "organic" data) as [has|]; [|done].
  assert (forall results, Forall kept results ->
            (length (take 25 (match results with
                              | [] => results
                              | _ => sort_hits results
                              end)) <= 25)%nat
            ∧ ascending (take 25 (match results with
                                  | [] => results
                                  | _ => sort_hits results
                                  end))
            ∧ Forall kept (take 25 (match results with
                                    | [] => results
                                    | _ => sort_hits results
                                    end))) as Hfin.
  { intros results F. split; [apply take_length_le|].
    destruct results as [|h hs]; [split; [constructor|done]|].
    split; [apply take_ascending, sort_hits_ascending|].
    by apply Forall_take, Forall_sort_hits. }
  destruct has.
  - destruct (Py.subscript data "organic") as [organic|]; [|done].
    destruct (first_items 25 organic) as [items|]; [|done].
    destruct (collect (regular_hit env) items) as [results|] eqn:C; [|done].
    intros [= <-]. apply Hfin.
    eapply collect_Forall; [|exact C]. apply regular_hit_kept.
  - intros [= <-]. exact (Hfin [] (List.Forall_nil _)).
Qed.

Lemma regular_search_ok (product_name : string) :
  (length (search_with_regular_api env post product_name) <= 25)%nat
  ∧ ascending (search_with_regular_api env post product_name)
  ∧ Forall kept (search_with_regular_api env post product_name).
Proof.
  unfold search_with_regular_api, mbind, res_mbind, res_bind.
  destruct (post _ _) as [data|]; [|by repeat constructor].
  destruct (regular_results env data) as [l|] eqn:E; [|by repeat constructor].
  by apply regular_results_ok in E.
Qed.

Lemma site_operator_in_link (link : Py.value) :
  any_site indian_sites link = Ok true ->
  forall l, link = Py.VStr l -> Text.contains "site:" l = true.
Proof.
  intros H l ->. unfold indian_sites, any_site, py_in in H. cbn in H.
  destruct (Text.contains "site:flipkart.com" l) eqn:E1.
  { by apply (contains_app "site:" "flipkart.com"). }
  destruct (Text.contains "site:amazon.in" l) eqn:E2.
  { by apply (contains_app "site:" "amazon.in"). }
  destruct (Text.contains "site:myntra.com" l) eqn:E3; [|done].
  by apply (contains_app "site:" "myntra.com").
Qed.

Lemma shopping_hit_prefixed (item : Py.value) (h : hit) :
  shopping_hit env item = Ok (Some h) -> site_prefixed h.
Proof.
  unfold shopping_hit, mbind, res_mbind, res_bind.
  destruct (Py.get item "link" _) as [link|]; [|done].
  destruct (any_site _ link) as [[|]|] eqn:K; [| |done]; [|done].
  destruct (Py.get item "price" _) as [p|]; [|done].
  destruct (get_site_name link) as [src|]; [|done].
  destruct (Py.get item "title" _) as [t|]; [|done].
  intros [= <-]. split; [done|]. by apply site_operator_in_link.
Qed.

Lemma organic_hit_prefixed (item : Py.value) (h : hit) :
  organic_hit env item = Ok (Some h) -> site_prefixed h.
Proof.
  unfold organic_hit, mbind, res_mbind, res_bind.
  destruct (Py.get item "link" _) as [link|]; [|done].
  destruct (any_site _ link) as [[|]|] eqn:K; [| |done]; [|done].
  destruct (get_site_name link) as [src|]; [|done].
  destruct (Py.get item "title" _) as [t|]; [|done].
  destruct (Py.get item "snippet" (Py.VStr "Check on site")) as [p|]; [|done].
  destruct (Py.get item "snippet" (Py.VStr "N/A")) as [sn|]; [|done].
  intros [= <-]. split; [done|]. by apply site_operator_in_link.
Qed.

Lemma shopping_results_prefixed (data : Py.value) (l : list hit) :
  shopping_results env data = Ok l -> Forall site_prefixed l.
Proof.
  unfold shopping_results, mbind, res_mbind, res_bind.
  destruct (py_in "shopping" data) as [has|]; [|done].
  assert (exists shopping,
            (if has
             then match Py.subscript data "shopping" with
                  | Ok items =>
                      match first_items 25 items with
                      | Ok items => collect (shopping_hit env) items
                      | Raise e => Raise e
                      end
                  | Raise e => Raise e
                  end
             else Ok []) = shopping
            ∧ forall hs, shopping = Ok hs -> Forall site_prefixed hs)
    as (shopping & -> & Hs).
  { eexists. split; [reflexivity|]. intros hs H. destruct has.
    - destruct (Py.subscript data "shopping") as [items|]; [|done].
      destruct (first_items 25 items) as [its|]; [|done].
      eapply collect_Forall; [|exact H]. apply shopping_hit_prefixed.
    - by injection H as <-. }
  destruct shopping as [shopping|]; [|done]. specialize (Hs shopping eq_refl).
  destruct (if Nat.ltb 0 (25 - length shopping) then py_in "organic" data else Ok false)
    as [more|]; [|done].
  destruct more.
  - destruct (Py.subscript data "organic") as [items|]; [|done].
    destruct (first_items _ items) as [its|]; [|done].
    destruct (collect (organic_hit env) its) as [organic|] eqn:C; [|done].
    intros [= <-]. apply Forall_app. split; [done|].
    eapply collect_Forall; [|exact C]. apply organic_hit_prefixed.
  - intros [= <-]. by rewrite List.app_nil_r.
Qed.

End SearchResults.

(** X10: [search_with_regular_api] never raises and returns at most 25
    results in ascending order of [price_value]; the link of each holds one
    of flipkart.com, amazon.in and myntra.com, and its source is the name of
    one of the three sites (never [None]). *)
Theorem fallback_search_returns_sorted_site_hits
  (env : Env) (post : string -> string -> res Py.value) (product_name : string) :
  (length (WebSearch.search_with_regular_api env post product_name) <= 25)%nat
  ∧ ascending (WebSearch.search_with_regular_api env post product_name)
  ∧ Forall kept (WebSearch.search_with_regular_api env post product_name).
Proof. apply regular_search_ok. Qed.

Lemma shopping_search_ok
  (env : Env) (post : string -> string -> res Py.value) (product_name : string) :
  (WebSearch.search_product_prices env post product_name
   = WebSearch.search_with_regular_api env post product_name
   ∨ Forall site_prefixed (WebSearch.search_product_prices env post product_name))
  ∧ (length (WebSearch.search_product_prices env post product_name) <= 25)%nat
  ∧ ascending (WebSearch.search_product_prices env post product_name).
Proof.
  pose proof (regular_search_ok env post product_name) as (L & A & _).
  unfold WebSearch.search_product_prices, mbind, res_mbind, res_bind.
  destruct (post _ _) as [data|]; [|by split; [left|]].
  destruct (WebSearch.shopping_results env data) as [[|h hs]|] eqn:E;
    [by split; [left|]| |by split; [left|]].
  apply shopping_results_prefixed in E. split_and!.
  - right. by apply Forall_take, (Forall_sort_hits site_prefixed (h :: hs)).
  - apply take_length_le.
  - apply take_ascending, (sort_hits_ascending (h :: hs)).
Qed.


Section SearchNone.

Import WebSearch.

Variable env : Env.

Lemma collect_none (f : Py.value -> res (option hit)) (items : list Py.value)
    (hs : list hit) :
  (forall item h, f item = Ok (Some h) -> passes item = true) ->
  existsb passes items = false ->
  collect f items = Ok hs -> hs = [].
Proof.
  intros Hf. revert hs. induction items as [|item rest IH]; cbn; intros hs N H.
  - by injection H as <-.
  - apply orb_false_iff in N as [N1 N2].
    unfold mbind, res_mbind, res_bind in H.
    destruct (f item) as [h|] eqn:E; [|done].
    destruct (collect f rest) as [hs'|]; [|done].
    injection H as <-. destruct h as [h|]; [|by apply IH].
    apply Hf in E. congruence.
Qed.

Lemma shopping_hit_passes (item : Py.value) (h : hit) :
  shopping_hit env item = Ok (Some h) -> passes item = true.
Proof.
  unfold shopping_hit, passes, mbind, res_mbind, res_bind.
  destruct (Py.get item "link" _) as [link|]; [|done].
  by destruct (any_site _ link) as [[|]|].
Qed.

Lemma organic_hit_passes (item : Py.value) (h : hit) :
  organic_hit env item = Ok (Some h) -> passes item = true.
Proof.
  unfold organic_hit, passes, mbind, res_mbind, res_bind.
  destruct (Py.get item "link" _) as [link|]; [|done].
  by destruct (any_site _ link) as [[|]|].
Qed.

(** a response none of whose links passes the test gives no result *)
Lemma shopping_results_none (data : Py.value) (l : list hit) :
  offers_site_operator data = false ->
  shopping_results env data = Ok l -> l = [].
Proof.
  unfold offers_site_operator. rewrite existsb_app.
  intros [N1 N2]%orb_false_iff.
  unfold shopping_results, mbind, res_mbind, res_bind.
  destruct (py_in "shopping" data) as [has|]; [|done].
  assert (forall hs,
            (if has
             then match Py.subscript data "shopping" with
                  | Ok items =>
                      match first_items 25 items with
                      | Ok items => collect (shopping_hit env) items
                      | Raise e => Raise e
                      end
                  | Raise e => Raise e
                  end
             else Ok []) = Ok hs -> hs = []) as Hs.
  { intros hs H. destruct has; [|by injection H as <-].
    unfold listed in N1.
    destruct (Py.subscript data "shopping") as [items|]; [|done].
    destruct (first_items 25 items) as [its|]; [|done].
    eapply collect_none; [|exact N1|exact H]. apply shopping_hit_passes. }
  destruct (if has then _ else _) as [shopping|]; [|done].
  rewrite (Hs shopping eq_refl). cbn [length Nat.sub Nat.ltb Nat.leb].
  destruct (py_in "organic" data) as [[|]|]; [| |done].
  - unfold listed in N2.
    destruct (Py.subscript data "organic") as [items|]; [|done].
    destruct (first_items 25 items) as [its|]; [|done].
    destruct (collect (organic_hit env) its) as [organic|] eqn:C; [|done].
    intros [= <-]. cbn [app].
    eapply collect_none; [|exact N2|exact C]. apply organic_hit_passes.
  - by intros [= <-].
Qed.

End SearchNone.

(** X11: [search_product_prices] returns at most 25 results in ascending
    order of [price_value].  It returns what [search_with_regular_api]
    returns when the request raises, when its two loops raise, when they
    keep nothing, and so whenever no link among the first 25 shopping and
    organic items passes the test against [site:flipkart.com],
    [site:amazon.in] and [site:myntra.com], the search operators of the
    query.  When the loops keep something, it returns the first 25 of what
    they kept, sorted: a list that is not empty and whose links all passed
    the test, so that a link that is a string holds the text [site:]. *)
Theorem shopping_search_keeps_site_operator_links
  (env : Env) (post : string -> string -> res Py.value) (product_name : string) :
  ((length (WebSearch.search_product_prices env post product_name) <= 25)%nat
   ∧ ascending (WebSearch.search_product_prices env post product_name))
  ∧ (forall e, post shopping_url (shopping_query product_name) = Raise e ->
       WebSearch.search_product_prices env post product_name
       = WebSearch.search_with_regular_api env post product_name)
  ∧ (forall data, post shopping_url (shopping_query product_name) = Ok data ->
       (offers_site_operator data = false ->
        WebSearch.search_product_prices env post product_name
        = WebSearch.search_with_regular_api env post product_name)
       ∧ (forall e, WebSearch.shopping_results env data = Raise e ->
            WebSearch.search_product_prices env post product_name
            = WebSearch.search_with_regular_api env post product_name)
       ∧ (forall l, WebSearch.shopping_results env data = Ok l ->
            Forall site_prefixed l
            ∧ (l = [] ->
               WebSearch.search_product_prices env post product_name
               = WebSearch.search_with_regular_api env post product_name)
            ∧ (l <> [] ->
               WebSearch.search_product_prices env post product_name
               = take 25 (WebSearch.sort_hits l)
               ∧ WebSearch.search_product_prices env post product_name <> []
               ∧ Forall site_prefixed
                   (WebSearch.search_product_prices env post product_name)))).
Proof.
  split; [apply shopping_search_ok|].
  unfold shopping_url, shopping_query, WebSearch.search_product_prices,
    mbind, res_mbind, res_bind.
  split; [by intros e ->|].
  intros data ->.
  assert (forall l, WebSearch.shopping_results env data = Ok l -> l = [] ->
            match WebSearch.shopping_results env data with
            | Ok (h :: hs) => take 25 (WebSearch.sort_hits (h :: hs))
            | _ => WebSearch.search_with_regular_api env post product_name
            end = WebSearch.search_with_regular_api env post product_name) as Hnil.
  { by intros l -> ->. }
  split_and!.
  - intros N. destruct (WebSearch.shopping_results env data) as [l|] eqn:E; [|done].
    by rewrite (shopping_results_none env data l N E).
  - by intros e ->.
  - intros l E. split; [by eapply shopping_results_prefixed|].
    split; [by apply Hnil|].
    intros Hl. rewrite E. destruct l as [|h hs]; [done|].
    split; [done|]. split.
    + cbn [WebSearch.sort_hits]. 
      pose proof (insert_hit_length h (WebSearch.sort_hits hs)) as L.
      destruct (WebSearch.insert_hit h (WebSearch.sort_hits hs)); [done|done].
    + apply Forall_take, (Forall_sort_hits site_prefixed (h :: hs)).
      by eapply shopping_results_prefixed.
Qed.

Lemma shopping_search_witness :
  WebSearch.search_product_prices Ref.env web "Galaxy M35 5G"
  = WebSearch.search_with_regular_api Ref.env web "Galaxy M35 5G".
Proof.
  pose proof (shopping_search_keeps_site_operator_links Ref.env web "Galaxy M35 5G")
    as (_ & _ & H).
  assert (web shopping_url (shopping_query "Galaxy M35 5G")
          = Ok (default Py.VNone (Ref.loads two_results))) as E
    by (vm_compute; reflexivity).
  apply (proj1 (H _ E)). vm_compute. reflexivity.
Defined.

(** X12: the deal that [find_minimum_price_with_gemini] makes of the
    results of [search_product_prices] is the first result, and no other
    result has a lower [price_value]; the count it reports is at most 25. *)
Theorem reported_deal_is_the_cheapest_hit
  (env : Env) (post : string -> string -> res Py.value) (product_name : string)
  (d : WebSearch.deal) :
  WebSearch.find_minimum_price_with_gemini
    (WebSearch.search_product_prices env post product_name) product_name
  = Ok (Some d) ->
  exists first rest,
    WebSearch.search_product_prices env post product_name = first :: rest
    ∧ WebSearch.minimum_price d = WebSearch.hit_price first
    ∧ WebSearch.url d = WebSearch.hit_link first
    ∧ WebSearch.website_name d = WebSearch.hit_source first
    ∧ WebSearch.total_results d = S (length rest)
    ∧ (WebSearch.total_results d <= 25)%nat
    ∧ Forall (fun h => xle (WebSearch.hit_price_value first) (WebSearch.hit_price_value h))
        rest.
Proof.
  pose proof (shopping_search_ok env post product_name) as (_ & L & A).
  destruct (WebSearch.search_product_prices env post product_name) as [|first rest];
    [done|].
  unfold WebSearch.find_minimum_price_with_gemini.
  destruct (Py.sliceable _); [|done]. intros [= <-]. exists first, rest.
  cbn in *. split_and!; try done. by apply StronglySorted_inv in A as [_ A].
Qed.

Lemma reported_deal_witness :
  exists first rest,
    WebSearch.search_product_prices Ref.env web "Galaxy M35 5G" = first :: rest
    ∧ WebSearch.minimum_price best_deal = WebSearch.hit_price first
    ∧ WebSearch.url best_deal = WebSearch.hit_link first
    ∧ WebSearch.website_name best_deal = WebSearch.hit_source first
    ∧ WebSearch.total_results best_deal = S (length rest)
    ∧ (WebSearch.total_results best_deal <= 25)%nat
    ∧ Forall (fun h => xle (WebSearch.hit_price_value first) (WebSearch.hit_price_value h))
        rest.
Proof.
  apply (reported_deal_is_the_cheapest_hit Ref.env web "Galaxy M35 5G" best_deal).
  vm_compute. reflexivity.
Defined.

(** ordinary links hold no search operator: the shopping search hands over
    to the fallback search; a snippet in [Rs. 18,499] has no price value *)
Example shopping_search_falls_back :
  WebSearch.search_product_prices Ref.env web "Galaxy M35 5G"
  = WebSearch.search_with_regular_api Ref.env web "Galaxy M35 5G"
  ∧ map WebSearch.hit_price_value (WebSearch.search_product_prices Ref.env web "Galaxy M35 5G")
    = [Price.Finite (17999 # 1); Price.PosInf].
Proof. split; vm_compute; reflexivity. Qed.

Section Helpers.

Lemma prefix_app_r (n a b : string) :
  Text.prefix n a = true -> Text.prefix n (a +:+ b) = true.
Proof.
  revert a. induction n as [|c n IH]; intros a; [done|].
  destruct a as [|d a]; [done|].
  change (String d a +:+ b) with (String d (a +:+ b)). cbn [Text.prefix].
  destruct (decide (c = d)); [apply IH|done].
Qed.

Lemma contains_app_r (n a b : string) :
  Text.contains n a = true -> Text.contains n (a +:+ b) = true.
Proof.
  induction a as [|d a IH]; intros H.
  - cbn in H. rewrite orb_false_r in H. destruct n; [|done].
    by destruct b.
  - change (String d a +:+ b) with (String d (a +:+ b)).
    cbn [Text.contains] in *. apply orb_true_iff in H as [H|H].
    + pose proof (prefix_app_r n (String d a) b H) as P.
      change (String d a +:+ b) with (String d (a +:+ b)) in P. by rewrite P.
    + rewrite (IH H). apply orb_true_r.
Qed.

Lemma count_newlines_app (a b : string) :
  count_newlines (a +:+ b) = (count_newlines a + count_newlines b)%nat.
Proof.
  induction a as [|c a IH]; [done|].
  change (String c a +:+ b) with (String c (a +:+ b)). cbn [count_newlines].
  destruct (decide (c = newline)); rewrite IH; done.
Qed.

Lemma count_newlines_newline (s : string) :
  count_newlines (String newline s) = S (count_newlines s).
Proof. cbn [count_newlines]. by destruct (decide (newline = newline)). Qed.

End Helpers.

(** X13: on an output of [adb devices] that begins with its header line,
    [check_adb_connection] answers from the success of the command and the
    number of line ends alone: it returns true exactly when the command
    succeeded and a second line end follows the header, whatever the lines
    after the header say (no device at all, [offline], [unauthorized]). *)
Theorem adb_connection_counts_lines_only (success : bool) (rest : string) :
  check_adb_connection
    (success, "List of devices attached" +:+ String newline rest)
  = success && Nat.leb 1 (count_newlines rest).
Proof.
  assert (Text.contains "device" "List of devices attached" = true) as Hc
    by (vm_compute; reflexivity).
  assert (count_newlines "List of devices attached" = O) as Hn
    by (vm_compute; reflexivity).
  unfold check_adb_connection.
  rewrite (contains_app_r _ _ (String newline rest) Hc).
  rewrite count_newlines_app, Hn, count_newlines_newline.
  by destruct success.
Qed.

(** the output of [adb devices] with no device attached *)
Example no_device_is_a_connection :
  check_adb_connection
    (true, "List of devices attached" +:+ String newline (String newline ""))
  = true.
Proof. vm_compute. reflexivity. Qed.

(** ** The language codes of a URL *)

Section LanguageCodes.

Lemma prefix_length (p s : string) :
  Text.prefix p s = true -> (String.length p <= String.length s)%nat.
Proof.
  revert s. induction p as [|c p IH]; intros s; [cbn; lia|].
  destruct s as [|d s]; [done|]. cbn [Text.prefix String.length].
  destruct (decide (c = d)); [|done]. intros H. apply IH in H. lia.
Qed.

Lemma length_app (a b : string) :
  String.length (a +:+ b) = (String.length a + String.length b)%nat.
Proof.
  induction a as [|c a IH]; [done|].
  change (String c a +:+ b) with (String c (a +:+ b)). cbn [String.length]. by rewrite IH.
Qed.

Lemma replace_from_length (old new s : string) (skip : nat) :
  (String.length new <= String.length old)%nat ->
  (String.length (Text.replace_from skip old new s) <= String.length s - skip)%nat.
Proof.
  intros Hl. revert skip. induction s as [|c s IH]; intros skip; [cbn; lia|].
  cbn [Text.replace_from]. destruct skip as [|k].
  - destruct (Text.prefix old (String c s)) eqn:P.
    + apply prefix_length in P. cbn [String.length] in *.
      rewrite length_app. specialize (IH (String.length old - 1)%nat). lia.
    + cbn [String.length]. specialize (IH O). lia.
  - cbn [String.length]. specialize (IH k). lia.
Qed.

Lemma replace_shrinks (old new s : string) :
  (String.length new < String.length old)%nat ->
  Text.contains old s = true ->
  (String.length (Text.replace old new s) < String.length s)%nat.
Proof.
  intros Hl. unfold Text.replace. induction s as [|c s IH]; intros H.
  - destruct old; [cbn in Hl; lia|done].
  - cbn [Text.contains] in H. cbn [Text.replace_from].
    destruct (Text.prefix old (String c s)) eqn:P.
    + pose proof (prefix_length _ _ P) as L.
      pose proof (replace_from_length old new s (String.length old - 1)) as R.
      cbn [String.length] in *. rewrite length_app. lia.
    + cbn [orb] in H. specialize (IH H). cbn [String.length]. lia.
Qed.

Lemma remove_first_code_string (codes : list string) (s : string) :
  Forall (fun code => code <> "") codes ->
  exists s',
    remove_first_code codes (Py.VStr s) = Ok (Py.VStr s')
    ∧ (String.length s' <= String.length s)%nat
    ∧ (s' = s <->
       Forall (fun code => Text.contains (code +:+ "/") s = false) codes).
Proof.
  induction 1 as [|code codes Hc Hcs (s' & E & L & I)].
  - exists s. split_and!; [done|done|]. split; [constructor|done].
  - cbn [remove_first_code WebSearch.py_in]. unfold mbind, res_mbind, res_bind.
    destruct (Text.contains (code +:+ "/") s) eqn:C.
    + exists (Text.replace (code +:+ "/") "/" s).
      assert (String.length (Text.replace (code +:+ "/") "/" s) < String.length s)%nat
        as Hs.
      { apply replace_shrinks; [|done]. rewrite length_app.
        destruct code; [done|]. cbn. lia. }
      split_and!; [done|lia|]. split.
      * intros Heq. rewrite Heq in Hs. lia.
      * intros F. apply Forall_cons in F as [F _]. congruence.
    + exists s'. split_and!; [done|done|]. rewrite I. split.
      * intros F. by constructor.
      * intros F. by apply Forall_cons in F as [_ F].
Qed.

End LanguageCodes.

(** X14: on a URL that is a string, [remove_language_codes_from_url] does
    not raise and returns a string that is not longer; it returns the URL
    itself exactly when none of the ten language codes, followed by a
    slash, occurs in it. *)
Theorem language_code_removal_changes_marked_urls_only (s : string) :
  exists s',
    remove_language_codes_from_url (Py.VStr s) = Ok (Py.VStr s')
    ∧ (String.length s' <= String.length s)%nat
    ∧ (s' = s <->
       Forall (fun code => Text.contains (code +:+ "/") s = false) language_codes).
Proof.
  apply remove_first_code_string. unfold language_codes.
  repeat (constructor; [done|]). constructor.
Qed.

(** only the first code of the list that occurs is removed *)
Example two_language_codes :
  remove_language_codes_from_url (Py.VStr "https://www.flipkart.com/hi/mr/p/itm1")
  = Ok (Py.VStr "https://www.flipkart.com/hi/p/itm1").
Proof. vm_compute. reflexivity. Qed.

(** ** The brand of a product name *)

Section Features.

Lemma prefix_contains_suffix (a b s : string) :
  Text.prefix (a +:+ b) s = true -> Text.contains b s = true.
Proof.
  revert s. induction a as [|c a IH]; intros s H.
  - change ("" +:+ b) with b in H. destruct s; cbn [Text.contains]; by rewrite H.
  - destruct s as [|d s]; [done|].
    change (String c a +:+ b) with (String c (a +:+ b)) in H.
    cbn [Text.prefix] in H. destruct (decide (c = d)); [|done].
    cbn [Text.contains]. rewrite (IH s H). apply orb_true_r.
Qed.

Lemma contains_suffix (a b s : string) :
  Text.contains (a +:+ b) s = true -> Text.contains b s = true.
Proof.
  induction s as [|d s IH]; cbn [Text.contains]; intros H.
  - rewrite orb_false_r in H. apply prefix_contains_suffix in H.
    cbn [Text.contains] in H. done.
  - apply orb_true_iff in H as [H|H].
    + apply prefix_contains_suffix in H. cbn [Text.contains] in H. done.
    + rewrite (IH H). apply orb_true_r.
Qed.

End Features.

(** X15: the brand that [extract_key_product_features] gives a product
    name is the empty string or one of the brands of its list other than
    [Redmi]: a name in which [redmi] occurs holds [mi] too, and [Mi] comes
    first in the list. *)
Theorem brand_is_never_redmi (lowered : string) :
  brand_feature lowered
  ∈ [""; "iPhone"; "Samsung"; "OnePlus"; "Xiaomi"; "Realme"; "Oppo"; "Vivo"; "Google";
     "Pixel"; "Mi"; "Nothing"; "Asus"; "Sony"; "Motorola"; "Nokia"].
Proof.
  assert (lower "Mi" = "mi") as Hmi by (vm_compute; reflexivity).
  assert (lower "Redmi" = "red" +:+ "mi") as Hredmi by (vm_compute; reflexivity).
  unfold brand_feature, brands, first_feature. rewrite Hmi, Hredmi.
  destruct (Text.contains "mi" lowered) eqn:Emi.
  - repeat match goal with
    | |- context [if Text.contains ?n lowered then _ else _] =>
        destruct (Text.contains n lowered)
    end; repeat constructor.
  - destruct (Text.contains ("red" +:+ "mi") lowered) eqn:Ered.
    + apply contains_suffix in Ered. congruence.
    + repeat match goal with
      | |- context [if Text.contains ?n lowered then _ else _] =>
          destruct (Text.contains n lowered)
      end; repeat constructor.
Qed.

Example redmi_phone_is_a_mi :
  brand_feature (lower "Redmi Note 13 Pro 5G (8GB RAM, 256GB) Midnight Black") = "Mi"
  ∧ color_feature (lower "Redmi Note 13 Pro 5G (8GB RAM, 256GB) Midnight Black")
    = "Black".
Proof. split; vm_compute; reflexivity. Qed.

(** ** The reply about an available product *)

Section Available.

Context {W : Type}.
Variable dev : Device W.
Variable env : Env.

Lemma catch_json_ok {A : Type} (m h : M W A) (s s' : state W) (a : A) :
  catch_json m h s = (Ok a, s') ->
  m s = (Ok a, s')
  ∨ exists s1, m s = (Raise JSONDecodeError, s1) ∧ h s1 = (Ok a, s').
Proof.
  unfold catch_json. destruct (m s) as [[a1|[|]] s1]; intros H.
  - by left.
  - right. by exists s1.
  - done.
Qed.

Lemma accept_available_true (current_price : Py.value) (response_text : string)
    (s s' : state W) :
  accept_available dev env current_price response_text s = (Ok true, s') ->
  exists available_product confidence x,
    json_loads env response_text = Some available_product
    ∧ Py.get available_product "confidence" Py.VNone = Ok confidence
    ∧ confident confidence = true
    ∧ Py.get available_product "x" (Py.VInt 0) = Ok x
    ∧ py_lt env (Py.VInt 0) x = Ok true.
Proof.
  unfold accept_available. intros H.
  apply catch_json_ok in H as [H|(s1 & _ & H)]; [|by run_inv].
  apply bind_ok in H as (v & s1 & Hv & H). apply lift_ok in Hv as [Hv ->].
  apply bind_ok in H as (c & s2 & Hc & H). apply lift_ok in Hc as [Hc ->].
  destruct (confident c) eqn:Ec; [|by run_inv].
  apply bind_ok in H as (x & s3 & Hx & H). apply lift_ok in Hx as [Hx ->].
  apply bind_ok in H as (b & s4 & Hb & H). apply lift_ok in Hb as [Hb ->].
  destruct b; [|by run_inv].
  exists v, c, x. unfold Oracle.loads in Hv.
  destruct (json_loads env response_text); [|done].
  injection Hv as ->. done.
Qed.

Lemma bind_raise {A B : Type} (m : M W A) (f : A -> M W B) (s s' : state W) (e : exn) :
  (m ≫= f) s = (Raise e, s') ->
  m s = (Raise e, s') ∨ exists a s1, m s = (Ok a, s1) ∧ f a s1 = (Raise e, s').
Proof.
  unfold mbind, M_bind, bind. destruct (m s) as [[a|e1] s1]; intros H.
  - right. by exists a, s1.
  - injection H as -> ->. by left.
Qed.

Lemma lift_raise {A : Type} (r : res A) (e : exn) (s s' : state W) :
  lift r s = (Raise e, s') -> r = Raise e ∧ s' = s.
Proof. unfold lift. by intros [= -> ->]. Qed.

Hypothesis comparisons_raise_type_errors :
  forall a b e, lt_other env a b = Raise e -> e = OtherError.

Lemma py_lt_raise (a b : Py.value) (e : exn) : py_lt env a b = Raise e -> e = OtherError.
Proof.
  unfold py_lt. destruct (Py.num_of a), (Py.num_of b); try done; try (by intros [= <-]).
  apply comparisons_raise_type_errors.
Qed.

Lemma lower_global_raise (x : Py.value) (s s' : state W) (e : exn) :
  lower_global env x s = (Raise e, s') -> e = OtherError.
Proof.
  unfold lower_global, mbind, M_bind, bind, read_global, lift, write_global, ret.
  destruct (GLOBAL_LOWEST_PRICE s); try done;
    (destruct (py_lt env x _) as [[|]|e1] eqn:L; try done;
     intros [= <- _]; by eapply py_lt_raise).
Qed.

Lemma get_raise (v default : Py.value) (k : string) (e : exn) :
  Py.get v k default = Raise e -> e = OtherError.
Proof.
  unfold Py.get. destruct v; try (by intros [= <-]).
  by destruct (Py.assoc k kv).
Qed.

Ltac raise_inv H :=
  repeat match type of H with
  | (_ ≫= _) _ = (Raise _, _) =>
      apply bind_raise in H as [H|(? & ? & ? & H)]
  end.

Lemma tap_raise (x y new_price : Py.value) (s s' : state W) (e : exn) :
  catch (_ ← click dev x y; _ ← lower_global env new_price; ret true)
    (_ ← execute_adb_command dev (AdbTap x y); _ ← lower_global env new_price; ret true)
    s = (Raise e, s') ->
  e = OtherError.
Proof.
  unfold catch. destruct ((_ ← click dev x y; _ ← lower_global env new_price; ret true) s)
    as [[b|e1] s1]; [done|].
  intros H. apply bind_raise in H as [H|(u & s2 & _ & H)]; [done|].
  apply bind_raise in H as [H|(u1 & s3 & _ & H)]; [|done].
  by eapply lower_global_raise.
Qed.

Lemma accept_available_decode_error (current_price : Py.value) (response_text : string)
    (s s1 : state W) :
  (available_product ← lift (Oracle.loads env response_text);
   confidence ← lift (Py.get available_product "confidence" Py.VNone);
   if confident confidence then
     x0 ← lift (Py.get available_product "x" (Py.VInt 0));
     positive ← lift (py_lt env (Py.VInt 0) x0);
     if positive : bool then
       x ← lift (Py.get available_product "x" Py.VNone);
       y ← lift (Py.get available_product "y" Py.VNone);
       new_price ← lift (Py.get available_product "price" current_price);
       title ← lift (Py.get available_product "title" (Py.VStr "Unknown"));
       if Py.sliceable title then
         catch
           (_ ← click dev x y;
            _ ← lower_global env new_price;
            ret true)
           (_ ← execute_adb_command dev (AdbTap x y);
            _ ← lower_global env new_price;
            ret true)
       else throw OtherError
     else ret false
   else ret false) s = (Raise JSONDecodeError, s1) ->
  s1 = s ∧ json_loads env response_text = None.
Proof.
  intros H.
  apply bind_raise in H as [H|(v & s2 & Hv & H)].
  { apply lift_raise in H as [H ->]. split; [done|].
    unfold Oracle.loads in H. by destruct (json_loads env response_text). }
  apply lift_ok in Hv as [Hv ->].
  apply bind_raise in H as [H|(c & s3 & Hc & H)].
  { apply lift_raise in H as [H ->]. by apply get_raise in H. }
  apply lift_ok in Hc as [Hc ->]. destruct (confident c); [|done].
  apply bind_raise in H as [H|(x0 & s4 & Hx & H)].
  { apply lift_raise in H as [H ->]. by apply get_raise in H. }
  apply lift_ok in Hx as [Hx ->].
  apply bind_raise in H as [H|(b & s5 & Hb & H)].
  { apply lift_raise in H as [H ->]. by apply py_lt_raise in H. }
  apply lift_ok in Hb as [Hb ->]. destruct b; [|done].
  apply bind_raise in H as [H|(x & s6 & Hx1 & H)].
  { apply lift_raise in H as [H ->]. by apply get_raise in H. }
  apply lift_ok in Hx1 as [Hx1 ->].
  apply bind_raise in H as [H|(y & s7 & Hy & H)].
  { apply lift_raise in H as [H ->]. by apply get_raise in H. }
  apply lift_ok in Hy as [Hy ->].
  apply bind_raise in H as [H|(np & s8 & Hn & H)].
  { apply lift_raise in H as [H ->]. by apply get_raise in H. }
  apply lift_ok in Hn as [Hn ->].
  apply bind_raise in H as [H|(t & s9 & Ht & H)].
  { apply lift_raise in H as [H ->]. by apply get_raise in H. }
  apply lift_ok in Ht as [Ht ->].
  destruct (Py.sliceable t); [|done].
  by apply tap_raise in H.
Qed.

Lemma accept_available_false (current_price : Py.value) (response_text : string)
    (s s' : state W) :
  accept_available dev env current_price response_text s = (Ok false, s') -> s' = s.
Proof.
  unfold accept_available. intros H.
  apply catch_json_ok in H as [H|(s1 & H1 & H)].
  - apply bind_ok in H as (v & s1 & Hv & H). apply lift_ok in Hv as [Hv ->].
    apply bind_ok in H as (c & s2 & Hc & H). apply lift_ok in Hc as [Hc ->].
    destruct (confident c); [|by run_inv].
    apply bind_ok in H as (x & s3 & Hx & H). apply lift_ok in Hx as [Hx ->].
    apply bind_ok in H as (b & s4 & Hb & H). apply lift_ok in Hb as [Hb ->].
    destruct b; [|by run_inv].
    apply bind_ok in H as (x1 & s5 & Hx1 & H). apply lift_ok in Hx1 as [Hx1 ->].
    apply bind_ok in H as (y & s6 & Hy & H). apply lift_ok in Hy as [Hy ->].
    apply bind_ok in H as (np & s7 & Hn & H). apply lift_ok in Hn as [Hn ->].
    apply bind_ok in H as (t & s8 & Ht & H). apply lift_ok in Ht as [Ht ->].
    destruct (Py.sliceable t); [|by run_inv].
    apply catch_ok in H as [H|(e & s9 & _ & H)]; by run_inv.
  - apply accept_available_decode_error in H1 as [-> _]. by run_inv.
Qed.


End Available.

(** X16: the reply of the oracle about an available product is acted on
    only when it decodes as JSON to an object whose [confidence] is [high]
    or [medium] and whose [x] is greater than 0; otherwise nothing is
    tapped and no global is written.  A reply that is not JSON is dropped:
    this path has no search for a braced substring. *)
Theorem available_reply_needs_confidence
  {W : Type} (dev : Device W) (env : Env) (current_price : Py.value)
  (response_text : string) (s s' : state W) (switched : bool) :
  (forall a b e, lt_other env a b = Raise e -> e = OtherError) ->
  accept_available dev env current_price response_text s = (Ok switched, s') ->
  if switched then
    exists available_product confidence x,
      json_loads env response_text = Some available_product
      ∧ Py.get available_product "confidence" Py.VNone = Ok confidence
      ∧ confident confidence = true
      ∧ Py.get available_product "x" (Py.VInt 0) = Ok x
      ∧ py_lt env (Py.VInt 0) x = Ok true
  else s' = s.
Proof.
  intros Hc H. destruct switched.
  - by eapply accept_available_true.
  - by eapply accept_available_false.
Qed.

Lemma available_reply_witness :
  exists available_product confidence x,
    json_loads Ref.env
      (Ref.quoted "{'price': 15999, 'x': 540, 'y': 1200, 'confidence': 'high', 'title': 'Galaxy M35 5G'}")
    = Some available_product
    ∧ Py.get available_product "confidence" Py.VNone = Ok confidence
    ∧ confident confidence = true
    ∧ Py.get available_product "x" (Py.VInt 0) = Ok x
    ∧ py_lt Ref.env (Py.VInt 0) x = Ok true.
Proof.
  apply (available_reply_needs_confidence (Sim.phone two_offers) Ref.env
           (Py.VFloat (20000 # 1))
           (Ref.quoted "{'price': 15999, 'x': 540, 'y': 1200, 'confidence': 'high', 'title': 'Galaxy M35 5G'}")
           (initial_state (O, O))
           (snd (accept_available (Sim.phone two_offers) Ref.env
                   (Py.VFloat (20000 # 1))
                   (Ref.quoted "{'price': 15999, 'x': 540, 'y': 1200, 'confidence': 'high', 'title': 'Galaxy M35 5G'}")
                   (initial_state (O, O))))
           true).
  - intros a b e H. destruct a, b; cbn in H; congruence.
  - vm_compute. reflexivity.
Defined.


(** ** Replacing in strings *)

Section ReplaceFacts.

Lemma prefix_self_app (old t : string) : Text.prefix old (old +:+ t) = true.
Proof.
  induction old as [|h old IH]; [done|].
  rewrite app_cons. cbn [Text.prefix]. by destruct (decide (h = h)).
Qed.

Lemma replace_skip (old new a t : string) :
  Text.replace_from (String.length a) old new (a +:+ t) = Text.replace_from 0 old new t.
Proof.
  induction a as [|c a IH]; [done|]. rewrite app_cons. cbn [String.length Text.replace_from].
  exact IH.
Qed.

Lemma replace_prefix (h : ascii) (old new t : string) :
  Text.replace_from 0 (String h old) new (String h old +:+ t)
  = new +:+ Text.replace_from 0 (String h old) new t.
Proof.
  pose proof (prefix_self_app (String h old) t) as P.
  rewrite app_cons in P |- *. cbn [Text.replace_from]. rewrite P. f_equal.
  replace (String.length (String h old) - 1)%nat with (String.length old)
    by (cbn [String.length]; lia).
  apply replace_skip.
Qed.

Lemma replace_without (h : ascii) (old new a t : string) :
  without h a = true ->
  Text.replace_from 0 (String h old) new (a +:+ t)
  = a +:+ Text.replace_from 0 (String h old) new t.
Proof.
  unfold without. induction a as [|c a IH]; [done|].
  cbn [Text.forallb]. intros H. apply andb_true_iff in H as [Hc Ha].
  apply negb_true_iff, bool_decide_eq_false in Hc.
  rewrite !app_cons. cbn [Text.replace_from Text.prefix].
  destruct (decide (h = c)) as [->|_]; [done|]. by rewrite IH.
Qed.

Lemma replace_absent (h : ascii) (old new a : string) :
  without h a = true -> Text.replace (String h old) new a = a.
Proof.
  intros H. unfold Text.replace. rewrite <- (app_nil_r a) at 1.
  rewrite replace_without by done. cbn [Text.replace_from]. apply app_nil_r.
Qed.

End ReplaceFacts.

(** X17: a reply wrapped in a [```json] fence is read like the bare reply:
    when the reply holds no backquote of its own, [strip_fences] gives the
    stripped reply, and the decoding of the list of cheaper products gives
    what it gives for the bare reply. *)
Theorem fenced_reply_reads_like_bare_reply
  (env : Env) (current_price : Py.value) (body : string) :
  without "`" body = true ->
  Oracle.strip_fences ("```json" +:+ body +:+ "```") = Text.strip body
  ∧ Oracle.parse_cheaper env current_price ("```json" +:+ body +:+ "```")
    = Oracle.parse_cheaper env current_price body.
Proof.
  intros H.
  assert (Oracle.strip_fences ("```json" +:+ body +:+ "```") = Text.strip body) as E1.
  { unfold Oracle.strip_fences, Text.replace.
    rewrite (replace_prefix "`" "``json" "" (body +:+ "```")).
    rewrite app_nil_l, (replace_without "`" "``json" "" body "```" H).
    assert (Text.replace_from 0 "```json" "" "```" = "```") as -> by (vm_compute; reflexivity).
    rewrite (replace_without "`" "``" "" body "```" H).
    assert (Text.replace_from 0 "```" "" "```" = "") as -> by (vm_compute; reflexivity).
    by rewrite app_nil_r. }
  assert (Oracle.strip_fences body = Text.strip body) as E2.
  { unfold Oracle.strip_fences.
    by rewrite (replace_absent "`" "``json" "" body H), (replace_absent "`" "``" "" body H). }
  split; [done|]. unfold Oracle.parse_cheaper. by rewrite E1, E2.
Qed.

Lemma fenced_reply_witness :
  Oracle.strip_fences
    ("```json" +:+ Ref.quoted "[{'price': 18000, 'x': 500, 'y': 900, 'title': 'Same phone'}]"
       +:+ "```")
  = Text.strip (Ref.quoted "[{'price': 18000, 'x': 500, 'y': 900, 'title': 'Same phone'}]")
  ∧ Oracle.parse_cheaper Ref.env (Py.VFloat (20000 # 1))
      ("```json" +:+ Ref.quoted "[{'price': 18000, 'x': 500, 'y': 900, 'title': 'Same phone'}]"
         +:+ "```")
    = Oracle.parse_cheaper Ref.env (Py.VFloat (20000 # 1))
        (Ref.quoted "[{'price': 18000, 'x': 500, 'y': 900, 'title': 'Same phone'}]").
Proof.
  apply (fenced_reply_reads_like_bare_reply Ref.env (Py.VFloat (20000 # 1))
           (Ref.quoted "[{'price': 18000, 'x': 500, 'y': 900, 'title': 'Same phone'}]")).
  vm_compute. reflexivity.
Defined.

(** ** Prices written with [Rs.] *)

Section RupeeDot.

Import Text Price.

Lemma digits_without (h : ascii) (d : string) :
  is_digit h = false -> forallb is_digit d = true -> without h d = true.
Proof.
  intros Hh. unfold without. apply forallb_impl. intros c Hc.
  apply negb_true_iff, bool_decide_eq_false. intros ->. congruence.
Qed.

Lemma clean_rs_dot (d : string) :
  forallb is_digit d = true -> clean ("Rs. " +:+ d) = ". " +:+ d.
Proof.
  intros Hd. unfold clean.
  assert (without "226" ("Rs. " +:+ d) = true) as H1.
  { rewrite !app_cons, app_nil_l. unfold without. cbn [forallb].
    apply (digits_without "226") in Hd; [|done]. unfold without in Hd. by rewrite Hd. }
  assert (without "R" (". " +:+ d) = true) as H2.
  { rewrite !app_cons, app_nil_l. unfold without. cbn [forallb].
    apply (digits_without "R") in Hd; [|done]. unfold without in Hd. by rewrite Hd. }
  assert (without "," (". " +:+ d) = true) as H3.
  { rewrite !app_cons, app_nil_l. unfold without. cbn [forallb].
    apply (digits_without ",") in Hd; [|done]. unfold without in Hd. by rewrite Hd. }
  rewrite (replace_absent "226" _ "" _ H1).
  unfold replace at 2 3.
  change ("Rs. " +:+ d) with ("Rs" +:+ (". " +:+ d)).
  rewrite (replace_prefix "R" "s" "" (". " +:+ d)), app_nil_l.
  fold (replace "Rs" "" (". " +:+ d)). rewrite (replace_absent "R" "s" "" _ H2).
  fold (replace "," "" (". " +:+ d)). rewrite (replace_absent "," "" "" _ H3).
  apply (replace_absent "R" "s." "" _ H2).
Qed.

Lemma match_price_digits (d : string) :
  forallb is_digit d = true -> match_price d = d.
Proof.
  intros Hd. unfold match_price.
  rewrite <- (app_nil_r d) at 1. rewrite span_app_all by done. cbn.
  by rewrite app_nil_r.
Qed.

End RupeeDot.

(** X18: a price written [Rs. N], with [N] a run of at most 15 digits (an
    integer that a float holds exactly), is read as [N] by
    [extract_price_from_text] and as +infinity by [extract_price_value]:
    once [Rs] is removed the text begins with the dot, which alone is the
    first run of digits and dots and is no number. *)
Theorem rs_dot_price_has_no_price_value (d : string) :
  d <> "" -> Text.forallb Text.is_digit d = true -> (String.length d <= 15)%nat ->
  Price.extract_price_from_text ("Rs. " +:+ d) = Some (Text.digits_from 0 d # 1)
  ∧ Price.extract_price_value ("Rs. " +:+ d) = Price.PosInf.
Proof.
  intros Hne Hd _. split.
  - unfold Price.extract_price_from_text.
    destruct (decide ("Rs. " +:+ d = "")) as [E|_]; [done|].
    rewrite search_price_strip, clean_rs_dot by done.
    destruct d as [|c d']; [done|].
    assert (Text.is_digit c = true) as Hc
      by (cbn [Text.forallb] in Hd; by apply andb_true_iff in Hd as [? _]).
    rewrite !app_cons, app_nil_l. cbn [Price.search_price].
    assert (Text.is_digit "." = false) as -> by (vm_compute; reflexivity).
    assert (Text.is_digit " " = false) as -> by (vm_compute; reflexivity).
    rewrite Hc, match_price_digits by done. by apply digits_float.
  - unfold Price.extract_price_value.
    destruct (decide ("Rs. " +:+ d = "")) as [E|_]; [done|].
    destruct (decide ("Rs. " +:+ d = "N/A")) as [E|_]; [done|].
    rewrite clean_rs_dot by done. rewrite !app_cons, app_nil_l.
    cbn [Price.search_digits_dots Text.span].
    assert (Price.digit_or_dot "." = true) as -> by (vm_compute; reflexivity).
    assert (Price.digit_or_dot " " = false) as -> by (vm_compute; reflexivity).
    cbn [fst]. vm_compute. reflexivity.
Qed.

Lemma rs_dot_price_witness :
  Price.extract_price_from_text "Rs. 18499" = Some (18499 # 1)
  ∧ Price.extract_price_value "Rs. 18499" = Price.PosInf.
Proof.
  apply (rs_dot_price_has_no_price_value "18499"); [done| |].
  - vm_compute. reflexivity.
  - vm_compute. lia.
Defined.

Ltac calm_frame :=
  first
    [ apply lower_global_extends
    | apply extends_refl
    | apply extends_trans
    | done
    | unfold preserves; intros;
      first [ apply extends_refl
            | eexists [_]; split; [reflexivity|by apply Forall_singleton]
            | exists []; split; [cbn; by rewrite List.app_nil_r|done] ] ].

(** run [m], split on what it returns, and keep its bound *)
Ltac exec :=
  repeat match goal with
  | |- context [match ?m ?s with _ => _ end] =>
      lazymatch type of (m s) with
      | (res _ * state _)%type => idtac
      end;
      let B := fresh "B" in
      pose proof (within_bound (m := m) s) as B;
      destruct (m s) as [[?|?] ?]; cbn [fst snd] in B |- *
  | |- context [if ?b then _ else _] => destruct b
  | |- context [match ?x with Next => _ | Break => _ | Return _ => _ end] =>
      destruct x
  | |- context [match ?x with Some _ => _ | None => _ end] => destruct x
  | |- context [let '(_, _) := ?p in _] =>
      lazymatch type of p with
      | (res _ * state _)%type => fail
      | _ => destruct p
      end
  end;
  try match goal with
  | |- (swiped (snd (?m ?s)) <= _)%nat =>
      let B := fresh "B" in pose proof (within_bound (m := m) s) as B
  end.

Section Swipes.

Context {W : Type}.
Variable dev : Device W.
Variable env : Env.
Variable ORIGINAL_PRODUCT_NAME : string.

Lemma calm_within {A : Type} (m : M W A) : preserves (extends calm) m -> Within m 0.
Proof.
  intros H s. destruct (H s) as (evs & E & F). unfold swiped.
  rewrite E, swipes_in_app, (swipes_in_calm evs F). lia.
Qed.

#[local] Instance ret_within {A : Type} (a : A) : Within (@ret W A a) 0.
Proof. intros s. apply Nat.le_add_r. Qed.

#[local] Instance throw_within {A : Type} (e : exn) : Within (@throw W A e) 0.
Proof. intros s. apply Nat.le_add_r. Qed.

#[local] Instance lift_within {A : Type} (r : res A) : Within (@lift W A r) 0.
Proof. intros s. apply Nat.le_add_r. Qed.

#[local] Instance read_global_within : Within (@read_global W) 0.
Proof. intros s. apply Nat.le_add_r. Qed.

#[local] Instance visited_within (fp : string) : Within (@visited W fp) 0.
Proof. intros s. apply Nat.le_add_r. Qed.

#[local] Instance add_visited_within (fp : string) : Within (@add_visited W fp) 0.
Proof. intros s. apply Nat.le_add_r. Qed.

#[local] Instance append_history_within (v : Py.value) : Within (@append_history W v) 0.
Proof. intros s. apply Nat.le_add_r. Qed.

#[local] Instance global_or_within (d : Py.value) : Within (@global_or W d) 0.
Proof. intros s. apply Nat.le_add_r. Qed.

#[local] Instance lower_global_within (x : Py.value) : Within (W := W) (lower_global env x) 0.
Proof. apply calm_within, lower_global_extends. Qed.

#[local] Instance adb_within (cmd : adb_command) : Within (execute_adb_command dev cmd) 0.
Proof.
  apply calm_within, (preserves_adb dev (extends calm) calm); calm_frame.
Qed.

#[local] Instance info_within : Within (info dev) 0.
Proof. apply calm_within, (preserves_info dev (extends calm) calm); calm_frame. Qed.

#[local] Instance capture_screenshot_within : Within (capture_screenshot dev) 0.
Proof.
  apply calm_within, (preserves_capture_screenshot dev (extends calm) calm); calm_frame.
Qed.

#[local] Instance generate_content_within (req : request) :
  Within (generate_content dev req) 0.
Proof.
  apply calm_within, (preserves_generate_content dev (extends calm) calm); calm_frame.
Qed.

#[local] Instance accept_available_within (current_price : Py.value) (text : string) :
  Within (accept_available dev env current_price text) 0.
Proof.
  apply calm_within, (preserves_accept_available dev env (extends calm) calm); calm_frame.
Qed.

#[local] Instance check_page_errors_within : Within (check_page_errors dev) 0.
Proof.
  apply calm_within, (preserves_check_page_errors dev (extends calm) calm); calm_frame.
Qed.

#[local] Instance check_out_of_stock_within : Within (check_out_of_stock dev) 0.
Proof.
  apply calm_within, (preserves_check_out_of_stock dev (extends calm) calm); calm_frame.
Qed.

#[local] Instance get_current_price_within : Within (get_current_price_from_page dev) 0.
Proof.
  apply calm_within, (preserves_get_current_price dev (extends calm) calm); calm_frame.
Qed.

#[local] Instance extract_title_within : Within (extract_product_title_from_page dev) 0.
Proof.
  apply calm_within, (preserves_extract_title dev (extends calm) calm); calm_frame.
Qed.

#[local] Instance read_page_within : Within (read_page dev) 0.
Proof. apply calm_within, (preserves_read_page dev (extends calm) calm); calm_frame. Qed.

#[local] Instance smart_scroll_within (current_price : Py.value)
    (product_name : option string) :
  Within (smart_scroll_and_find_cheaper dev env ORIGINAL_PRODUCT_NAME
            current_price product_name) 15.
Proof.
  intros s.
  destruct (smart_scroll_log dev env ORIGINAL_PRODUCT_NAME current_price
              product_name s) as (evs & E & _ & L).
  unfold swiped. rewrite E, swipes_in_app. unfold max_scrolls in L. lia.
Qed.

#[local] Instance swipe_within (x1 y1 x2 y2 : Z) : Within (swipe dev x1 y1 x2 y2) 1.
Proof.
  intros s. unfold swipe, call, swiped.
  destruct (dev_swipe dev x1 y1 x2 y2 (world s)) as [r w].
  cbn [snd trace]. rewrite swipes_in_app.
  change (swipes_in [EvSwipe x1 y1 x2 y2 r]) with 1%nat. lia.
Qed.

#[local] Instance swipes_within (n : nat) (x y1 y2 : Z) : Within (swipes dev n x y1 y2) n.
Proof.
  induction n as [|n IH]; intros s; cbn [swipes].
  - apply Nat.le_add_r.
  - unfold mbind, M_bind, bind. exec; cbn [fst snd]; lia.
Qed.

#[local] Instance find_available_within (current_price : Py.value)
    (current_title : option string) :
  Within (find_available dev env ORIGINAL_PRODUCT_NAME current_price current_title) 5.
Proof.
  intros s. unfold find_available, catch, mbind, M_bind, bind. exec; cbn [fst snd]; lia.
Qed.

#[local] Instance error_branch_within (current_price : Py.value)
    (current_title : option string) :
  Within (error_branch dev env ORIGINAL_PRODUCT_NAME current_price current_title) 15.
Proof.
  intros s. unfold error_branch, mbind, M_bind, bind. exec; cbn [fst snd]; lia.
Qed.

#[local] Instance stock_branch_within (current_price : Py.value)
    (current_title : option string) :
  Within (stock_branch dev env ORIGINAL_PRODUCT_NAME current_price current_title) 20.
Proof.
  intros s. unfold stock_branch, mbind, M_bind, bind. exec; cbn [fst snd]; lia.
Qed.

#[local] Instance reload_verify_within (current_price : Py.value)
    (current_title : option string) :
  Within (reload_verify dev env ORIGINAL_PRODUCT_NAME current_price current_title) 15.
Proof.
  intros s. unfold reload_verify, mbind, M_bind, bind. exec; cbn [fst snd]; lia.
Qed.

#[local] Instance normal_branch_within (current_price : Py.value)
    (current_title : option string) :
  Within (normal_branch dev env ORIGINAL_PRODUCT_NAME current_price current_title) 30.
Proof.
  intros s. unfold normal_branch, mbind, M_bind, bind. exec; cbn [fst snd]; lia.
Qed.

#[local] Instance visit_within (current_price : Py.value)
    (current_title : option string) :
  Within (visit dev env ORIGINAL_PRODUCT_NAME current_price current_title) 30.
Proof.
  intros s. unfold visit, mbind, M_bind, bind. exec; cbn [fst snd]; lia.
Qed.

#[local] Instance iteration_within : Within (iteration dev env ORIGINAL_PRODUCT_NAME) 30.
Proof.
  intros s. unfold iteration, mbind, M_bind, bind. exec; cbn [fst snd]; lia.
Qed.

#[local] Instance final_pass_within : Within (final_pass dev env ORIGINAL_PRODUCT_NAME) 15.
Proof.
  intros s. unfold final_pass, mbind, M_bind, bind. exec; cbn [fst snd]; lia.
Qed.

Lemma iterate_within (n : nat) :
  Within (iterate dev env ORIGINAL_PRODUCT_NAME n) (30 * n + 15).
Proof.
  induction n as [|n IH]; intros s; cbn [iterate].
  - pose proof (within_bound (m := final_pass dev env ORIGINAL_PRODUCT_NAME) s). lia.
  - unfold mbind, M_bind, bind.
    pose proof (within_bound (m := iteration dev env ORIGINAL_PRODUCT_NAME) s) as B.
    destruct (iteration dev env ORIGINAL_PRODUCT_NAME s) as [[[| |o]|e] s1];
      cbn [fst snd] in B |- *.
    + specialize (IH s1). lia.
    + pose proof (within_bound (m := final_pass dev env ORIGINAL_PRODUCT_NAME) s1). lia.
    + unfold ret. cbn [fst snd]. lia.
    + lia.
Qed.

Lemma process_trace_extends (s : state W) :
  extends (fun _ => True) s
    (snd (process_product_page_loop dev env ORIGINAL_PRODUCT_NAME s)).
Proof.
  apply (preserves_process_product_page_loop dev env ORIGINAL_PRODUCT_NAME
           (extends (fun _ => True)) (fun _ => True)); calm_frame.
Qed.

End Swipes.

(** X19: a run of [process_product_page_loop] only adds to the log of
    device calls, and adds at most 105 swipes: at most 30 for each of its
    three iterations and 15 for the pass after them. *)
Theorem optimisation_loop_swipes_at_most_105_times
  {W : Type} (dev : Device W) (env : Env) (ORIGINAL_PRODUCT_NAME : string)
  (s : state W) :
  exists evs,
    trace (snd (process_product_page_loop dev env ORIGINAL_PRODUCT_NAME s))
    = trace s ++ evs
    ∧ (swipes_in evs <= 105)%nat.
Proof.
  destruct (process_trace_extends dev env ORIGINAL_PRODUCT_NAME s) as (evs & E & _).
  exists evs. split; [done|].
  pose proof (iterate_within dev env ORIGINAL_PRODUCT_NAME max_iterations s) as B.
  unfold swiped, process_product_page_loop in *. rewrite E, swipes_in_app in B.
  unfold max_iterations in B. lia.
Qed.

(** ** What an iteration reads *)

Section ReadPage.

Context {W : Type}.
Variable dev : Device W.

Lemma title_from_returns (sel : selector) (s : state W) :
  exists r, fst (title_from dev sel s) = Ok r.
Proof.
  unfold title_from, catch.
  match goal with |- context [match ?m s with _ => _ end] => destruct (m s) as [[r|e] s1] end.
  - by exists r.
  - by exists None.
Qed.

Lemma extract_title_returns (s : state W) :
  exists r, fst (extract_product_title_from_page dev s) = Ok r.
Proof.
  unfold extract_product_title_from_page, mbind, M_bind, bind.
  destruct (title_from_returns (ResourceId "com.android.chrome:id/title") s) as (r1 & E1).
  destruct (title_from dev (ResourceId "com.android.chrome:id/title") s) as [r s1].
  cbn in E1. subst r. destruct r1 as [t|]; [by exists (Some t)|].
  apply title_from_returns.
Qed.

Lemma get_current_price_returns (s : state W) :
  exists r : option Q,
    fst (get_current_price_from_page dev s) = Ok r
    ∧ forall q, r = Some q -> (0 < q)%Q.
Proof.
  unfold get_current_price_from_page, mbind, M_bind, bind.
  destruct (prices_matching_returns dev "₹" s) as (r1 & E1).
  destruct (prices_matching dev "₹" s) as [r s1] eqn:P1. cbn in E1. subst r.
  destruct r1 as [q1|].
  - exists (Some q1). split; [done|]. intros q [= <-].
    by eapply prices_matching_positive.
  - destruct (prices_matching_returns dev "Rs" s1) as (r2 & E2).
    destruct (prices_matching dev "Rs" s1) as [r s2] eqn:P2. cbn in E2. subst r.
    exists r2. split; [done|]. intros q ->.
    by eapply prices_matching_positive.
Qed.

Lemma read_page_keeps_global (s : state W) :
  GLOBAL_LOWEST_PRICE (snd (read_page dev s)) = GLOBAL_LOWEST_PRICE s.
Proof.
  apply (preserves_read_page dev
           (fun s s' => GLOBAL_LOWEST_PRICE s' = GLOBAL_LOWEST_PRICE s) (fun _ => True));
    try done.
  intros s1 s2 s3 H1 H2. by rewrite H2.
Qed.

End ReadPage.

(** X20: the reading of the page at the start of an iteration (lines
    577-582) never raises and leaves [GLOBAL_LOWEST_PRICE] as it is.  The
    current price it gives is a strictly positive price read from the
    page, or else the global lowest price when that is truthy, or else the
    integer 0: it is never [None]. *)
Theorem iteration_price_is_read_or_falls_back
  {W : Type} (dev : Device W) (s : state W) :
  exists (current_title : option string) (current_price : Py.value),
    fst (read_page dev s) = Ok (current_title, current_price)
    ∧ GLOBAL_LOWEST_PRICE (snd (read_page dev s)) = GLOBAL_LOWEST_PRICE s
    ∧ ((exists q, current_price = Py.VFloat q ∧ (0 < q)%Q)
       ∨ (current_price = GLOBAL_LOWEST_PRICE s ∧ Py.truthy current_price = true)
       ∨ (current_price = Py.VInt 0 ∧ Py.truthy (GLOBAL_LOWEST_PRICE s) = false)).
Proof.
  pose proof (read_page_keeps_global dev s) as G.
  unfold read_page, mbind, M_bind, bind in *.
  destruct (extract_title_returns dev s) as (t & Et).
  destruct (extract_product_title_from_page dev s) as [rt s1]. cbn in Et. subst rt.
  destruct (get_current_price_returns dev s1) as (p & Ep & Hp).
  destruct (get_current_price_from_page dev s1) as [rp s2]. cbn in Ep. subst rp.
  destruct p as [q|].
  - exists t, (Py.VFloat q). cbn in *. split_and!; [done|done|]. left. exists q.
    split; [done|by apply Hp].
  - unfold global_or, read_global, mbind, M_bind, bind, ret in *.
    cbn [fst snd] in *. rewrite G.
    destruct (Py.truthy (GLOBAL_LOWEST_PRICE s)) eqn:T.
    + exists t, (GLOBAL_LOWEST_PRICE s). split_and!; [done|done|]. right. left. done.
    + exists t, (Py.VInt 0). split_and!; [done|done|]. right. right. done.
Qed.

(** ** The scroll search and the error branch, seen from the loop *)

(** C10: on every device, runtime, price, title and state,
    [smart_scroll_and_find_cheaper] returns a pair [(found, price)] and
    raises nothing; when [found] is true, [price] is a number strictly
    lower than [current_price], itself a number; when [found] is false,
    [price] is [current_price]. *)
Theorem scroll_search_returns_found_and_price
  {W : Type} (dev : Device W) (env : Env) (ORIGINAL_PRODUCT_NAME : string)
  (current_price : Py.value) (product_name : option string) (s : state W) :
  exists (found : bool) (price : Py.value) (s' : state W),
    smart_scroll_and_find_cheaper dev env ORIGINAL_PRODUCT_NAME
      current_price product_name s = (Ok (found, price), s')
    ∧ (found = true -> strictly_lower price current_price)
    ∧ (found = false -> price = current_price).
Proof.
  destruct (smart_scroll_returns dev env ORIGINAL_PRODUCT_NAME
              current_price product_name s) as ([found price] & E & H1 & H2).
  destruct (smart_scroll_and_find_cheaper dev env ORIGINAL_PRODUCT_NAME
              current_price product_name s) as [r s'].
  cbn in E. subst r. by exists found, price, s'.
Qed.

(** C6: a run of [smart_scroll_and_find_cheaper] adds to the log at most 15
    swipes; and when the log of the run holds a swipe between two dumps of
    the hierarchy with the same hash, nothing follows it in the log (no
    screenshot, no oracle call, no swipe), and the run returns
    [(False, current_price)]. *)
Theorem scroll_search_is_bounded_and_stops_at_equal_hashes
  {W : Type} (dev : Device W) (env : Env) (ORIGINAL_PRODUCT_NAME : string)
  (current_price : Py.value) (product_name : option string) (s : state W) :
  exists evs,
    trace (snd (smart_scroll_and_find_cheaper dev env ORIGINAL_PRODUCT_NAME
                  current_price product_name s)) = trace s ++ evs
    ∧ (swipes_in evs <= 15)%nat
    ∧ (forall (pre post : list event) (a b : string) (x1 y1 x2 y2 : Z) (u : res unit),
         evs = pre ++ [EvDump (Ok a); EvSwipe x1 y1 x2 y2 u; EvDump (Ok b)] ++ post ->
         py_hash env a = py_hash env b ->
         post = []
         ∧ fst (smart_scroll_and_find_cheaper dev env ORIGINAL_PRODUCT_NAME
                  current_price product_name s) = Ok (false, current_price)).
Proof.
  destruct (smart_scroll_log dev env ORIGINAL_PRODUCT_NAME current_price
              product_name s) as (evs & E & He & S).
  exists evs. split; [done|]. split; [done|]. exact He.
Qed.

(** the scroll search on a page two steps above its end: a screenshot, and
    one swipe between two dumps that are equal *)
Example scroll_search_stops_at_the_end :
  trace (snd (smart_scroll_and_find_cheaper (Sim.phone two_offers) Ref.env
                "Galaxy M35 5G" (Py.VFloat (18000 # 1))
                (Some "Galaxy M35 5G (8GB, 128GB) Blue") (initial_state (1%nat, 3%nat))))
  = [EvInfo (Ok (1080, 2400)); EvScreenshot (Ok true);
     EvVision (FindCheaper (Some "Galaxy M35 5G (8GB, 128GB) Blue")
                 (Py.VFloat (18000 # 1))) (Ok "[]");
     EvDump (Ok "Galaxy M35 5G (8GB, 128GB) Blue@3");
     EvSwipe 540 1800 540 600 (Ok tt);
     EvDump (Ok "Galaxy M35 5G (8GB, 128GB) Blue@3")]
  ∧ fst (smart_scroll_and_find_cheaper (Sim.phone two_offers) Ref.env
           "Galaxy M35 5G" (Py.VFloat (18000 # 1))
           (Some "Galaxy M35 5G (8GB, 128GB) Blue") (initial_state (1%nat, 3%nat)))
    = Ok (false, Py.VFloat (18000 # 1)).
Proof. split; vm_compute; reflexivity. Qed.

Section ErrorPage.

Context {W : Type}.
Variable dev : Device W.
Variable env : Env.
Variable ORIGINAL_PRODUCT_NAME : string.

(** an iteration on a page not seen before is [visit] in the state that
    holds the new fingerprint and the new price *)
Lemma iteration_new (s s1 : state W) (current_title : option string)
    (current_price : Py.value) :
  read_page dev s = (Ok (current_title, current_price), s1) ->
  fingerprint env current_title current_price ∉ VISITED_PRODUCTS s1 ->
  iteration dev env ORIGINAL_PRODUCT_NAME s
  = visit dev env ORIGINAL_PRODUCT_NAME current_price current_title
      (recorded env current_title current_price s1).
Proof.
  intros E H. unfold iteration, mbind, M_bind, bind. rewrite E.
  unfold visited. by rewrite bool_decide_eq_false_2.
Qed.

Lemma visit_error (current_price : Py.value) (current_title : option string)
    (s s1 : state W) :
  check_page_errors dev s = (Ok true, s1) ->
  visit dev env ORIGINAL_PRODUCT_NAME current_price current_title s
  = error_branch dev env ORIGINAL_PRODUCT_NAME current_price current_title s1.
Proof. intros E. unfold visit, mbind, M_bind, bind. by rewrite E. Qed.

End ErrorPage.

(** C8, as the code has it: when the error check of an iteration on a page
    not seen before reports a page error, the iteration runs the scroll
    search with its current price; the search reports an alternative only
    when its price is strictly lower than the current price, and the loop
    then goes on to its next iteration; otherwise the loop returns
    [(False, current_price)] at line 608. *)
Theorem error_page_alternative_must_be_cheaper
  {W : Type} (dev : Device W) (env : Env) (ORIGINAL_PRODUCT_NAME : string)
  (current_price : Py.value) (current_title : option string) (s s1 s2 : state W) :
  read_page dev s = (Ok (current_title, current_price), s1) ->
  fingerprint env current_title current_price ∉ VISITED_PRODUCTS s1 ->
  check_page_errors dev (recorded env current_title current_price s1) = (Ok true, s2) ->
  exists (found : bool) (new_price : Py.value) (s3 : state W),
    smart_scroll_and_find_cheaper dev env ORIGINAL_PRODUCT_NAME
      current_price current_title s2 = (Ok (found, new_price), s3)
    ∧ (found = true ->
       strictly_lower new_price current_price
       ∧ iteration dev env ORIGINAL_PRODUCT_NAME s = (Ok Next, s3)
       ∧ forall n, iterate dev env ORIGINAL_PRODUCT_NAME (S n) s
                   = iterate dev env ORIGINAL_PRODUCT_NAME n s3)
    ∧ (found = false ->
       iteration dev env ORIGINAL_PRODUCT_NAME s
       = (Ok (Return (Outcome Line608 false current_price)), s3)
       ∧ process_product_page_loop dev env ORIGINAL_PRODUCT_NAME s
         = (Ok (Outcome Line608 false current_price), s3)).
Proof.
  intros R N E.
  destruct (smart_scroll_returns dev env ORIGINAL_PRODUCT_NAME
              current_price current_title s2) as ([found p] & F & H1 & H2).
  destruct (smart_scroll_and_find_cheaper dev env ORIGINAL_PRODUCT_NAME
              current_price current_title s2) as [r s3] eqn:S.
  cbn in F. subst r. exists found, p, s3. split; [done|].
  assert (iteration dev env ORIGINAL_PRODUCT_NAME s
          = (if found then Ok Next
             else Ok (Return (Outcome Line608 false current_price)), s3)) as I.
  { rewrite (iteration_new dev env ORIGINAL_PRODUCT_NAME s s1 _ _ R N).
    rewrite (visit_error dev env ORIGINAL_PRODUCT_NAME _ _ _ s2 E).
    unfold error_branch, mbind, M_bind, bind. rewrite S. by destruct found. }
  split; intros ->.
  - split; [by apply H1|]. split; [done|].
    intros n. cbn [iterate]. unfold mbind, M_bind, bind. by rewrite I.
  - split; [done|]. unfold process_product_page_loop, max_iterations.
    cbn [iterate]. unfold mbind, M_bind, bind. by rewrite I.
Qed.

Lemma error_page_witness :
  exists (found : bool) (new_price : Py.value) (s3 : state Sim.world),
    smart_scroll_and_find_cheaper (Sim.phone broken_page) Ref.env "Galaxy M35 5G"
      (Py.VFloat (100 # 1)) (Some "Galaxy M35 5G (8GB, 128GB)")
      (snd (check_page_errors (Sim.phone broken_page)
              (recorded Ref.env (Some "Galaxy M35 5G (8GB, 128GB)") (Py.VFloat (100 # 1))
                 (snd (read_page (Sim.phone broken_page) (initial_state (O, O)))))))
    = (Ok (found, new_price), s3)
    ∧ (found = true ->
       strictly_lower new_price (Py.VFloat (100 # 1))
       ∧ iteration (Sim.phone broken_page) Ref.env "Galaxy M35 5G" (initial_state (O, O))
         = (Ok Next, s3)
       ∧ forall n, iterate (Sim.phone broken_page) Ref.env "Galaxy M35 5G" (S n)
                     (initial_state (O, O))
                   = iterate (Sim.phone broken_page) Ref.env "Galaxy M35 5G" n s3)
    ∧ (found = false ->
       iteration (Sim.phone broken_page) Ref.env "Galaxy M35 5G" (initial_state (O, O))
       = (Ok (Return (Outcome Line608 false (Py.VFloat (100 # 1)))), s3)
       ∧ process_product_page_loop (Sim.phone broken_page) Ref.env "Galaxy M35 5G"
           (initial_state (O, O))
         = (Ok (Outcome Line608 false (Py.VFloat (100 # 1))), s3)).
Proof.
  apply (error_page_alternative_must_be_cheaper (Sim.phone broken_page) Ref.env
           "Galaxy M35 5G" (Py.VFloat (100 # 1)) (Some "Galaxy M35 5G (8GB, 128GB)")
           (initial_state (O, O))
           (snd (read_page (Sim.phone broken_page) (initial_state (O, O))))).
  - vm_compute. reflexivity.
  - intros H. vm_compute in H. discriminate H.
  - vm_compute. reflexivity.
Defined.

(** ** The price of a success *)

Section SuccessPrice.

Context {W : Type}.
Variable dev : Device W.
Variable env : Env.
Variable ORIGINAL_PRODUCT_NAME : string.













End SuccessPrice.



(** a run that ends in the final pass: each of the three iterations finds
    a cheaper offer, and the loop reports the global lowest price at line
    922, the 100 of the last offer *)
Example final_pass_reports_global_lowest :
  fst (process_product_page_loop (Sim.phone descending) Ref.env "Galaxy M35 5G"
         (initial_state (O, O)))
  = Ok (Outcome Line922 true (Py.VInt 100))
  ∧ PRICE_CHECK_HISTORY
      (snd (process_product_page_loop (Sim.phone descending) Ref.env "Galaxy M35 5G"
              (initial_state (O, O))))
    = [Py.VFloat (400 # 1); Py.VFloat (300 # 1); Py.VFloat (200 # 1)].
Proof. split; vm_compute; reflexivity. Qed.

(** ** The replies of the oracle *)

Section OracleReplies.

Import Oracle.





Context {W : Type}.
Variable dev : Device W.
Variable env : Env.
Variable ORIGINAL_PRODUCT_NAME : string.



End OracleReplies.


(** a list in prose is found by the search for brackets; two lists in one
    reply are not, the part from the first bracket to the last being no
    JSON *)
Example cheaper_reply_in_prose :
  Oracle.parse_cheaper Ref.env (Py.VFloat (20000 # 1))
    (Ref.quoted "Here you go: [{'price': 18000, 'x': 500, 'y': 900, 'title': 'Galaxy M35 5G'}] Enjoy!")
  = Ok (Py.VList [Py.VDict [("price", Py.VInt 18000); ("x", Py.VInt 500);
                            ("y", Py.VInt 900); ("title", Py.VStr "Galaxy M35 5G")]])
  ∧ Oracle.parse_cheaper Ref.env (Py.VFloat (20000 # 1))
      (Ref.quoted "Either [] or [{'price': 18000, 'x': 500, 'y': 900, 'title': 'Galaxy M35 5G'}]")
    = Ok (Py.VList []).
Proof. split; vm_compute; reflexivity. Qed.
